(** * M&A entry tool: document classifier and extraction cleaner

    A shallow embedding of [backend/app/core/classifier.py] and
    [backend/app/core/ai_orchestrator.py], followed by the properties of the
    classification scores, of the merge/clean step and of the deal identifier.

    Python [str] values are modelled as [string], each character read as the
    code point of the same number (U+0000 .. U+00FF).  The character classes
    below are the ones CPython uses for those code points. *)

From Stdlib Require Import String Ascii List Arith Bool Lia ZArith QArith.
From Stdlib Require Import PrimFloat DecimalString.
Import ListNotations.

Set Warnings "-abstract-large-number,-register-all".

Open Scope string_scope.
Open Scope nat_scope.
Open Scope list_scope.

(* ================================================================== *)
(** ** Python strings *)

Module PyStr.

Definition ord (c : ascii) : nat := nat_of_ascii c.

Definition in_range (lo hi : nat) (c : ascii) : bool :=
  (lo <=? ord c) && (ord c <=? hi).

(** [\d] of the [re] module on [str] patterns: the decimal digits. *)
Definition is_decimal (c : ascii) : bool := in_range 48 57 c.

(** [\w] of the [re] module on [str] patterns: alphanumeric code points and
    the underscore. *)
Definition is_word (c : ascii) : bool :=
  in_range 48 57 c || in_range 65 90 c || (ord c =? 95) || in_range 97 122 c
  || (ord c =? 170) || in_range 178 179 c || (ord c =? 181)
  || in_range 185 186 c || in_range 188 190 c || in_range 192 214 c
  || in_range 216 246 c || in_range 248 255 c.

(** [str.isspace] on one character: what [str.strip()] removes. *)
Definition is_space (c : ascii) : bool :=
  in_range 9 13 c || in_range 28 32 c || (ord c =? 133) || (ord c =? 160).

Definition is_upper (c : ascii) : bool :=
  in_range 65 90 c || in_range 192 214 c || in_range 216 222 c.

Definition lower_char (c : ascii) : ascii :=
  if is_upper c then ascii_of_nat (ord c + 32) else c.

(** [s.lower()] *)
Fixpoint lower (s : string) : string :=
  match s with
  | EmptyString => EmptyString
  | String c s' => String (lower_char c) (lower s')
  end.

Fixpoint lstrip (s : string) : string :=
  match s with
  | EmptyString => EmptyString
  | String c s' => if is_space c then lstrip s' else s
  end.

Fixpoint rstrip (s : string) : string :=
  match s with
  | EmptyString => EmptyString
  | String c s' =>
      match rstrip s' with
      | EmptyString => if is_space c then EmptyString else String c EmptyString
      | r => String c r
      end
  end.

(** [s.strip()] *)
Definition strip (s : string) : string := rstrip (lstrip s).

(** [re.sub(r'[^...]', '', s)]: the characters of the class are kept. *)
Fixpoint keep_chars (keep : ascii -> bool) (s : string) : string :=
  match s with
  | EmptyString => EmptyString
  | String c s' =>
      if keep c then String c (keep_chars keep s') else keep_chars keep s'
  end.

(** Every character of [s] is in the class. *)
Fixpoint all_chars (cl : ascii -> bool) (s : string) : bool :=
  match s with
  | EmptyString => true
  | String c s' => cl c && all_chars cl s'
  end.

(** [s[:n]] *)
Fixpoint take (n : nat) (s : string) : string :=
  match n, s with
  | S n', String c s' => String c (take n' s')
  | _, _ => EmptyString
  end.

(** [s[n:]] *)
Fixpoint drop (n : nat) (s : string) : string :=
  match n, s with
  | S n', String _ s' => drop n' s'
  | _, _ => s
  end.

(** [s.startswith(p)] *)
Fixpoint starts_with (p s : string) : bool :=
  match p, s with
  | EmptyString, _ => true
  | String a p', String b s' => Ascii.eqb a b && starts_with p' s'
  | String _ _, EmptyString => false
  end.

(** [p in s] *)
Fixpoint contains (p s : string) : bool :=
  starts_with p s
  || match s with
     | EmptyString => false
     | String _ s' => contains p s'
     end.

(** The scan of [s.count(p)] for a non-empty [p]: left to right, and after a
    match the search resumes behind it, so [skip] characters of the match
    are passed over without testing. *)
Fixpoint count_from (p : string) (skip : nat) (s : string) : nat :=
  match s with
  | EmptyString => 0
  | String _ s' =>
      match skip with
      | S k => count_from p k s'
      | O =>
          if starts_with p s
          then S (count_from p (String.length p - 1) s')
          else count_from p 0 s'
      end
  end.

(** [s.count(p)]: the number of non-overlapping occurrences of [p]. *)
Definition count (s p : string) : nat :=
  match p with
  | EmptyString => S (String.length s)
  | _ => count_from p 0 s
  end.

End PyStr.

(* ================================================================== *)
(** ** classifier.py *)

Module Classifier.

Record pattern := mkPattern { keywords : list string; phrases : list string }.

(** [self.patterns], in insertion order. *)
Definition patterns : list (string * pattern) :=
  [ ("press_release",
     mkPattern
       [ "press release"; "announces"; "acquisition"; "merger";
         "transaction"; "closing"; "signing"; "agreement";
         "forward-looking statements"; "safe harbor" ]
       [ "for immediate release"; "announced today"; "pleased to announce";
         "has agreed to acquire"; "has completed the acquisition" ]);
    ("quarterly_report",
     mkPattern
       [ "quarterly report"; "q1"; "q2"; "q3"; "q4";
         "quarterly results"; "earnings"; "fiscal quarter";
         "three months ended"; "quarterly financial" ]
       [ "quarterly report"; "financial results"; "quarterly earnings";
         "fiscal quarter ended" ]);
    ("annual_report",
     mkPattern
       [ "annual report"; "form 10-k"; "fiscal year";
         "annual results"; "yearly results"; "12 months ended";
         "annual financial"; "year ended" ]
       [ "annual report"; "fiscal year ended"; "year ended december";
         "twelve months ended" ]);
    ("investor_deck",
     mkPattern
       [ "investor presentation"; "company overview";
         "investment highlights"; "business strategy";
         "market opportunity"; "financial projections";
         "slide"; "presentation" ]
       [ "investor presentation"; "company overview"; "investment thesis";
         "business highlights" ]) ].

(** The body of the loop over [self.patterns.items()]: the score of one
    document type on the lowercased text. *)
Definition score (text_lower : string) (p : pattern) : nat :=
  let score :=
    fold_left
      (fun score keyword => score + PyStr.count text_lower (PyStr.lower keyword) * 1)
      (keywords p) 0 in
  fold_left
    (fun score phrase => score + PyStr.count text_lower (PyStr.lower phrase) * 2)
    (phrases p) score.

(** The [scores] dict, in insertion order. *)
Definition scores (text : string) : list (string * nat) :=
  let text_lower := PyStr.lower text in
  map (fun '(doc_type, p) => (doc_type, score text_lower p)) patterns.

(** [max(values)]; [None] is the [ValueError] of an empty sequence. *)
Definition py_max (values : list nat) : option nat :=
  match values with
  | [] => None
  | v :: rest => Some (fold_left Nat.max rest v)
  end.

(** [max(scores, key=scores.get)]: the first key whose value is maximal. *)
Fixpoint best_key (rest : list (string * nat)) (best : string) (best_v : nat) : string :=
  match rest with
  | [] => best
  | (k, v) :: rest' =>
      if best_v <? v then best_key rest' k v else best_key rest' best best_v
  end.

Definition py_max_key (scores : list (string * nat)) : option string :=
  match scores with
  | [] => None
  | (k, v) :: rest => Some (best_key rest k v)
  end.

Definition classify_document (text : string) : string :=
  let scores := scores text in
  match py_max (map snd scores) with
  | Some m =>
      if 0 <? m then
        match py_max_key scores with
        | Some best_match => best_match
        | None => "other"            (* except Exception *)
        end
      else "other"
  | None => "other"                  (* except Exception *)
  end.

(** [get_classification_confidence].  The quotient [score / total * 100] is
    a binary64 float in Python; it is modelled by the exact rational it
    rounds. *)
Definition get_classification_confidence (text : string) : list (string * Q) :=
  let scores := scores text in
  let total_score := list_sum (map snd scores) in
  if 0 <? total_score then
    map (fun '(doc_type, v) =>
           (doc_type,
            ((inject_Z (Z.of_nat v) / inject_Z (Z.of_nat total_score)) * 100)%Q))
        scores
  else
    map (fun '(doc_type, v) => (doc_type, inject_Z (Z.of_nat v))) scores.

Definition financial_keywords : list string :=
  [ "revenue"; "ebitda"; "earnings"; "profit"; "loss";
    "financial results"; "income statement"; "balance sheet";
    "cash flow"; "financial performance"; "million"; "billion" ].

Definition mna_keywords : list string :=
  [ "acquisition"; "merger"; "buyout"; "transaction"; "deal";
    "acquire"; "purchase"; "buy"; "sell"; "divestiture";
    "target"; "buyer"; "seller"; "closing"; "completion" ].

(** [sum(1 for keyword in kws if keyword in text_lower)] *)
Definition keyword_count (kws : list string) (text_lower : string) : nat :=
  list_sum
    (map (fun _ => 1) (filter (fun keyword => PyStr.contains keyword text_lower) kws)).

Definition is_financial_document (text : string) : bool :=
  let text_lower := PyStr.lower text in
  3 <=? keyword_count financial_keywords text_lower.

Definition is_mna_document (text : string) : bool :=
  let text_lower := PyStr.lower text in
  2 <=? keyword_count mna_keywords text_lower.

(** The closed set of document types of the API ([/supported-formats]). *)
Definition document_types : list string :=
  [ "press_release"; "quarterly_report"; "annual_report"; "investor_deck"; "other" ].

End Classifier.

(* ================================================================== *)
(** ** Wall-clock readings *)

Module PyTime.

(** A reading of [datetime.now()]. *)
Record datetime := mkDatetime
  { year : nat; month : nat; day : nat;
    hour : nat; minute : nat; second : nat; microsecond : nat }.

Definition digit (n : nat) : ascii := ascii_of_nat (48 + n mod 10).

(** The last two, four and six decimal digits, zero padded. *)
Definition pad2 (n : nat) : string :=
  String (digit (n / 10)) (String (digit n) EmptyString).
Definition pad4 (n : nat) : string := pad2 (n / 100) ++ pad2 n.
Definition pad6 (n : nat) : string := pad2 (n / 10000) ++ pad4 n.

Definition decimal (n : nat) : string := NilEmpty.string_of_uint (Nat.to_uint n).

(** [d.isoformat()] *)
Definition isoformat (d : datetime) : string :=
  pad4 (year d) ++ "-" ++ pad2 (month d) ++ "-" ++ pad2 (day d) ++ "T"
  ++ pad2 (hour d) ++ ":" ++ pad2 (minute d) ++ ":" ++ pad2 (second d)
  ++ (if microsecond d =? 0 then "" else "." ++ pad6 (microsecond d)).

(** [d.strftime('%Y%m%d_%H%M%S')]; [%Y] is the year in decimal, which has
    four digits from the year 1000 on. *)
Definition strftime_stamp (d : datetime) : string :=
  decimal (year d) ++ pad2 (month d) ++ pad2 (day d) ++ "_"
  ++ pad2 (hour d) ++ pad2 (minute d) ++ pad2 (second d).

(** The ranges of a [datetime] that the clock can return today. *)
Definition clock_reading (d : datetime) : bool :=
  (1000 <=? year d) && (year d <=? 9999)
  && (1 <=? month d) && (month d <=? 12)
  && (1 <=? day d) && (day d <=? 31)
  && (hour d <? 24) && (minute d <? 60) && (second d <? 60)
  && (microsecond d <? 1000000).

End PyTime.

(* ================================================================== *)
(** ** JSON values, as [json.loads] returns them *)

Module Json.

Inductive json :=
| JNull
| JBool (b : bool)
| JInt (z : Z)
| JFloat (f : float)
| JStr (s : string)
| JArr (items : list json)
| JObj (members : list (string * json)).

(** A [dict] with [str] keys, in insertion order. *)
Definition pydict := list (string * json).

(** [d.get(k)] *)
Fixpoint dict_get (d : pydict) (k : string) : option json :=
  match d with
  | [] => None
  | (k', v) :: d' => if String.eqb k' k then Some v else dict_get d' k
  end.

(** [k in d] *)
Definition dict_mem (d : pydict) (k : string) : bool :=
  match dict_get d k with Some _ => true | None => false end.

(** [d.get(k, default)] *)
Definition dict_get_default (d : pydict) (k : string) (default : json) : json :=
  match dict_get d k with Some v => v | None => default end.

(** [d[k] = v]: an existing key keeps its place, a new one goes last. *)
Fixpoint dict_set (d : pydict) (k : string) (v : json) : pydict :=
  match d with
  | [] => [(k, v)]
  | (k', v') :: d' =>
      if String.eqb k' k then (k', v) :: d' else (k', v') :: dict_set d' k v
  end.

Definition dict_keys (d : pydict) : list string := map fst d.

(** [bool(v)] *)
Definition truthy (v : json) : bool :=
  match v with
  | JNull => false
  | JBool b => b
  | JInt z => negb (Z.eqb z 0)
  | JFloat f => negb (PrimFloat.eqb f 0%float)
  | JStr s => negb (String.eqb s "")
  | JArr items => match items with [] => false | _ => true end
  | JObj members => match members with [] => false | _ => true end
  end.

(** [v == s] for a [str] [s] *)
Definition py_eq_str (v : json) (s : string) : bool :=
  match v with
  | JStr t => String.eqb t s
  | _ => false
  end.

(** [isinstance(v, str)] *)
Definition is_str (v : json) : bool :=
  match v with JStr _ => true | _ => false end.

End Json.

(* ================================================================== *)
(** ** ai_orchestrator.py *)

Module Extractor.
Import Json PyTime.

(** The keys of [self.mna_schema], in insertion order.  No statement of the
    module adds or removes a key of this outer dict. *)
Inductive section :=
| DealSummary | Financials | Advisors | PowerPlantDetails | Metadata.

Definition section_name (s : section) : string :=
  match s with
  | DealSummary => "deal_summary"
  | Financials => "financials"
  | Advisors => "advisors"
  | PowerPlantDetails => "power_plant_details"
  | Metadata => "metadata"
  end.

Definition sections : list section :=
  [DealSummary; Financials; Advisors; PowerPlantDetails; Metadata].

(** The five inner dicts that [self.mna_schema] refers to.  [dict.copy()] is
    shallow: [self.mna_schema.copy()] is a new outer dict whose values are
    these same five objects, so every [cleaned_data], [error_data] and
    returned record reads and writes this store. *)
Record schema_store := mkStore
  { deal_summary : pydict;
    financials : pydict;
    advisors : pydict;
    power_plant_details : pydict;
    metadata : pydict }.

Definition fields_of (st : schema_store) (s : section) : pydict :=
  match s with
  | DealSummary => deal_summary st
  | Financials => financials st
  | Advisors => advisors st
  | PowerPlantDetails => power_plant_details st
  | Metadata => metadata st
  end.

Definition set_fields (st : schema_store) (s : section) (d : pydict) : schema_store :=
  match s with
  | DealSummary => mkStore d (financials st) (advisors st) (power_plant_details st) (metadata st)
  | Financials => mkStore (deal_summary st) d (advisors st) (power_plant_details st) (metadata st)
  | Advisors => mkStore (deal_summary st) (financials st) d (power_plant_details st) (metadata st)
  | PowerPlantDetails => mkStore (deal_summary st) (financials st) (advisors st) d (metadata st)
  | Metadata => mkStore (deal_summary st) (financials st) (advisors st) (power_plant_details st) d
  end.

(** [x[section][field] = v] for any [x] obtained from [self.mna_schema] *)
Definition store_set (st : schema_store) (s : section) (field : string) (v : json)
  : schema_store :=
  set_fields st s (dict_set (fields_of st s) field v).

(** [x[section][field]] *)
Definition store_get (st : schema_store) (s : section) (field : string) : option json :=
  dict_get (fields_of st s) field.

(** The schema as [__init__] builds it; [created] is the clock reading of
    that moment. *)
Definition mna_schema (created : datetime) : schema_store :=
  {| deal_summary :=
       [ ("deal_name", JStr ""); ("deal_type", JStr "");
         ("target_company", JStr ""); ("buyer", JStr ""); ("seller", JStr "");
         ("country", JStr ""); ("announcement_date", JStr "");
         ("signing_date", JStr ""); ("closing_date", JStr "");
         ("deal_size_usd", JStr ""); ("currency", JStr ""); ("status", JStr "") ];
     financials :=
       [ ("revenue", JStr ""); ("ebitda", JStr ""); ("enterprise_value", JStr "");
         ("ev_ebitda_multiple", JStr ""); ("debt_assumed", JStr "");
         ("other_key_metrics", JStr "") ];
     advisors :=
       [ ("buy_side_advisor", JStr ""); ("sell_side_advisor", JStr "");
         ("legal_counsel_buyer", JStr ""); ("legal_counsel_seller", JStr "");
         ("other_advisors", JStr "") ];
     power_plant_details :=
       [ ("project_name", JStr ""); ("location", JStr ""); ("capacity_mw", JStr "");
         ("technology_type", JStr ""); ("cod", JStr "") ];
     metadata :=
       [ ("deal_id", JStr ""); ("source_file_name", JStr "");
         ("date_processed", JStr (isoformat created));
         ("extraction_confidence", JStr "") ] |}.

(** A returned record, as the caller reads it. *)
Definition record_json (st : schema_store) : json :=
  JObj (map (fun s => (section_name s, JObj (fields_of st s))) sections).

(** *** Exceptions *)

Inductive type_error_site :=
| NotAContainer      (* [section in data] on None, a bool or a number *)
| BadSubscript       (* [data[section]] on a list or a str *)
| RegexOperand.      (* a [re] function on a value that is not a str *)

Inductive exn :=
| TypeError (site : type_error_site)
| KeyError (key : string)
| JSONDecodeError (msg : string)
| CollaboratorError (descr : string).   (* any other exception, with its text *)

(** The library functions the module calls and that are not modelled here. *)
Class PyRuntime := mkRuntime
  { (** [json.loads]: the value, or the exception it raises *)
    json_loads : string -> exn + json;
    (** [json.dumps(_, indent=2)] *)
    json_dumps : json -> string;
    (** [str(v)] for a value that is not a [str] *)
    py_repr : json -> string;
    (** [str(e)] *)
    exn_str : exn -> string }.

(** *** Computations on the store that may raise *)

Definition M (A : Type) : Type := schema_store -> (exn + A) * schema_store.

Definition ret {A} (a : A) : M A := fun st => (inr a, st).
Definition raise {A} (e : exn) : M A := fun st => (inl e, st).
Definition bind {A B} (m : M A) (k : A -> M B) : M B :=
  fun st =>
    match m st with
    | (inr a, st') => k a st'
    | (inl e, st') => (inl e, st')
    end.
Definition lift {A} (r : exn + A) : M A := fun st => (r, st).
Definition get_store : M schema_store := fun st => (inr st, st).
Definition write (s : section) (field : string) (v : json) : M unit :=
  fun st => (inr tt, store_set st s field v).

Declare Scope py_scope.
Delimit Scope py_scope with py.
Notation "x <- m ;; k" := (bind m (fun x => k))
  (at level 61, m at next level, right associativity) : py_scope.
Notation "m ;;; k" := (bind m (fun _ => k))
  (at level 61, right associativity) : py_scope.
Open Scope py_scope.

Fixpoint for_each {A} (l : list A) (body : A -> M unit) : M unit :=
  match l with
  | [] => ret tt
  | x :: rest => body x ;;; for_each rest body
  end.

(** *** _parse_ai_response *)

(** What [_parse_ai_response] returns: a value built by [json.loads], or, on
    a decode error, [self.mna_schema.copy()], whose sections are the shared
    inner dicts. *)
Inductive parsed :=
| Fresh (j : json)
| SchemaCopy.

Definition open_brace : ascii := "{"%char.
Definition close_brace : ascii := "}"%char.

(** The suffix of [s] from its first [c] on. *)
Fixpoint from_first (c : ascii) (s : string) : option string :=
  match s with
  | EmptyString => None
  | String a s' => if Ascii.eqb a c then Some s else from_first c s'
  end.

(** The prefix of [s] up to and including its last [c]. *)
Fixpoint upto_last (c : ascii) (s : string) : option string :=
  match s with
  | EmptyString => None
  | String a s' =>
      match upto_last c s' with
      | Some r => Some (String a r)
      | None => if Ascii.eqb a c then Some (String a EmptyString) else None
      end
  end.

(** [re.search(r'\{.*\}', s, re.DOTALL)]: from the first brace that has a
    closing brace behind it, greedily to the last closing brace. *)
Definition re_search_braces (s : string) : option string :=
  match from_first open_brace s with
  | Some t => upto_last close_brace t
  | None => None
  end.

Definition _parse_ai_response `{PyRuntime} (response_text : option string) : M parsed :=
  match response_text with
  | None => raise (TypeError RegexOperand)     (* re.search on None *)
  | Some response_text =>
      let json_str :=
        match re_search_braces response_text with
        | Some json_str => json_str
        | None => response_text
        end in
      match json_loads json_str with
      | inr j => ret (Fresh j)
      | inl (JSONDecodeError _) => ret SchemaCopy    (* except json.JSONDecodeError *)
      | inl e => raise e
      end
  end.

(** *** _validate_and_clean_data *)

(** [key in data] *)
Definition py_in (key : string) (data : json) : exn + bool :=
  match data with
  | JObj members => inr (dict_mem members key)
  | JArr items => inr (existsb (fun v => py_eq_str v key) items)
  | JStr s => inr (PyStr.contains key s)
  | _ => inl (TypeError NotAContainer)
  end.

(** [data[key]] *)
Definition py_getitem (data : json) (key : string) : exn + json :=
  match data with
  | JObj members =>
      match dict_get members key with
      | Some v => inr v
      | None => inl (KeyError key)
      end
  | _ => inl (TypeError BadSubscript)
  end.

(** The dict [data[section]]: one of the parsed result, or a shared one. *)
Inductive dict_ref :=
| Own (d : pydict)
| Shared (s : section).

(** [section in data and isinstance(data[section], dict)], with the dict
    when the test holds. *)
Definition section_dict (data : parsed) (s : section) : M (option dict_ref) :=
  match data with
  | SchemaCopy => ret (Some (Shared s))
  | Fresh j =>
      present <- lift (py_in (section_name s) j) ;;
      if present : bool then
        v <- lift (py_getitem j (section_name s)) ;;
        match v with
        | JObj d => ret (Some (Own d))
        | _ => ret None
        end
      else ret None
  end.

(** [data[section].get(field)], read when the loop reaches the field. *)
Definition ref_get (r : dict_ref) (field : string) : M (option json) :=
  fun st =>
    match r with
    | Own d => (inr (dict_get d field), st)
    | Shared s => (inr (store_get st s field), st)
    end.

Definition sentinels : list string := [""; "n/a"; "null"; "none"].

(** Lines 165-168: a [str] is stripped and a sentinel becomes [""]; any
    other value passes as it is. *)
Definition clean_value (value : json) : json :=
  match value with
  | JStr s =>
      let value := PyStr.strip s in
      if existsb (String.eqb (PyStr.lower value)) sentinels
      then JStr ""
      else JStr value
  | _ => value
  end.

Definition merge_field (s : section) (r : dict_ref) (field : string) : M unit :=
  found <- ref_get r field ;;
  match found with
  | Some value => write s field (clean_value value)
  | None => ret tt
  end.

Definition merge_section (data : parsed) (s : section) : M unit :=
  r <- section_dict data s ;;
  match r with
  | Some r =>
      st <- get_store ;;
      for_each (dict_keys (fields_of st s)) (merge_field s r)
  | None => ret tt
  end.

(** Lines 156-169: the merge of the parsed result into the schema. *)
Definition merge_extracted (data : parsed) : M unit :=
  for_each sections (merge_section data).

Definition date_fields : list (section * string) :=
  [ (DealSummary, "announcement_date"); (DealSummary, "signing_date");
    (DealSummary, "closing_date"); (PowerPlantDetails, "cod") ].

Fixpoint match_classes (classes : list (ascii -> bool)) (s : string) : bool :=
  match classes, s with
  | [], _ => true
  | cl :: classes', String c s' => cl c && match_classes classes' s'
  | _ :: _, EmptyString => false
  end.

Definition is_dash (c : ascii) : bool := Ascii.eqb c "-"%char.

(** [re.match(r'\d{4}-\d{2}-\d{2}', s)] *)
Definition re_match_iso_date (s : string) : bool :=
  match_classes
    [ PyStr.is_decimal; PyStr.is_decimal; PyStr.is_decimal; PyStr.is_decimal; is_dash;
      PyStr.is_decimal; PyStr.is_decimal; is_dash; PyStr.is_decimal; PyStr.is_decimal ]
    s.

Definition validate_date (sf : section * string) : M unit :=
  let '(s, field) := sf in
  st <- get_store ;;
  match store_get st s field with
  | Some date_str =>
      if truthy date_str && negb (py_eq_str date_str "N/A") then
        match date_str with
        | JStr d =>
            if re_match_iso_date d
            then ret tt                       (* continue *)
            else ret tt                       (* pass *)
        | _ => write s field (JStr "")        (* TypeError of re.match; bare except *)
        end
      else ret tt
  | None => ret tt
  end.

Definition _validate_dates : M unit := for_each date_fields validate_date.

Definition monetary_fields : list (section * string) :=
  [ (DealSummary, "deal_size_usd"); (Financials, "revenue"); (Financials, "ebitda");
    (Financials, "enterprise_value"); (Financials, "debt_assumed") ].

(** [str(value)] *)
Definition py_str `{PyRuntime} (value : json) : string :=
  match value with
  | JStr s => s
  | _ => py_repr value
  end.

Definition is_digit_or_dot (c : ascii) : bool :=
  PyStr.is_decimal c || Ascii.eqb c "."%char.

Definition validate_money `{PyRuntime} (sf : section * string) : M unit :=
  let '(s, field) := sf in
  st <- get_store ;;
  match store_get st s field with
  | Some value =>
      if truthy value && negb (py_eq_str value "N/A") then
        let cleaned_value := PyStr.keep_chars is_digit_or_dot (py_str value) in
        write s field (JStr cleaned_value)
      else ret tt
  | None => ret tt
  end.

Definition _validate_monetary_values `{PyRuntime} : M unit :=
  for_each monetary_fields validate_money.

Definition _validate_and_clean_data `{PyRuntime} (data : parsed) : M unit :=
  merge_extracted data ;;;
  _validate_dates ;;;
  _validate_monetary_values.

(** *** _generate_deal_id *)

(** [re.sub(r'[^c]', '', v)] for a character class [c] *)
Definition re_sub_keep (keep : ascii -> bool) (v : json) : exn + string :=
  match v with
  | JStr s => inr (PyStr.keep_chars keep s)
  | _ => inl (TypeError RegexOperand)
  end.

Definition timestamp_id (now : datetime) : string :=
  ("DEAL_" ++ strftime_stamp now)%string.

Definition _generate_deal_id (now : datetime) (data : schema_store) : string :=
  let target := dict_get_default (deal_summary data) "target_company" (JStr "") in
  let date := dict_get_default (deal_summary data) "announcement_date" (JStr "") in
  if truthy target then
    match re_sub_keep PyStr.is_word target with
    | inr t =>
        let target_clean := PyStr.take 10 t in
        match re_sub_keep PyStr.is_decimal date with
        | inr d =>
            let date_clean := PyStr.take 8 d in
            ("DEAL_" ++ target_clean ++ "_" ++ date_clean)%string
        | inl _ => timestamp_id now            (* bare except *)
        end
    | inl _ => timestamp_id now                (* bare except *)
    end
  else timestamp_id now.

(** *** process_document *)

Definition newline : string := String (ascii_of_nat 10) EmptyString.

Definition _create_extraction_prompt `{PyRuntime} (text doc_type : string) : M string :=
  st <- get_store ;;
  ret (newline
       ++ "Extract M&A deal information from this " ++ doc_type
       ++ " document. Return data in the exact JSON format specified below."
       ++ newline ++ newline ++ "Document Text:" ++ newline
       ++ PyStr.take 4000 text ++ "  # Truncate to avoid token limits"
       ++ newline ++ newline ++ "Required JSON Format:" ++ newline
       ++ json_dumps (record_json st)
       ++ newline ++ newline ++ "Instructions:" ++ newline
       ++ "1. Extract only information that is explicitly stated in the document" ++ newline
       ++ "2. Use " ++ String (ascii_of_nat 34) "N/A" ++ String (ascii_of_nat 34)
       " for fields that cannot be determined" ++ newline
       ++ "3. For dates, use format: YYYY-MM-DD" ++ newline
       ++ "4. For monetary values, include only numbers (no currency symbols)" ++ newline
       ++ "5. For deal_type, use " ++ String (ascii_of_nat 34) "Asset" ++ String (ascii_of_nat 34)
       " or " ++ String (ascii_of_nat 34) "Corporate" ++ String (ascii_of_nat 34) newline
       ++ "6. For technology_type, use: Solar, Wind, BESS, Hydro, Gas, etc." ++ newline
       ++ "7. Return only valid JSON, no additional text" ++ newline
       ++ newline ++ "JSON Response:" ++ newline)%string.

(** The collaborators of one call: the completion service, which answers a
    prompt with the content of its first choice ([None] when that message
    has no content) or raises, and the two clock readings of the call. *)
Record world := mkWorld
  { chat_completion : string -> exn + option string;
    now_processed : datetime;      (* line 99 *)
    now_deal_id : datetime }.      (* lines 240 and 243 *)

(** The [try] block of [process_document]. *)
Definition process_body `{PyRuntime} (w : world) (text doc_type : string) : M unit :=
  extraction_prompt <- _create_extraction_prompt text doc_type ;;
  content <- lift (chat_completion w extraction_prompt) ;;
  extracted_data <- _parse_ai_response content ;;
  _validate_and_clean_data extracted_data ;;;
  write Metadata "date_processed" (JStr (isoformat (now_processed w))) ;;;
  (cleaned_data <- get_store ;;
   write Metadata "deal_id" (JStr (_generate_deal_id (now_deal_id w) cleaned_data))).

(** [process_document]: the returned record, read at the return, and the
    store the call leaves behind.  Both are the same five dicts. *)
Definition process_document `{PyRuntime} (w : world) (text doc_type : string)
                            (st : schema_store) : schema_store * schema_store :=
  match process_body w text doc_type st with
  | (inr _, st') => (st', st')
  | (inl e, st') =>
      let error_data := store_set st' Metadata "extraction_error" (JStr (exn_str e)) in
      (error_data, error_data)
  end.

Close Scope py_scope.

End Extractor.

(* ================================================================== *)
(** ** The specification's reading of the classifier

    These definitions follow the words of the specification; the theorems
    below compare them with the functions of [Classifier]. *)

Module Spec.

(** [p] stands at the start of [s], letter case ignored. *)
Fixpoint ci_starts_with (p s : string) : bool :=
  match p, s with
  | EmptyString, _ => true
  | String a p', String b s' =>
      Ascii.eqb (PyStr.lower_char a) (PyStr.lower_char b) && ci_starts_with p' s'
  | String _ _, EmptyString => false
  end.

(** The number of positions of [s] at which [p] occurs, letter case
    ignored.  Every position counts, so overlapping occurrences all count. *)
Fixpoint occurrences (p s : string) : nat :=
  (if ci_starts_with p s then 1 else 0)
  + match s with
    | EmptyString => 0
    | String _ s' => occurrences p s'
    end.

(** Score = sum of occurrences times weight, over both term lists. *)
Definition weighted_score (text : string) (p : Classifier.pattern) : nat :=
  list_sum (map (fun keyword => occurrences keyword text * 1) (Classifier.keywords p))
  + list_sum (map (fun phrase => occurrences phrase text * 2) (Classifier.phrases p)).

Fixpoint pattern_of (label : string) (table : list (string * Classifier.pattern))
  : option Classifier.pattern :=
  match table with
  | [] => None
  | (l, p) :: table' => if String.eqb l label then Some p else pattern_of label table'
  end.

Definition label_score (text label : string) : nat :=
  match pattern_of label Classifier.patterns with
  | Some p => weighted_score text p
  | None => 0
  end.

(** [k] occurs in [text] as a substring, letter case ignored. *)
Definition ci_occurs (k text : string) : Prop :=
  exists pre w post,
    text = (pre ++ w ++ post)%string /\ PyStr.lower w = PyStr.lower k.

(** At least [n] distinct keywords of [kws] occur in [text]. *)
Definition at_least (n : nat) (kws : list string) (text : string) : Prop :=
  exists found : list string,
    NoDup found /\ incl found kws /\ n <= List.length found
    /\ forall k, In k found -> ci_occurs k text.

(** [q] has a border when a proper, non-empty suffix of it is also a
    prefix; an unbordered string cannot overlap a copy of itself. *)
Definition unbordered (q : string) : bool :=
  forallb (fun j => negb (PyStr.starts_with (PyStr.drop j q) q))
          (seq 1 (String.length q - 1)).

(** Every position of [s] at which [q] stands, overlapping ones included. *)
Fixpoint overlap_count (q s : string) : nat :=
  (if PyStr.starts_with q s then 1 else 0)
  + match s with
    | EmptyString => 0
    | String _ s' => overlap_count q s'
    end.

(** A term that [str.count] can be compared on: not empty, and unbordered
    once lowercased. *)
Definition plain_term (q : string) : bool :=
  negb (String.eqb (PyStr.lower q) "") && unbordered (PyStr.lower q).

(** Some keyword or phrase of the table occurs in [text]. *)
Definition any_match (text : string) : Prop :=
  exists label p term,
    In (label, p) Classifier.patterns
    /\ In term (Classifier.keywords p ++ Classifier.phrases p)
    /\ 0 < occurrences term text.

(** A raw score as a percentage of the total. *)
Definition percentage (total v : nat) : Q :=
  (inject_Z (Z.of_nat v) / inject_Z (Z.of_nat total) * 100)%Q.

(** The sum of a list of percentages. *)
Definition Qsum (l : list Q) : Q := fold_right Qplus 0%Q l.

End Spec.

(* ================================================================== *)
(** ** The store read cell by cell

    The statements of [ai_orchestrator.py] that write to the store all have
    one form: the field of one section is replaced by a function of its
    present value.  The definitions below name that form and the functions
    involved; the theorems relate the code to them. *)

Module Cells.
Import Json PyTime Extractor.

Definition section_eqb (a b : section) : bool :=
  match a, b with
  | DealSummary, DealSummary | Financials, Financials | Advisors, Advisors
  | PowerPlantDetails, PowerPlantDetails | Metadata, Metadata => true
  | _, _ => false
  end.

Definition cell : Type := section * string.

Definition cell_eqb (a b : cell) : bool :=
  section_eqb (fst a) (fst b) && String.eqb (snd a) (snd b).

(** The field [c], when it exists, is replaced by [g] of its value. *)
Definition update_cell (c : cell) (g : json -> json) (st : schema_store) : schema_store :=
  match store_get st (fst c) (snd c) with
  | Some v => store_set st (fst c) (snd c) (g v)
  | None => st
  end.

Fixpoint apply_updates (us : list (cell * (json -> json))) (st : schema_store)
  : schema_store :=
  match us with
  | [] => st
  | (c, g) :: us' => apply_updates us' (update_cell c g st)
  end.

(** What a run of updates makes of the value [v] of the cell [c]. *)
Fixpoint updates_at (us : list (cell * (json -> json))) (c : cell) (v : json) : json :=
  match us with
  | [] => v
  | (c', g) :: us' => updates_at us' c (if cell_eqb c' c then g v else v)
  end.

(** [data[section][field]] of a parsed object, when [data[section]] is a
    dict that has the field. *)
Definition parsed_field (data : pydict) (c : cell) : option json :=
  match dict_get data (section_name (fst c)) with
  | Some (JObj d) => dict_get d (snd c)
  | _ => None
  end.

(** The merge of one field with the dict [d] of its section. *)
Definition merge_fn (d : pydict) (field : string) (old : json) : json :=
  match dict_get d field with
  | Some value => clean_value value
  | None => old
  end.

(** The merge of one field with a parsed object. *)
Definition merged (data : pydict) (c : cell) (old : json) : json :=
  match parsed_field data c with
  | Some value => clean_value value
  | None => old
  end.

(** The effect of [_validate_dates] on the value of a date field. *)
Definition date_fix (v : json) : json :=
  if truthy v && negb (is_str v) then JStr "" else v.

(** The effect of [_validate_monetary_values] on the value of a monetary
    field. *)
Definition money_fix `{PyRuntime} (v : json) : json :=
  if truthy v && negb (py_eq_str v "N/A")
  then JStr (PyStr.keep_chars is_digit_or_dot (py_str v))
  else v.

Definition is_date_field (c : cell) : bool :=
  existsb (fun c' => cell_eqb c' c) date_fields.
Definition is_money_field (c : cell) : bool :=
  existsb (fun c' => cell_eqb c' c) monetary_fields.

(** The updates of the merge loop on one section, for a parsed object. *)
Definition section_updates (data : pydict) (st : schema_store) (s : section)
  : list (cell * (json -> json)) :=
  match dict_get data (section_name s) with
  | Some (JObj d) => map (fun f => ((s, f), merge_fn d f)) (dict_keys (fields_of st s))
  | _ => []
  end.

(** The value [_validate_and_clean_data] leaves in the cell [c] that held
    [old], for a parsed object [data]. *)
Definition cleaned `{PyRuntime} (data : pydict) (c : cell) (old : json) : json :=
  let v := merged data c old in
  let v := if is_date_field c then date_fix v else v in
  if is_money_field c then money_fix v else v.

(** The field names of the schema, section by section. *)
Definition schema_fields (s : section) : list string :=
  match s with
  | DealSummary =>
      [ "deal_name"; "deal_type"; "target_company"; "buyer"; "seller"; "country";
        "announcement_date"; "signing_date"; "closing_date"; "deal_size_usd";
        "currency"; "status" ]
  | Financials =>
      [ "revenue"; "ebitda"; "enterprise_value"; "ev_ebitda_multiple";
        "debt_assumed"; "other_key_metrics" ]
  | Advisors =>
      [ "buy_side_advisor"; "sell_side_advisor"; "legal_counsel_buyer";
        "legal_counsel_seller"; "other_advisors" ]
  | PowerPlantDetails =>
      [ "project_name"; "location"; "capacity_mw"; "technology_type"; "cod" ]
  | Metadata =>
      [ "deal_id"; "source_file_name"; "date_processed"; "extraction_confidence" ]
  end.

(** A record has the shape of the schema: the five sections, each with the
    fields of the schema and no other. *)
Definition has_schema_shape (r : schema_store) : Prop :=
  forall s, dict_keys (fields_of r s) = schema_fields s.

(** The default of a field in the schema built at [created]. *)
Definition default_value (created : datetime) (c : cell) : json :=
  if cell_eqb c (Metadata, "date_processed")
  then JStr (isoformat created)
  else JStr "".

(** null, a boolean or a number: a parsed result that [in] cannot search. *)
Definition is_scalar (j : json) : bool :=
  match j with
  | JNull | JBool _ | JInt _ | JFloat _ => true
  | _ => false
  end.

(** Whitespace trim, then collapse of the sentinel values. *)
Definition trim_collapse (v : string) : string :=
  let t := PyStr.strip v in
  if existsb (String.eqb (PyStr.lower t)) sentinels then "" else t.



(** The text a completion answers with, for the prompt built on the store. *)
Definition response `{PyRuntime} (w : world) (text doc_type : string) (st : schema_store)
  : exn + option string :=
  match _create_extraction_prompt text doc_type st with
  | (inr prompt, _) => chat_completion w prompt
  | (inl e, _) => inl e
  end.

(** The string [_parse_ai_response] hands to [json.loads]. *)
Definition json_candidate (response_text : string) : string :=
  match re_search_braces response_text with
  | Some json_str => json_str
  | None => response_text
  end.

(** What [_parse_ai_response] returns, or raises, for a response text. *)
Definition parse_result `{PyRuntime} (response_text : string) : exn + parsed :=
  match json_loads (json_candidate response_text) with
  | inr j => inr (Fresh j)
  | inl (JSONDecodeError _) => inr SchemaCopy
  | inl e => inl e
  end.

(** The two stamps that follow a merge/clean step that returned. *)
Definition stamped (w : world) (st : schema_store) : schema_store :=
  let st := store_set st Metadata "date_processed" (JStr (isoformat (now_processed w))) in
  store_set st Metadata "deal_id" (JStr (_generate_deal_id (now_deal_id w) st)).

End Cells.

(* ================================================================== *)
(** ** Sample collaborators for the concrete runs *)

Module Sample.
Import Json PyTime Extractor.

Definition quoted (s : string) : string :=
  (String (ascii_of_nat 34) s ++ String (ascii_of_nat 34) EmptyString)%string.

(** [{"deal_summary": {"buyer": "Acme"}}] *)
Definition buyer_response : string :=
  ("{" ++ quoted "deal_summary" ++ ": {" ++ quoted "buyer" ++ ": "
   ++ quoted "Acme" ++ "}}")%string.

Definition buyer_object : json :=
  JObj [ ("deal_summary", JObj [ ("buyer", JStr "Acme") ]) ].

(** A runtime for the runs below.  [json.loads] is right on the texts they
    use: the two JSON texts, and a decode error on text that is not JSON.
    [str] of an exception is its message.  [json.dumps] is left blank, since
    the sample completion services do not read the prompt, and [str] of a
    value is given for the constants only. *)
Definition runtime : PyRuntime :=
  {| json_loads := fun s =>
       if String.eqb s "{}" then inr (JObj [])
       else if String.eqb s buyer_response then inr buyer_object
       else inl (JSONDecodeError "Expecting value");
     json_dumps := fun _ => "";
     py_repr := fun v =>
       match v with
       | JNull => "None"
       | JBool true => "True"
       | JBool false => "False"
       | _ => ""
       end;
     exn_str := fun e =>
       match e with
       | CollaboratorError descr => descr
       | JSONDecodeError msg => msg
       | KeyError key => key
       | TypeError _ => "TypeError"
       end |}.

(** [{"financials": {"revenue": "$1,234.56M"}}] *)
Definition revenue_object : pydict :=
  [ ("financials", JObj [ ("revenue", JStr "$1,234.56M") ]) ].

(** [{"deal_summary": {"buyer": null}}] *)
Definition null_buyer_object : pydict :=
  [ ("deal_summary", JObj [ ("buyer", JNull) ]) ].

(** An object with every field of the schema, each a string. *)
Definition full_object : pydict :=
  map (fun s =>
         (section_name s,
          JObj (map (fun f => (f, JStr (if String.eqb f "deal_size_usd"
                                       then "$5M" else " x ")))
                    (Cells.schema_fields s))))
      sections.

Definition created : datetime := mkDatetime 2024 3 15 10 30 0 0.

(** A cleaned record for the target "Acme Power Co." announced on
    2024-03-15. *)
Definition acme_record : schema_store :=
  store_set
    (store_set (mna_schema created) DealSummary "target_company" (JStr "Acme Power Co."))
    DealSummary "announcement_date" (JStr "2024-03-15").

Definition later : datetime := mkDatetime 2024 3 16 11 31 2 5.

(** The merge/clean step on the schema as built. *)
Definition clean (data : pydict) : schema_store :=
  snd (@_validate_and_clean_data runtime (Fresh (JObj data)) (mna_schema created)).

(** A completion service that always answers with the same content. *)
Definition answering (content : string) : world :=
  mkWorld (fun _ => inr (Some content)) later later.

Definition failing (descr : string) : world :=
  mkWorld (fun _ => inl (CollaboratorError descr)) later later.

End Sample.

(* ================================================================== *)
(** ** classifier.py: the indicators *)

Module Indicators.
Import PyStr Classifier.

(** The inner loops of [extract_key_indicators]: the keywords found, then
    the phrases found, in the order of the table. *)
Definition found_indicators (text_lower : string) (p : pattern) : list string :=
  filter (fun keyword => contains (lower keyword) text_lower) (keywords p)
  ++ filter (fun phrase => contains (lower phrase) text_lower) (phrases p).

(** [extract_key_indicators]: the dict of the document types that have an
    indicator, in insertion order. *)
Definition extract_key_indicators (text : string) : list (string * list string) :=
  let text_lower := lower text in
  flat_map
    (fun dp =>
       match found_indicators text_lower (snd dp) with
       | [] => []
       | found => [(fst dp, found)]
       end)
    patterns.

(** The entry [(k, v)] is the first of [scores] whose value is the largest:
    the values before it are smaller, those behind it are not larger. *)
Definition first_maximum (scores : list (string * nat)) (k : string) (v : nat) : Prop :=
  exists before behind,
    scores = before ++ (k, v) :: behind
    /\ (forall e, In e before -> snd e < v)
    /\ (forall e, In e behind -> snd e <= v).

End Indicators.

(* ================================================================== *)
(** ** document_processor.py: _clean_text *)

Module TextCleaner.
Import PyStr.

Definition nl : ascii := ascii_of_nat 10.

(** [s.split('\n')] *)
Fixpoint split_lines (s : string) : list string :=
  match s with
  | EmptyString => [EmptyString]
  | String c s' =>
      if Ascii.eqb c nl then EmptyString :: split_lines s'
      else match split_lines s' with
           | l :: ls => String c l :: ls
           | [] => [String c EmptyString]
           end
  end.

(** ['\n'.join(ls)] *)
Fixpoint join_lines (ls : list string) : string :=
  match ls with
  | [] => EmptyString
  | [l] => l
  | l :: ls' => (l ++ String nl (join_lines ls'))%string
  end.

(** The scan of [s.replace(old, new)] for a non-empty [old]: left to right,
    resuming behind each replaced occurrence. *)
Fixpoint replace_from (old new : string) (skip : nat) (s : string) : string :=
  match s with
  | EmptyString => EmptyString
  | String c s' =>
      match skip with
      | S k => replace_from old new k s'
      | O =>
          if starts_with old s
          then (new ++ replace_from old new (String.length old - 1) s')%string
          else String c (replace_from old new 0 s')
      end
  end.

Definition nl2 : string := String nl (String nl EmptyString).
Definition nl3 : string := String nl nl2.

(** [while '\n\n\n' in s: s = s.replace('\n\n\n', '\n\n')]; every round
    shortens [s], so [fuel] rounds are enough when [fuel] is its length. *)
Fixpoint squeeze (fuel : nat) (s : string) : string :=
  match fuel with
  | O => s
  | S fuel' =>
      if contains nl3 s then squeeze fuel' (replace_from nl3 nl2 0 s) else s
  end.

Definition cleaned_lines (text : string) : list string :=
  filter (fun line => negb (String.eqb line "")) (map strip (split_lines text)).

Definition _clean_text (text : string) : string :=
  if String.eqb text "" then ""
  else
    let cleaned_text := join_lines (cleaned_lines text) in
    squeeze (String.length cleaned_text) cleaned_text.

(** [extract_text]: the texts that the three extractors return for the file
    are its inputs (each extractor catches its own exceptions and returns
    the text it has), with whether a vision client exists. *)
Definition extract_text (vision_client : bool) (pdfplumber pymupdf ocr : string) : string :=
  let text := pdfplumber in
  let text := if String.length (strip text) <? 100 then pymupdf else text in
  let text := if (String.length (strip text) <? 100) && vision_client then ocr else text in
  _clean_text text.

(** [c] occurs in [s]. *)
Fixpoint has_char (c : ascii) (s : string) : bool :=
  match s with
  | EmptyString => false
  | String a s' => Ascii.eqb a c || has_char c s'
  end.

(** [s] is empty, or neither begins nor ends with whitespace. *)
Definition trimmed (s : string) : bool := String.eqb (strip s) s.

End TextCleaner.

(* ================================================================== *)
(** ** sheet_generator.py: the rows *)

Module SheetRows.
Import Json.

(** [data.get(key, "")] *)
Definition get (data : pydict) (key : string) : json :=
  dict_get_default data key (JStr "").

(** [worksheets_config] of [_ensure_worksheets_exist] *)
Definition worksheets_config : list (string * list string) :=
  [ ("Deal Summary",
     [ "Deal ID"; "Deal Name"; "Deal Type"; "Target Company"; "Buyer";
       "Seller"; "Country"; "Announcement Date"; "Signing Date";
       "Closing Date"; "Deal Size (USD)"; "Currency"; "Status" ]);
    ("Financials",
     [ "Deal ID"; "Revenue"; "EBITDA"; "Enterprise Value";
       "EV/EBITDA Multiple"; "Debt Assumed"; "Other Key Metrics" ]);
    ("Advisors",
     [ "Deal ID"; "Buy-Side Advisor"; "Sell-Side Advisor";
       "Legal Counsel (Buyer)"; "Legal Counsel (Seller)"; "Other Advisors" ]);
    ("Power Plant Details",
     [ "Deal ID"; "Project Name"; "Location"; "Capacity (MW)";
       "Technology Type"; "COD" ]);
    ("Metadata",
     [ "Deal ID"; "Source File Name"; "Date Processed";
       "Extraction Confidence"; "QC Status"; "QC Analyst"; "QC Date" ]) ].

(** [row_data] of [_write_deal_summary] *)
Definition deal_summary_row (data : pydict) : list json :=
  [ get data "deal_id"; get data "deal_name"; get data "deal_type";
    get data "target_company"; get data "buyer"; get data "seller";
    get data "country"; get data "announcement_date"; get data "signing_date";
    get data "closing_date"; get data "deal_size_usd"; get data "currency";
    get data "status" ].

(** [row_data] of [_write_financials] *)
Definition financials_row (data : pydict) : list json :=
  [ get data "deal_id"; get data "revenue"; get data "ebitda";
    get data "enterprise_value"; get data "ev_ebitda_multiple";
    get data "debt_assumed"; get data "other_key_metrics" ].

(** [row_data] of [_write_advisors] *)
Definition advisors_row (data : pydict) : list json :=
  [ get data "deal_id"; get data "buy_side_advisor"; get data "sell_side_advisor";
    get data "legal_counsel_buyer"; get data "legal_counsel_seller";
    get data "other_advisors" ].

(** The headers of a worksheet. *)
Fixpoint headers_of (name : string) (config : list (string * list string)) : list string :=
  match config with
  | [] => []
  | (n, hs) :: config' => if String.eqb n name then hs else headers_of name config'
  end.

End SheetRows.

(* ================================================================== *)
(** ** main.py: the two POST handlers *)

Module Endpoints.
Import Json PyTime Extractor.

(** What a handler answers: its return value, or the [HTTPException] it
    raises. *)
Inductive answer (A : Type) :=
| Returned (body : A)
| HTTPException (status_code : nat) (detail : string).
Arguments Returned {A} body.
Arguments HTTPException {A} status_code detail.

(** What is raised inside the [try] block of a handler. *)
Inductive raised :=
| RaisedHTTP (status_code : nat) (detail : string)
| RaisedOther (e : exn).

(** [str(e)] of an [HTTPException] is left to the framework. *)
Class HttpRuntime := mkHttpRuntime
  { http_exception_str : nat -> string -> string }.

Definition raised_str `{PyRuntime} `{HttpRuntime} (x : raised) : string :=
  match x with
  | RaisedHTTP status_code detail => http_exception_str status_code detail
  | RaisedOther e => exn_str e
  end.

(** [s.endswith(suffix)] *)
Definition ends_with (suffix s : string) : bool :=
  (String.length suffix <=? String.length s)
  && String.eqb (PyStr.drop (String.length s - String.length suffix) s) suffix.

(** One upload: the file name, the outcome of storing the upload and of
    [document_processor.extract_text] (lines 63-71), the clock reading of
    line 80 and the outcome of [os.unlink] (line 83). *)
Record upload := mkUpload
  { filename : string;
    extracted : exn + string;
    now_upload : datetime;
    unlink_error : option exn }.

Record upload_result := mkUploadResult
  { processing_id : string;
    result_filename : string;
    doc_type : string;
    extracted_data : schema_store;
    status : string }.

(** The [try] block of [upload_document].  The [classifier] and the
    [ai_orchestrator] of main.py are the classes [DocumentClassifier] and
    [AIOrchestrator] above; the module creates one instance of each, so every
    request works on the same schema. *)
Definition upload_try `{PyRuntime} (u : upload) (w : world) (st : schema_store)
  : (raised + upload_result) * schema_store :=
  if negb (ends_with ".pdf" (filename u)) then
    (inl (RaisedHTTP 400 "Only PDF files are supported"), st)
  else
    match extracted u with
    | inl e => (inl (RaisedOther e), st)
    | inr extracted_text =>
        let doc_type := Classifier.classify_document extracted_text in
        let '(structured_data, st') := process_document w extracted_text doc_type st in
        let processing_id := ("proc_" ++ strftime_stamp (now_upload u))%string in
        match unlink_error u with
        | Some e => (inl (RaisedOther e), st')
        | None =>
            (inr (mkUploadResult processing_id (filename u) doc_type
                                 structured_data "success"),
             st')
        end
    end.

Definition upload_document `{PyRuntime} `{HttpRuntime}
           (u : upload) (w : world) (st : schema_store)
  : answer upload_result * schema_store :=
  match upload_try u w st with
  | (inr r, st') => (Returned r, st')
  | (inl x, st') =>
      (HTTPException 500 ("Error processing document: " ++ raised_str x)%string, st')
  end.

Record export_result := mkExportResult
  { export_status : string; sheet_url : string; message : string }.

(** The [try] block of [export_to_sheets]; [write_to_sheet] is the sheet
    writer. *)
Definition export_try (write_to_sheet : json -> exn + string) (data : pydict)
  : raised + export_result :=
  if negb (dict_mem data "extracted_data") then
    inl (RaisedHTTP 400 "Missing extracted_data")
  else
    match dict_get data "extracted_data" with
    | None => inl (RaisedOther (KeyError "extracted_data"))
    | Some extracted =>
        match write_to_sheet extracted with
        | inl e => inl (RaisedOther e)
        | inr url =>
            inr (mkExportResult "success" url
                                "Data exported to Google Sheets successfully")
        end
    end.

Definition export_to_sheets `{PyRuntime} `{HttpRuntime}
           (write_to_sheet : json -> exn + string) (data : pydict)
  : answer export_result :=
  match export_try write_to_sheet data with
  | inr r => Returned r
  | inl x => HTTPException 500 ("Error exporting to sheets: " ++ raised_str x)%string
  end.

End Endpoints.

(* ================================================================== *)
(** ** Frames: what a computation on the store leaves alone *)

Module Frames.
Import Json Extractor.

(** The computation adds no field to a section and removes none. *)
Definition keeps_keys {A} (m : M A) : Prop :=
  forall st s, dict_keys (fields_of (snd (m st)) s) = dict_keys (fields_of st s).

(** The metadata keys that [process_document] writes itself. *)
Definition stamp_keys : list string := ["date_processed"; "deal_id"; "extraction_error"].

(** The four data sections have the fields of the schema. *)
Definition data_sections_shaped (st : schema_store) : Prop :=
  forall s, s <> Metadata -> dict_keys (fields_of st s) = Cells.schema_fields s.

(** A page of three lines: text with spaces around it, a blank line, text. *)
Definition sample_page : string :=
  ("  a b " ++ String TextCleaner.nl ("   " ++ String TextCleaner.nl " c "))%string.

Fixpoint repeat_char (c : ascii) (n : nat) : string :=
  match n with
  | O => EmptyString
  | S n' => String c (repeat_char c n')
  end.

(** A framework whose [str] of an [HTTPException] is its detail. *)
Definition sample_http : Endpoints.HttpRuntime :=
  Endpoints.mkHttpRuntime (fun _ detail => detail).

(** An upload named [deal.pdf] whose text is extracted and whose temporary
    file is removed. *)
Definition sample_upload : Endpoints.upload :=
  Endpoints.mkUpload "deal.pdf" (inr "Acme announces the merger"%string)
                     (PyTime.mkDatetime 2024 3 16 11 31 2 5) None.

End Frames.

(* ================================================================== *)
(** ** Sample values that are numbers *)

Module NumberSample.
Import Json Extractor.

(** [str(z)] of an [int] *)
Definition int_repr (z : Z) : string := NilEmpty.string_of_int (Z.to_int z).

(** The sample runtime, with [str] of an [int] as Python gives it. *)
Definition runtime : PyRuntime :=
  {| json_loads := @json_loads Sample.runtime;
     json_dumps := @json_dumps Sample.runtime;
     py_repr := fun v =>
       match v with
       | JInt z => int_repr z
       | _ => @py_repr Sample.runtime v
       end;
     exn_str := @exn_str Sample.runtime |}.

(** [{"financials": {"revenue": 5000000}}] *)
Definition revenue_number_object : pydict :=
  [ ("financials", JObj [ ("revenue", JInt 5000000) ]) ].

(** [{"deal_summary": {"announcement_date": 20240315}}] *)
Definition date_number_object : pydict :=
  [ ("deal_summary", JObj [ ("announcement_date", JInt 20240315) ]) ].

End NumberSample.

(* ================================================================== *)
(** ** Facts about strings *)

Module PyStrFacts.
Import PyStr Spec.

Lemma starts_with_app p r : starts_with p (p ++ r) = true.
Proof.
  induction p as [|a p IH]; simpl; [reflexivity|].
  now rewrite Ascii.eqb_refl, IH.
Qed.

Lemma starts_with_split p s :
  starts_with p s = true -> exists r, s = (p ++ r)%string.
Proof.
  revert s; induction p as [|a p IH]; intros s H.
  - exists s; reflexivity.
  - destruct s as [|b s]; simpl in H; [discriminate|].
    apply andb_true_iff in H as [Hab Hps].
    apply Ascii.eqb_eq in Hab; subst b.
    destruct (IH _ Hps) as [r ->].
    exists r; reflexivity.
Qed.

Lemma drop_app j p r :
  j <= String.length p -> drop j (p ++ r) = (drop j p ++ r)%string.
Proof.
  revert p; induction j as [|j IH]; intros p Hj.
  - destruct p; reflexivity.
  - destruct p as [|a p]; simpl in *; [lia|].
    apply IH; lia.
Qed.

Lemma drop_length j p : String.length (drop j p) = String.length p - j.
Proof.
  revert p; induction j as [|j IH]; intros p.
  - destruct p; simpl; lia.
  - destruct p as [|a p]; simpl; [reflexivity|apply IH].
Qed.

(** A match of [q] on a text that begins with a string no longer than [q]
    covers that string. *)
Lemma starts_with_cover a q r :
  starts_with q (a ++ r) = true -> String.length a <= String.length q ->
  starts_with a q = true.
Proof.
  revert q; induction a as [|x a IH]; intros q H Hlen; [reflexivity|].
  destruct q as [|y q]; simpl in *; [lia|].
  apply andb_true_iff in H as [Hyx Hq].
  apply Ascii.eqb_eq in Hyx; subst y.
  rewrite Ascii.eqb_refl; simpl.
  apply IH; [assumption|lia].
Qed.

Lemma unbordered_no_border q j :
  unbordered q = true -> 0 < j < String.length q ->
  starts_with (drop j q) q = false.
Proof.
  intros Hu Hj.
  unfold unbordered in Hu.
  rewrite forallb_forall in Hu.
  apply negb_true_iff, Hu, in_seq; lia.
Qed.

(** Two occurrences of an unbordered string do not overlap. *)
Lemma occurrences_apart q t j :
  unbordered q = true -> starts_with q t = true ->
  0 < j < String.length q -> starts_with q (drop j t) = false.
Proof.
  intros Hu Ht Hj.
  destruct (starts_with q (drop j t)) eqn:E; [|reflexivity].
  destruct (starts_with_split _ _ Ht) as [r ->].
  rewrite drop_app in E by lia.
  apply starts_with_cover in E; [|rewrite drop_length; lia].
  rewrite (unbordered_no_border q j Hu Hj) in E; discriminate.
Qed.

Lemma count_from_overlap q :
  q <> EmptyString -> unbordered q = true ->
  forall t k,
    k <= String.length q - 1 ->
    (forall j, j < k -> starts_with q (drop j t) = false) ->
    count_from q k t = overlap_count q t.
Proof.
  intros Hne Hu.
  induction t as [|c t IH]; intros k Hk Hfree.
  - destruct q; [congruence|reflexivity].
  - destruct k as [|k].
    + cbn [count_from overlap_count].
      destruct (starts_with q (String c t)) eqn:E.
      * rewrite IH; [reflexivity|lia|].
        intros j Hj.
        apply (occurrences_apart q (String c t) (S j) Hu E); lia.
      * apply IH; [lia|intros j Hj; lia].
    + cbn [count_from overlap_count].
      pose proof (Hfree 0 ltac:(lia)) as H0; simpl in H0; rewrite H0.
      apply IH; [lia|].
      intros j Hj. apply (Hfree (S j)); lia.
Qed.

(** For an unbordered pattern, [str.count] counts every occurrence. *)
Lemma count_overlap s q :
  q <> EmptyString -> unbordered q = true -> count s q = overlap_count q s.
Proof.
  intros Hne Hu.
  unfold count.
  destruct q as [|a q]; [congruence|].
  apply count_from_overlap; try assumption; [lia|intros j Hj; lia].
Qed.

Lemma ci_starts_with_lower p s :
  Spec.ci_starts_with p s = starts_with (lower p) (lower s).
Proof.
  revert s; induction p as [|a p IH]; intros s; [reflexivity|].
  destruct s as [|b s]; simpl; [reflexivity|].
  now rewrite IH.
Qed.

Lemma occurrences_lower p s :
  Spec.occurrences p s = overlap_count (lower p) (lower s).
Proof.
  induction s as [|b s IH]; simpl.
  - now rewrite ci_starts_with_lower.
  - rewrite <- IH. f_equal.
    now rewrite (ci_starts_with_lower p (String b s)).
Qed.

Lemma lower_app a b : lower (a ++ b) = (lower a ++ lower b)%string.
Proof. induction a as [|x a IH]; simpl; [reflexivity|now rewrite IH]. Qed.

Lemma lower_split t :
  forall a b, lower t = (a ++ b)%string ->
  exists t1 t2, t = (t1 ++ t2)%string /\ lower t1 = a /\ lower t2 = b.
Proof.
  induction t as [|c t IH]; intros a b H.
  - destruct a; [|discriminate]. simpl in H. subst b.
    exists EmptyString, EmptyString; repeat split.
  - destruct a as [|x a].
    + simpl in H. exists EmptyString, (String c t); repeat split. now rewrite <- H.
    + simpl in H. injection H as Hx Ht.
      destruct (IH _ _ Ht) as (t1 & t2 & -> & H1 & H2).
      exists (String c t1), t2; simpl; repeat split; [now rewrite Hx, H1|assumption].
Qed.

Lemma starts_with_contains p s : starts_with p s = true -> contains p s = true.
Proof. intros H. destruct s; simpl; rewrite H; reflexivity. Qed.

Lemma contains_occurs p s :
  contains p s = true <-> exists pre post, s = (pre ++ p ++ post)%string.
Proof.
  split.
  - induction s as [|c s IH]; simpl; intros H.
    + rewrite orb_false_r in H.
      destruct (starts_with_split _ _ H) as [r ->].
      exists EmptyString, r; reflexivity.
    + apply orb_true_iff in H as [H|H].
      * destruct (starts_with_split _ _ H) as [r Hr].
        exists EmptyString, r; exact Hr.
      * destruct (IH H) as (pre & post & ->).
        exists (String c pre), post; reflexivity.
  - intros (pre & post & ->).
    induction pre as [|c pre IH].
    + cbn [String.append]. apply starts_with_contains, starts_with_app.
    + simpl. rewrite IH. apply orb_true_r.
Qed.

(** [k in text.lower()] for a lowercase [k] is case-insensitive presence. *)
Lemma contains_ci_occurs k text :
  contains (lower k) (lower text) = true <-> Spec.ci_occurs k text.
Proof.
  rewrite contains_occurs. split.
  - intros (a & b & H).
    apply lower_split in H as (t1 & t23 & -> & H1 & H23).
    apply lower_split in H23 as (t2 & t3 & -> & H2 & H3).
    exists t1, t2, t3; split; [reflexivity|assumption].
  - intros (pre & w & post & -> & Hw).
    exists (lower pre), (lower post).
    now rewrite !lower_app, Hw.
Qed.

End PyStrFacts.

(* ================================================================== *)
(** ** Facts about the classifier *)

Module ClassifierFacts.
Import PyStr Classifier Spec PyStrFacts.

Lemma fold_left_add {A} (f : A -> nat) (l : list A) (a : nat) :
  fold_left (fun acc x => acc + f x) l a = a + list_sum (map f l).
Proof.
  revert a; induction l as [|x l IH]; intros a; simpl; [lia|].
  rewrite IH; lia.
Qed.

Lemma terms_plain :
  forallb (fun lp => forallb plain_term (keywords (snd lp) ++ phrases (snd lp)))
          patterns = true.
Proof. vm_compute. reflexivity. Qed.

Lemma count_plain_term text q :
  plain_term q = true -> count (lower text) (lower q) = occurrences q text.
Proof.
  unfold plain_term. intros H.
  apply andb_true_iff in H as [Hne Hu].
  rewrite occurrences_lower.
  apply count_overlap; [|assumption].
  intros E. rewrite E in Hne. discriminate.
Qed.

Lemma score_weighted text p :
  forallb plain_term (keywords p ++ phrases p) = true ->
  score (lower text) p = weighted_score text p.
Proof.
  intros H. rewrite forallb_forall in H.
  unfold score, weighted_score.
  rewrite !fold_left_add. simpl.
  f_equal; f_equal; apply map_ext_in; intros q Hq;
    rewrite count_plain_term; auto; apply H, in_or_app; auto.
Qed.

Lemma scores_weighted text :
  scores text = map (fun lp => (fst lp, weighted_score text (snd lp))) patterns.
Proof.
  unfold scores.
  apply map_ext_in. intros [doc_type p] Hin. simpl.
  f_equal. apply score_weighted.
  pose proof terms_plain as H. rewrite forallb_forall in H.
  exact (H _ Hin).
Qed.

Lemma scores_labels text :
  scores text =
  [ ("press_release", label_score text "press_release");
    ("quarterly_report", label_score text "quarterly_report");
    ("annual_report", label_score text "annual_report");
    ("investor_deck", label_score text "investor_deck") ].
Proof. rewrite scores_weighted. reflexivity. Qed.

Ltac split_comparisons :=
  repeat match goal with
         | |- context [?x <? ?y] => destruct (Nat.ltb_spec x y)
         end.

Lemma classify_highest text best :
  In best (map fst patterns) ->
  (forall other, In other (map fst patterns) -> other <> best ->
                 label_score text other < label_score text best) ->
  classify_document text = best.
Proof.
  intros Hin Hmax.
  unfold classify_document. rewrite scores_labels.
  cbn [map snd py_max py_max_key best_key fold_left].
  assert (Hpr := Hmax "press_release").
  assert (Hqr := Hmax "quarterly_report").
  assert (Har := Hmax "annual_report").
  assert (Hid := Hmax "investor_deck").
  clear Hmax.
  simpl in Hin, Hpr, Hqr, Har, Hid.
  destruct Hin as [<-|[<-|[<-|[<-|[]]]]];
    revert Hpr Hqr Har Hid;
    generalize (label_score text "press_release") (label_score text "quarterly_report")
               (label_score text "annual_report") (label_score text "investor_deck");
    intros a b c d Hpr Hqr Har Hid;
    try (assert (a < _) by (apply Hpr; [left; reflexivity|discriminate]));
    try (assert (b < _) by (apply Hqr; [right; left; reflexivity|discriminate]));
    try (assert (c < _) by (apply Har; [do 2 right; left; reflexivity|discriminate]));
    try (assert (d < _) by (apply Hid; [do 3 right; left; reflexivity|discriminate]));
    clear Hpr Hqr Har Hid;
    split_comparisons; first [lia | reflexivity].
Qed.

Lemma classify_no_signal text :
  (forall label, In label (map fst patterns) -> label_score text label = 0) ->
  classify_document text = "other".
Proof.
  intros Hz.
  unfold classify_document. rewrite scores_labels.
  cbn [map snd py_max py_max_key best_key fold_left].
  rewrite (Hz "press_release"), (Hz "quarterly_report"),
          (Hz "annual_report"), (Hz "investor_deck");
    [reflexivity|simpl; auto 6..].
Qed.

Lemma classify_closed text : In (classify_document text) document_types.
Proof.
  unfold classify_document. rewrite scores_labels.
  cbn [map snd py_max py_max_key best_key fold_left].
  generalize (label_score text "press_release") (label_score text "quarterly_report")
             (label_score text "annual_report") (label_score text "investor_deck").
  intros a b c d.
  split_comparisons; simpl; auto 8.
Qed.

(** C4: for every text the score of each document type is the sum of the
    case-insensitive occurrences of its keywords, overlapping ones included,
    at weight 1 plus those of its phrases at weight 2; [classify_document]
    returns the type whose score is strictly the highest, returns "other"
    when every score is zero, always returns one of the five fixed types,
    and returns "other" on the empty text. *)
Theorem classify_document_spec (text : string) :
  scores text = map (fun lp => (fst lp, weighted_score text (snd lp))) patterns
  /\ (forall best,
         In best (map fst patterns) ->
         (forall other, In other (map fst patterns) -> other <> best ->
                        label_score text other < label_score text best) ->
         classify_document text = best)
  /\ ((forall label, In label (map fst patterns) -> label_score text label = 0) ->
      classify_document text = "other")
  /\ In (classify_document text) document_types
  /\ classify_document "" = "other".
Proof.
  split; [apply scores_weighted|].
  split; [apply classify_highest|].
  split; [apply classify_no_signal|].
  split; [apply classify_closed|].
  vm_compute. reflexivity.
Qed.

Lemma classify_document_spec_witness :
  classify_document "Press Release: Acme announces the acquisition" = "press_release".
Proof.
  apply (proj1 (proj2 (classify_document_spec
                         "Press Release: Acme announces the acquisition"))).
  - left; reflexivity.
  - intros other Hin Hne.
    simpl in Hin.
    destruct Hin as [<-|[<-|[<-|[<-|[]]]]];
      [congruence|vm_compute; lia..].
Defined.

(** *** Confidence percentages *)

Lemma list_sum_pos (l : list nat) :
  0 < list_sum l <-> exists x, In x l /\ 0 < x.
Proof.
  induction l as [|y l IH]; simpl.
  - split; [lia|intros (x & [] & _)].
  - split.
    + intros H. destruct y as [|y].
      * destruct (proj1 IH H) as (x & Hx & Hpos). exists x; auto.
      * exists (S y); split; [auto|lia].
    + intros (x & [->|Hx] & Hpos); [lia|].
      assert (0 < list_sum l) by (apply IH; eauto). lia.
Qed.

Lemma total_matches text :
  0 < list_sum (map snd (scores text)) <-> any_match text.
Proof.
  rewrite scores_weighted, map_map. cbn [snd].
  rewrite list_sum_pos. unfold any_match. split.
  - intros (x & Hx & Hpos).
    apply in_map_iff in Hx as ([label p] & <- & Hin). cbn [snd] in Hpos.
    unfold weighted_score in Hpos.
    assert (0 < list_sum (map (fun k => occurrences k text * 1) (keywords p))
            \/ 0 < list_sum (map (fun q => occurrences q text * 2) (phrases p)))
      as [H|H] by lia;
      apply list_sum_pos in H as (y & Hy & Hypos);
      apply in_map_iff in Hy as (term & <- & Hterm);
      cbv beta in Hypos;
      exists label, p, term; (split; [assumption|]);
      (split; [apply in_or_app; auto|lia]).
  - intros (label & p & term & Hin & Hterm & Hpos).
    exists (weighted_score text p). split.
    + apply in_map_iff. exists (label, p); auto.
    + unfold weighted_score.
      apply in_app_or in Hterm as [Hk|Hp].
      * assert (0 < list_sum (map (fun k => occurrences k text * 1) (keywords p))).
        { apply list_sum_pos. exists (occurrences term text * 1). split; [|lia].
          apply in_map_iff. exists term; auto. }
        lia.
      * assert (0 < list_sum (map (fun q => occurrences q text * 2) (phrases p))).
        { apply list_sum_pos. exists (occurrences term text * 2). split; [|lia].
          apply in_map_iff. exists term; auto. }
        lia.
Qed.

Lemma Qsum_percentages (total : nat) (l : list nat) :
  0 < total ->
  (Qsum (map (percentage total) l) == percentage total (list_sum l))%Q.
Proof.
  intros Hpos.
  assert (Hnz : ~ (inject_Z (Z.of_nat total) == 0)%Q).
  { unfold Qeq; simpl. lia. }
  induction l as [|v l IH]; simpl.
  - unfold percentage; simpl. field. exact Hnz.
  - rewrite IH. unfold percentage.
    rewrite Nat2Z.inj_add, inject_Z_plus. field. exact Hnz.
Qed.

Lemma percentage_total (total : nat) :
  0 < total -> (percentage total total == 100)%Q.
Proof.
  intros Hpos. unfold percentage. field.
  unfold Qeq; simpl. lia.
Qed.

(** C5, amended: the total raw score is positive exactly when some keyword
    or phrase matches; then every value is the label's raw score divided by
    the total, times 100, and the values sum to 100 (in exact arithmetic);
    when the total is zero the result is the mapping of the four document
    types to 0, which is not empty. *)
Theorem confidence_spec (text : string) :
  let total := list_sum (map snd (scores text)) in
  (0 < total <-> any_match text)
  /\ (0 < total ->
      get_classification_confidence text
      = map (fun lv => (fst lv, percentage total (snd lv))) (scores text)
      /\ (Qsum (map snd (get_classification_confidence text)) == 100)%Q)
  /\ (total = 0 ->
      get_classification_confidence text
      = [ ("press_release", 0%Q); ("quarterly_report", 0%Q);
          ("annual_report", 0%Q); ("investor_deck", 0%Q) ]).
Proof.
  cbv zeta.
  split; [apply total_matches|]. split.
  - intros Hpos.
    assert (E : get_classification_confidence text
                = map (fun lv => (fst lv, percentage (list_sum (map snd (scores text))) (snd lv)))
                      (scores text)).
    { unfold get_classification_confidence.
      destruct (Nat.ltb_spec 0 (list_sum (map snd (scores text)))); [|lia].
      apply map_ext. intros [l v]. reflexivity. }
    split; [exact E|].
    rewrite E, map_map. cbn [snd].
    rewrite <- (map_map snd (percentage _)).
    rewrite Qsum_percentages by assumption.
    apply percentage_total; assumption.
  - intros Hz.
    unfold get_classification_confidence.
    rewrite Hz. cbn [Nat.ltb Nat.leb].
    revert Hz. rewrite scores_labels. cbn [map snd list_sum fold_right].
    intros Hz.
    assert (label_score text "press_release" = 0) as -> by lia.
    assert (label_score text "quarterly_report" = 0) as -> by lia.
    assert (label_score text "annual_report" = 0) as -> by lia.
    assert (label_score text "investor_deck" = 0) as -> by lia.
    reflexivity.
Qed.

Lemma confidence_spec_witness :
  (Qsum (map snd (get_classification_confidence "The merger closed")) == 100)%Q.
Proof.
  apply (proj1 (proj2 (confidence_spec "The merger closed"))).
  vm_compute. repeat constructor.
Defined.

Lemma confidence_zero_total_not_empty :
  get_classification_confidence ""
  = [ ("press_release", 0%Q); ("quarterly_report", 0%Q);
      ("annual_report", 0%Q); ("investor_deck", 0%Q) ].
Proof. vm_compute. reflexivity. Qed.

(** *** Keyword thresholds *)

Lemma keyword_count_length kws text_lower :
  keyword_count kws text_lower
  = List.length (filter (fun keyword => contains keyword text_lower) kws).
Proof.
  unfold keyword_count.
  induction (filter (fun keyword => contains keyword text_lower) kws) as [|k l IH];
    simpl; [reflexivity|now rewrite IH].
Qed.

Lemma keywords_lowercase :
  forallb (fun k => String.eqb (lower k) k) (financial_keywords ++ mna_keywords) = true.
Proof. vm_compute. reflexivity. Qed.

Lemma keyword_lower k :
  In k (financial_keywords ++ mna_keywords) -> lower k = k.
Proof.
  intros H. pose proof keywords_lowercase as E.
  rewrite forallb_forall in E. now apply String.eqb_eq, E.
Qed.

Lemma financial_keywords_distinct : NoDup financial_keywords.
Proof.
  assert (E : nodup string_dec financial_keywords = financial_keywords)
    by (vm_compute; reflexivity).
  rewrite <- E. apply NoDup_nodup.
Qed.

Lemma mna_keywords_distinct : NoDup mna_keywords.
Proof.
  assert (E : nodup string_dec mna_keywords = mna_keywords)
    by (vm_compute; reflexivity).
  rewrite <- E. apply NoDup_nodup.
Qed.

Lemma threshold_at_least n kws text :
  NoDup kws -> (forall k, In k kws -> lower k = k) ->
  (n <=? keyword_count kws (lower text)) = true <-> at_least n kws text.
Proof.
  intros Hnd Hlow.
  rewrite keyword_count_length, Nat.leb_le.
  set (present := filter (fun keyword => contains keyword (lower text)) kws).
  split.
  - intros Hn. exists present. repeat split.
    + apply NoDup_filter, Hnd.
    + intros k Hk. apply filter_In in Hk. tauto.
    + exact Hn.
    + intros k Hk. apply filter_In in Hk as [Hin Hc].
      apply contains_ci_occurs. now rewrite (Hlow k Hin).
  - intros (found & Hfnd & Hincl & Hn & Hocc).
    assert (incl found present).
    { intros k Hk. apply filter_In. split; [auto|].
      rewrite <- (Hlow k) by auto. apply contains_ci_occurs; auto. }
    pose proof (NoDup_incl_length Hfnd H). lia.
Qed.

(** C9: [is_financial_document] is true exactly when at least 3 of the
    financial keywords occur in the text, letter case ignored, and
    [is_mna_document] exactly when at least 2 of the M&A keywords do; so a
    text with exactly 3 financial keywords gives true, one with exactly 2
    gives false. *)
Theorem keyword_thresholds (text : string) :
  (is_financial_document text = true <-> at_least 3 financial_keywords text)
  /\ (is_mna_document text = true <-> at_least 2 mna_keywords text)
  /\ (at_least 3 financial_keywords text /\ ~ at_least 4 financial_keywords text ->
      is_financial_document text = true)
  /\ (at_least 2 financial_keywords text /\ ~ at_least 3 financial_keywords text ->
      is_financial_document text = false).
Proof.
  assert (Hf : is_financial_document text = true <-> at_least 3 financial_keywords text).
  { apply threshold_at_least; [apply financial_keywords_distinct|].
    intros k Hk. apply keyword_lower, in_or_app; auto. }
  assert (Hm : is_mna_document text = true <-> at_least 2 mna_keywords text).
  { apply threshold_at_least; [apply mna_keywords_distinct|].
    intros k Hk. apply keyword_lower, in_or_app; auto. }
  repeat split; try apply Hf; try apply Hm.
  - intros [H _]. apply Hf, H.
  - intros [_ H].
    destruct (is_financial_document text) eqn:E; [|reflexivity].
    exfalso. apply H, Hf. reflexivity.
Qed.

Lemma keyword_thresholds_witness :
  at_least 3 financial_keywords "Revenue rose, EBITDA fell and profit held"
  /\ is_financial_document "Revenue rose and EBITDA fell" = false.
Proof.
  split.
  - apply (proj1 (proj1 (keyword_thresholds "Revenue rose, EBITDA fell and profit held"))).
    vm_compute. reflexivity.
  - destruct (is_financial_document "Revenue rose and EBITDA fell") eqn:E;
      [|reflexivity].
    vm_compute in E. discriminate E.
Defined.

End ClassifierFacts.

(* ================================================================== *)
(** ** Facts about dicts, the store and its cells *)

Module CellFacts.
Import Json PyTime Extractor Cells.

Lemma dict_get_set d k v k' :
  dict_get (dict_set d k v) k' = if String.eqb k k' then Some v else dict_get d k'.
Proof.
  induction d as [|[k0 v0] d IH]; simpl; [reflexivity|].
  destruct (String.eqb_spec k0 k) as [->|Hk0]; simpl.
  - destruct (String.eqb k k'); reflexivity.
  - rewrite IH.
    destruct (String.eqb_spec k0 k') as [->|]; [|reflexivity].
    destruct (String.eqb_spec k k'); [congruence|reflexivity].
Qed.

Lemma dict_mem_keys d k : dict_mem d k = true <-> In k (dict_keys d).
Proof.
  unfold dict_mem.
  induction d as [|[k0 v0] d IH]; simpl; [split; [discriminate|tauto]|].
  destruct (String.eqb_spec k0 k) as [->|Hne]; [tauto|].
  rewrite IH. split; [auto|intros [?|?]; [congruence|assumption]].
Qed.

Lemma dict_keys_set d k v :
  dict_mem d k = true -> dict_keys (dict_set d k v) = dict_keys d.
Proof.
  unfold dict_mem.
  induction d as [|[k0 v0] d IH]; simpl; [discriminate|].
  destruct (String.eqb k0 k); simpl; [reflexivity|].
  intros H. now rewrite IH.
Qed.

Lemma dict_set_same d k v : dict_get d k = Some v -> dict_set d k v = d.
Proof.
  induction d as [|[k0 v0] d IH]; simpl; [discriminate|].
  destruct (String.eqb k0 k).
  - intros [= ->]. reflexivity.
  - intros H. now rewrite IH.
Qed.

Lemma section_eqb_eq a b : section_eqb a b = true <-> a = b.
Proof. destruct a, b; simpl; split; congruence. Qed.

Lemma cell_eqb_eq (a b : cell) : cell_eqb a b = true <-> a = b.
Proof.
  destruct a as [s f], b as [s' f']. unfold cell_eqb; simpl.
  rewrite andb_true_iff, section_eqb_eq, String.eqb_eq.
  split; [intros [-> ->]; reflexivity|intros [= -> ->]; auto].
Qed.

Lemma cell_eqb_refl (c : cell) : cell_eqb c c = true.
Proof. now apply cell_eqb_eq. Qed.

Lemma fields_of_set_fields st s d s' :
  fields_of (set_fields st s d) s' = if section_eqb s s' then d else fields_of st s'.
Proof. destruct s, s'; reflexivity. Qed.

Lemma set_fields_same st s : set_fields st s (fields_of st s) = st.
Proof. destruct st, s; reflexivity. Qed.

Lemma store_get_set st s f v (c : cell) :
  store_get (store_set st s f v) (fst c) (snd c)
  = if cell_eqb (s, f) c then Some v else store_get st (fst c) (snd c).
Proof.
  destruct c as [s' f']. unfold store_get, store_set, cell_eqb. simpl.
  rewrite fields_of_set_fields.
  destruct (section_eqb s s') eqn:E; simpl; [|reflexivity].
  apply section_eqb_eq in E; subst s'.
  apply dict_get_set.
Qed.

Lemma store_set_same st s f v : store_get st s f = Some v -> store_set st s f v = st.
Proof.
  unfold store_get, store_set. intros H.
  rewrite (dict_set_same _ _ _ H). apply set_fields_same.
Qed.

Lemma store_get_keys st s f :
  store_get st s f <> None <-> In f (dict_keys (fields_of st s)).
Proof.
  rewrite <- dict_mem_keys. unfold store_get, dict_mem.
  destruct (dict_get (fields_of st s) f); split; congruence.
Qed.

(** *** One update *)

Lemma store_get_update c g st (c' : cell) :
  store_get (update_cell c g st) (fst c') (snd c')
  = if cell_eqb c c'
    then option_map g (store_get st (fst c') (snd c'))
    else store_get st (fst c') (snd c').
Proof.
  unfold update_cell.
  destruct (store_get st (fst c) (snd c)) as [v|] eqn:E.
  - rewrite store_get_set. rewrite <- surjective_pairing.
    destruct (cell_eqb c c') eqn:Ec; [|reflexivity].
    apply cell_eqb_eq in Ec; subst c'. now rewrite E.
  - destruct (cell_eqb c c') eqn:Ec; [|reflexivity].
    apply cell_eqb_eq in Ec; subst c'. now rewrite E.
Qed.

Lemma keys_update c g st s :
  dict_keys (fields_of (update_cell c g st) s) = dict_keys (fields_of st s).
Proof.
  unfold update_cell.
  destruct (store_get st (fst c) (snd c)) as [v|] eqn:E; [|reflexivity].
  unfold store_set. rewrite fields_of_set_fields.
  destruct (section_eqb (fst c) s) eqn:Es; [|reflexivity].
  apply section_eqb_eq in Es; subst s.
  apply dict_keys_set. unfold store_get in E. unfold dict_mem. now rewrite E.
Qed.

Lemma update_cell_id c g st :
  (forall v, store_get st (fst c) (snd c) = Some v -> g v = v) ->
  update_cell c g st = st.
Proof.
  intros H. unfold update_cell.
  destruct (store_get st (fst c) (snd c)) as [v|] eqn:E; [|reflexivity].
  rewrite (H v eq_refl). now apply store_set_same.
Qed.

(** *** A run of updates *)

Lemma store_get_apply us : forall st (c : cell),
  store_get (apply_updates us st) (fst c) (snd c)
  = option_map (updates_at us c) (store_get st (fst c) (snd c)).
Proof.
  induction us as [|[c' g] us IH]; intros st c; simpl.
  - destruct (store_get st (fst c) (snd c)); reflexivity.
  - rewrite IH, store_get_update.
    destruct (cell_eqb c' c), (store_get st (fst c) (snd c)); reflexivity.
Qed.

Lemma keys_apply us : forall st s,
  dict_keys (fields_of (apply_updates us st) s) = dict_keys (fields_of st s).
Proof.
  induction us as [|[c' g] us IH]; intros st s; simpl; [reflexivity|].
  now rewrite IH, keys_update.
Qed.

(** A run that applies, to each cell of [cells], a function [G] of the cell
    that is idempotent. *)
Lemma updates_at_cells (G : cell -> json -> json) cells c :
  (forall v, G c (G c v) = G c v) ->
  forall v,
    updates_at (map (fun c' => (c', G c')) cells) c v
    = if existsb (fun c' => cell_eqb c' c) cells then G c v else v.
Proof.
  intros Hidem.
  induction cells as [|c0 cells IH]; intros v; simpl; [reflexivity|].
  rewrite IH.
  destruct (cell_eqb c0 c) eqn:E; simpl.
  - apply cell_eqb_eq in E; subst c0.
    destruct (existsb _ cells); [apply Hidem|reflexivity].
  - reflexivity.
Qed.

Lemma updates_at_const (g : json -> json) cells c :
  (forall v, g (g v) = g v) ->
  forall v,
    updates_at (map (fun c' => (c', g)) cells) c v
    = if existsb (fun c' => cell_eqb c' c) cells then g v else v.
Proof. intros H. exact (updates_at_cells (fun _ => g) cells c H). Qed.

(** *** Loops over the store *)

Lemma for_each_updates {A} (body : A -> M unit) (u : A -> cell * (json -> json)) :
  (forall x st, body x st = (inr tt, update_cell (fst (u x)) (snd (u x)) st)) ->
  forall l st, for_each l body st = (inr tt, apply_updates (map u l) st).
Proof.
  intros Hbody.
  induction l as [|x l IH]; intros st; simpl; [reflexivity|].
  unfold bind. rewrite Hbody, IH.
  destruct (u x) as [c g]; reflexivity.
Qed.

End CellFacts.

(* ================================================================== *)
(** ** Facts about the merge/clean step *)

Module CleanFacts.
Import Json PyTime Extractor Cells CellFacts.

Section WithRuntime.
Context {rt : PyRuntime}.

Lemma bind_ok {A B} (m : M A) (k : A -> M B) st a st' :
  m st = (inr a, st') -> bind m k st = k a st'.
Proof. unfold bind. now intros ->. Qed.

Lemma bind_raise {A B} (m : M A) (k : A -> M B) st e st' :
  m st = (inl e, st') -> bind m k st = (inl e, st').
Proof. unfold bind. now intros ->. Qed.

(** *** The steps as cell updates *)

Lemma validate_date_update sf st :
  validate_date sf st = (inr tt, update_cell sf date_fix st).
Proof.
  destruct sf as [s f].
  unfold validate_date, bind, get_store, update_cell, write, ret. cbn [fst snd].
  destruct (store_get st s f) as [v|] eqn:E; [|reflexivity].
  pose proof (store_set_same _ _ _ _ E) as Hsame.
  unfold date_fix.
  destruct v; cbn [truthy py_eq_str is_str negb];
    rewrite ?andb_false_r, ?andb_true_r;
    repeat match goal with
           | |- context [if ?b then _ else _] => destruct b
           end;
    rewrite ?Hsame; reflexivity.
Qed.

Lemma validate_dates_run st :
  _validate_dates st
  = (inr tt, apply_updates (map (fun c => (c, date_fix)) date_fields) st).
Proof.
  unfold _validate_dates.
  apply (for_each_updates validate_date (fun c => (c, date_fix))).
  intros x st'. apply validate_date_update.
Qed.

Lemma validate_money_update sf st :
  validate_money sf st = (inr tt, update_cell sf money_fix st).
Proof.
  destruct sf as [s f].
  unfold validate_money, bind, get_store, update_cell, write, ret. cbn [fst snd].
  destruct (store_get st s f) as [v|] eqn:E; [|reflexivity].
  unfold money_fix.
  destruct (truthy v && negb (py_eq_str v "N/A")); [reflexivity|].
  now rewrite (store_set_same _ _ _ _ E).
Qed.

Lemma validate_money_run st :
  _validate_monetary_values st
  = (inr tt, apply_updates (map (fun c => (c, money_fix)) monetary_fields) st).
Proof.
  unfold _validate_monetary_values.
  apply (for_each_updates validate_money (fun c => (c, money_fix))).
  intros x st'. apply validate_money_update.
Qed.

Lemma merge_field_shared s f st :
  merge_field s (Shared s) f st = (inr tt, update_cell (s, f) clean_value st).
Proof.
  unfold merge_field, bind, ref_get, update_cell, write, ret. cbn [fst snd].
  destruct (store_get st s f); reflexivity.
Qed.

Lemma merge_field_own s d f st :
  store_get st s f <> None ->
  merge_field s (Own d) f st = (inr tt, update_cell (s, f) (merge_fn d f) st).
Proof.
  intros Hkey.
  unfold merge_field, bind, ref_get, update_cell, merge_fn, write, ret. cbn [fst snd].
  destruct (store_get st s f) as [old|] eqn:E; [|congruence].
  destruct (dict_get d f); [reflexivity|].
  now rewrite (store_set_same _ _ _ _ E).
Qed.

Lemma merge_fields_own s d : forall fs st,
  incl fs (dict_keys (fields_of st s)) ->
  for_each fs (merge_field s (Own d)) st
  = (inr tt, apply_updates (map (fun f => ((s, f), merge_fn d f)) fs) st).
Proof.
  induction fs as [|f fs IH]; intros st Hincl; simpl; [reflexivity|].
  unfold bind.
  rewrite merge_field_own by (apply store_get_keys, Hincl; left; reflexivity).
  apply IH.
  intros f' Hf'. rewrite keys_update. apply Hincl. now right.
Qed.

Lemma merge_section_object data s st :
  merge_section (Fresh (JObj data)) s st
  = (inr tt, apply_updates (section_updates data st s) st).
Proof.
  unfold merge_section, section_dict, section_updates, py_in, py_getitem, dict_mem.
  unfold bind, lift, ret, get_store.
  destruct (dict_get data (section_name s)) as [v|]; [|reflexivity].
  destruct v; try reflexivity.
  apply merge_fields_own. apply incl_refl.
Qed.

Lemma merged_idem data c v : merged data c (merged data c v) = merged data c v.
Proof. unfold merged. destruct (parsed_field data c); reflexivity. Qed.

Lemma section_updates_at data st s c v :
  store_get st (fst c) (snd c) <> None ->
  updates_at (section_updates data st s) c v
  = if section_eqb s (fst c) then merged data c v else v.
Proof.
  intros Hkey.
  unfold section_updates, merged, parsed_field.
  destruct (section_eqb s (fst c)) eqn:Es.
  - apply section_eqb_eq in Es. subst s.
    destruct (dict_get data (section_name (fst c))) as [j|]; [|reflexivity].
    destruct j; try reflexivity.
    rewrite <- (map_map (pair (fst c)) (fun c' => (c', merge_fn members (snd c')))).
    rewrite updates_at_cells
      by (intros; unfold merge_fn; destruct (dict_get members (snd c)); reflexivity).
    assert (E : existsb (fun c' => cell_eqb c' c)
                        (map (pair (fst c)) (dict_keys (fields_of st (fst c)))) = true).
    { apply existsb_exists. exists c. split; [|apply cell_eqb_refl].
      apply in_map_iff. exists (snd c). split; [now destruct c|].
      now apply store_get_keys. }
    rewrite E. reflexivity.
  - destruct (dict_get data (section_name s)) as [j|]; [|reflexivity].
    destruct j; try reflexivity.
    rewrite <- (map_map (pair s) (fun c' => (c', merge_fn members (snd c')))).
    rewrite updates_at_cells
      by (intros; unfold merge_fn; destruct (dict_get members (snd c)); reflexivity).
    assert (E : existsb (fun c' => cell_eqb c' c)
                        (map (pair s) (dict_keys (fields_of st s))) = false).
    { apply not_true_is_false. intros H.
      apply existsb_exists in H as (c' & Hin & Heq).
      apply cell_eqb_eq in Heq; subst c'.
      apply in_map_iff in Hin as (f & <- & _). simpl in Es.
      pose proof (proj2 (section_eqb_eq s s) eq_refl). congruence. }
    rewrite E. reflexivity.
Qed.

Lemma merge_section_pointwise data s st (c : cell) :
  store_get (snd (merge_section (Fresh (JObj data)) s st)) (fst c) (snd c)
  = if section_eqb s (fst c)
    then option_map (merged data c) (store_get st (fst c) (snd c))
    else store_get st (fst c) (snd c).
Proof.
  rewrite merge_section_object. cbn [snd].
  rewrite store_get_apply.
  destruct (store_get st (fst c) (snd c)) as [v|] eqn:E.
  - cbn [option_map]. rewrite section_updates_at by congruence.
    destruct (section_eqb s (fst c)); reflexivity.
  - destruct (section_eqb s (fst c)); reflexivity.
Qed.

Lemma merge_sections_pointwise data : forall ss st,
  fst (for_each ss (merge_section (Fresh (JObj data))) st) = inr tt
  /\ (forall s, dict_keys (fields_of (snd (for_each ss (merge_section (Fresh (JObj data))) st)) s)
                = dict_keys (fields_of st s))
  /\ (forall c : cell,
         store_get (snd (for_each ss (merge_section (Fresh (JObj data))) st)) (fst c) (snd c)
         = if existsb (fun s => section_eqb s (fst c)) ss
           then option_map (merged data c) (store_get st (fst c) (snd c))
           else store_get st (fst c) (snd c)).
Proof.
  induction ss as [|s ss IH]; intros st; cbn [for_each].
  - repeat split.
  - pose proof (merge_section_object data s st) as Hs.
    rewrite (bind_ok _ _ _ _ _ Hs).
    destruct (IH (apply_updates (section_updates data st s) st)) as (Hok & Hkeys & Hget).
    split; [exact Hok|]. split.
    + intros s'. now rewrite Hkeys, keys_apply.
    + intros c. rewrite Hget.
      pose proof (merge_section_pointwise data s st c) as Hc.
      rewrite Hs in Hc. cbn [snd] in Hc. rewrite Hc.
      cbn [existsb].
      destruct (section_eqb s (fst c)), (existsb _ ss),
        (store_get st (fst c) (snd c)); cbn [option_map orb];
        try reflexivity.
      now rewrite merged_idem.
Qed.

(** The merge loop on a parsed object: it does not raise, keeps the keys
    of every section, and merges every field that exists. *)
Lemma merge_extracted_object data st :
  fst (merge_extracted (Fresh (JObj data)) st) = inr tt
  /\ (forall s, dict_keys (fields_of (snd (merge_extracted (Fresh (JObj data)) st)) s)
                = dict_keys (fields_of st s))
  /\ (forall c : cell,
         store_get (snd (merge_extracted (Fresh (JObj data)) st)) (fst c) (snd c)
         = option_map (merged data c) (store_get st (fst c) (snd c))).
Proof.
  unfold merge_extracted.
  destruct (merge_sections_pointwise data sections st) as (Hok & Hkeys & Hget).
  repeat split; [exact Hok|exact Hkeys|].
  intros c. rewrite Hget.
  replace (existsb (fun s => section_eqb s (fst c)) sections) with true
    by (destruct c as [[] f]; reflexivity).
  reflexivity.
Qed.

(** *** The whole step on a parsed object *)

Lemma date_fix_idem v : date_fix (date_fix v) = date_fix v.
Proof.
  unfold date_fix.
  destruct (truthy v && negb (is_str v)) eqn:E; [reflexivity|].
  now rewrite E.
Qed.

Lemma keep_chars_idem p s :
  PyStr.keep_chars p (PyStr.keep_chars p s) = PyStr.keep_chars p s.
Proof.
  induction s as [|c s IH]; simpl; [reflexivity|].
  destruct (p c) eqn:E; simpl; [now rewrite E, IH|exact IH].
Qed.

Lemma keep_chars_all p s : PyStr.all_chars p (PyStr.keep_chars p s) = true.
Proof.
  induction s as [|c s IH]; simpl; [reflexivity|].
  destruct (p c) eqn:E; simpl; [now rewrite E, IH|exact IH].
Qed.

Lemma money_fix_idem v : money_fix (money_fix v) = money_fix v.
Proof.
  unfold money_fix.
  destruct (truthy v && negb (py_eq_str v "N/A")) eqn:E.
  - cbv beta iota.
    destruct (truthy (JStr _) && negb _); [|reflexivity].
    cbn [py_str]. now rewrite keep_chars_idem.
  - now rewrite E.
Qed.

Theorem clean_object data st :
  fst (_validate_and_clean_data (Fresh (JObj data)) st) = inr tt
  /\ (forall s,
         dict_keys (fields_of (snd (_validate_and_clean_data (Fresh (JObj data)) st)) s)
         = dict_keys (fields_of st s))
  /\ (forall c : cell,
         store_get (snd (_validate_and_clean_data (Fresh (JObj data)) st)) (fst c) (snd c)
         = option_map (cleaned data c) (store_get st (fst c) (snd c))).
Proof.
  unfold _validate_and_clean_data.
  destruct (merge_extracted_object data st) as (Hok & Hkeys & Hget).
  destruct (merge_extracted (Fresh (JObj data)) st) as [r1 st1] eqn:Em.
  cbn [fst snd] in Hok, Hkeys, Hget. subst r1.
  rewrite (bind_ok _ _ _ _ _ Em).
  rewrite (bind_ok _ _ _ _ _ (validate_dates_run st1)).
  rewrite validate_money_run. cbn [fst snd].
  split; [reflexivity|]. split.
  - intros s. now rewrite !keys_apply.
  - intros c.
    rewrite !store_get_apply, Hget.
    destruct (store_get st (fst c) (snd c)) as [old|]; [|reflexivity].
    cbn [option_map]. f_equal.
    rewrite (updates_at_const money_fix) by apply money_fix_idem.
    rewrite (updates_at_const date_fix) by apply date_fix_idem.
    reflexivity.
Qed.

End WithRuntime.
End CleanFacts.

(* ================================================================== *)
(** ** Facts about cleaning strings and about the schema as built *)

Module SchemaFacts.
Import Json PyTime Extractor Cells CellFacts PyStr.

Ltac each_char c :=
  destruct c as [b0 b1 b2 b3 b4 b5 b6 b7];
  destruct b0, b1, b2, b3, b4, b5, b6, b7.

Lemma space_not_digit_or_dot c : is_space c = true -> is_digit_or_dot c = false.
Proof. each_char c; vm_compute; intros H; first [reflexivity|discriminate H]. Qed.

Lemma lower_digit_or_dot c : is_digit_or_dot (lower_char c) = is_digit_or_dot c.
Proof. each_char c; vm_compute; reflexivity. Qed.

Lemma keep_lstrip p v :
  (forall c, is_space c = true -> p c = false) ->
  keep_chars p (lstrip v) = keep_chars p v.
Proof.
  intros Hp. induction v as [|a v IH]; simpl; [reflexivity|].
  destruct (is_space a) eqn:E; [|reflexivity].
  now rewrite (Hp a E).
Qed.

Lemma keep_rstrip p v :
  (forall c, is_space c = true -> p c = false) ->
  keep_chars p (rstrip v) = keep_chars p v.
Proof.
  intros Hp. induction v as [|a v IH]; [reflexivity|].
  cbn [rstrip].
  destruct (rstrip v) as [|b r].
  - cbn [keep_chars] in IH. cbn [keep_chars]. rewrite <- IH.
    destruct (is_space a) eqn:E.
    + now rewrite (Hp a E).
    + reflexivity.
  - change (keep_chars p (String a (String b r)))
      with (if p a then String a (keep_chars p (String b r)) else keep_chars p (String b r)).
    rewrite IH. reflexivity.
Qed.

Lemma keep_strip v :
  keep_chars is_digit_or_dot (strip v) = keep_chars is_digit_or_dot v.
Proof.
  unfold strip.
  rewrite keep_rstrip, keep_lstrip; auto using space_not_digit_or_dot.
Qed.

Lemma keep_lower s :
  keep_chars is_digit_or_dot (lower s) = lower (keep_chars is_digit_or_dot s).
Proof.
  induction s as [|c s IH]; simpl; [reflexivity|].
  rewrite lower_digit_or_dot.
  destruct (is_digit_or_dot c); simpl; now rewrite IH.
Qed.

Lemma sentinel_keep t :
  existsb (String.eqb (lower t)) sentinels = true ->
  keep_chars is_digit_or_dot t = "".
Proof.
  intros H.
  assert (E : lower (keep_chars is_digit_or_dot t) = "").
  { rewrite <- keep_lower.
    apply existsb_exists in H as (z & Hin & Hz).
    apply String.eqb_eq in Hz. rewrite Hz.
    simpl in Hin. destruct Hin as [<-|[<-|[<-|[<-|[]]]]]; reflexivity. }
  destruct (keep_chars is_digit_or_dot t); [reflexivity|discriminate E].
Qed.

Lemma keep_trim_collapse v :
  keep_chars is_digit_or_dot (trim_collapse v) = keep_chars is_digit_or_dot v.
Proof.
  unfold trim_collapse.
  destruct (existsb _ sentinels) eqn:E.
  - rewrite <- (keep_strip v). now rewrite (sentinel_keep _ E).
  - apply keep_strip.
Qed.

Lemma trim_collapse_not_na v : String.eqb (trim_collapse v) "N/A" = false.
Proof.
  unfold trim_collapse.
  destruct (existsb _ sentinels) eqn:E; [reflexivity|].
  destruct (String.eqb_spec (strip v) "N/A") as [Hna|]; [|reflexivity].
  rewrite Hna in E. discriminate E.
Qed.

Lemma clean_value_str v : clean_value (JStr v) = JStr (trim_collapse v).
Proof.
  unfold clean_value, trim_collapse.
  destruct (existsb _ sentinels); reflexivity.
Qed.

Lemma date_fix_str v : date_fix (JStr v) = JStr v.
Proof. unfold date_fix. cbn [is_str negb]. now rewrite andb_false_r. Qed.

Lemma money_fix_trim `{PyRuntime} v :
  money_fix (JStr (trim_collapse v))
  = JStr (keep_chars is_digit_or_dot (trim_collapse v)).
Proof.
  unfold money_fix. cbn [truthy py_eq_str py_str].
  rewrite trim_collapse_not_na.
  destruct (String.eqb_spec (trim_collapse v) "") as [->|]; reflexivity.
Qed.

(** *** The schema as built *)

Lemma pristine_shape created : has_schema_shape (mna_schema created).
Proof. intros []; reflexivity. Qed.

Lemma pristine_get created (c : cell) :
  In (snd c) (schema_fields (fst c)) ->
  store_get (mna_schema created) (fst c) (snd c) = Some (default_value created c).
Proof.
  destruct c as [[] f]; cbn [fst snd schema_fields In]; intros Hin;
    repeat (destruct Hin as [<-|Hin]; [reflexivity|]); destruct Hin.
Qed.

Lemma pristine_values created (c : cell) v :
  store_get (mna_schema created) (fst c) (snd c) = Some v ->
  In (snd c) (schema_fields (fst c)) /\ v = default_value created c.
Proof.
  intros H.
  assert (Hin : In (snd c) (schema_fields (fst c))).
  { rewrite <- (pristine_shape created). apply store_get_keys. congruence. }
  split; [exact Hin|].
  rewrite (pristine_get created c Hin) in H. congruence.
Qed.

Lemma default_not_special created (c : cell) :
  (is_date_field c || is_money_field c) = true ->
  default_value created c = JStr "".
Proof.
  unfold default_value.
  destruct (cell_eqb c (Metadata, "date_processed")) eqn:E; [|reflexivity].
  apply cell_eqb_eq in E. subst c. discriminate.
Qed.

Lemma default_cleaned `{PyRuntime} created data (c : cell) :
  parsed_field data c = None ->
  cleaned data c (default_value created c) = default_value created c.
Proof.
  intros Hnone. unfold cleaned, merged. rewrite Hnone.
  destruct (is_date_field c) eqn:Ed, (is_money_field c) eqn:Em;
    try (rewrite default_not_special by (rewrite Ed, Em; reflexivity));
    reflexivity.
Qed.

(** *** The construction timestamp survives cleaning *)

Lemma is_space_digit n : is_space (digit n) = false.
Proof.
  unfold digit.
  pose proof (Nat.mod_upper_bound n 10 ltac:(lia)) as Hlt.
  destruct (n mod 10) as [|[|[|[|[|[|[|[|[|[|k]]]]]]]]]]; try reflexivity; lia.
Qed.

Lemma strip_isoformat d : strip (isoformat d) = isoformat d.
Proof.
  unfold strip, isoformat, pad6, pad4, pad2.
  destruct (microsecond d =? 0); cbn [String.append lstrip];
    rewrite is_space_digit; cbn [rstrip]; rewrite is_space_digit;
    cbv beta iota; reflexivity.
Qed.

Lemma long_not_sentinel s :
  4 < String.length s -> existsb (String.eqb (lower s)) sentinels = false.
Proof.
  destruct s as [|a [|b [|c [|d [|e s]]]]]; cbn [String.length]; try lia.
  intros _. cbn [existsb sentinels lower String.eqb].
  repeat match goal with
         | |- context [Ascii.eqb ?x ?y] => destruct (Ascii.eqb x y)
         end; reflexivity.
Qed.

Lemma isoformat_long d : 4 < String.length (isoformat d).
Proof.
  unfold isoformat, pad6, pad4, pad2.
  destruct (microsecond d =? 0); cbn [String.append String.length]; lia.
Qed.

Lemma clean_value_isoformat d : clean_value (JStr (isoformat d)) = JStr (isoformat d).
Proof.
  unfold clean_value. rewrite strip_isoformat, long_not_sentinel; [reflexivity|].
  apply isoformat_long.
Qed.

End SchemaFacts.

(* ================================================================== *)
(** ** The merge/clean step: shape, round trip, monetary fields *)

Module MergeClaims.
Import Json PyTime Extractor Cells CellFacts CleanFacts SchemaFacts PyStr.

Section WithRuntime.
Context {rt : PyRuntime}.

Lemma for_each_noop {A} (body : A -> M unit) st :
  (forall x, body x st = (inr tt, st)) ->
  forall l, for_each l body st = (inr tt, st).
Proof.
  intros Hbody. induction l as [|x l IH]; simpl; [reflexivity|].
  unfold bind. now rewrite Hbody.
Qed.

Lemma apply_updates_id us st :
  (forall c g v, In (c, g) us -> store_get st (fst c) (snd c) = Some v -> g v = v) ->
  apply_updates us st = st.
Proof.
  induction us as [|[c g] us IH]; intros H; simpl; [reflexivity|].
  rewrite update_cell_id by (intros v Hv; apply (H c g v); [left; reflexivity|exact Hv]).
  apply IH. intros c' g' v Hin. apply H. now right.
Qed.

Lemma merge_section_copy s st :
  merge_section SchemaCopy s st
  = (inr tt,
     apply_updates (map (fun f => ((s, f), clean_value)) (dict_keys (fields_of st s))) st).
Proof.
  unfold merge_section, section_dict, bind, ret, get_store.
  apply (for_each_updates (merge_field s (Shared s)) (fun f => ((s, f), clean_value))).
  intros f st'. apply merge_field_shared.
Qed.

Lemma default_clean_value created c :
  clean_value (default_value created c) = default_value created c.
Proof.
  unfold default_value.
  destruct (cell_eqb c (Metadata, "date_processed"));
    [apply clean_value_isoformat|reflexivity].
Qed.

(** On the schema as built, a merge with the schema's own copy changes
    nothing. *)
Lemma clean_copy_pristine created :
  _validate_and_clean_data SchemaCopy (mna_schema created)
  = (inr tt, mna_schema created).
Proof.
  assert (Hmerge : merge_extracted SchemaCopy (mna_schema created)
                   = (inr tt, mna_schema created)).
  { apply for_each_noop. intros s.
    rewrite merge_section_copy, apply_updates_id; [reflexivity|].
    intros c g v Hin Hv.
    apply in_map_iff in Hin as (f & [= <- <-] & Hf).
    apply pristine_values in Hv as [_ ->].
    apply default_clean_value. }
  assert (Hdates : apply_updates (map (fun c => (c, date_fix)) date_fields)
                                 (mna_schema created) = mna_schema created).
  { apply apply_updates_id.
    intros c g v Hin Hv.
    apply in_map_iff in Hin as (c' & [= -> <-] & Hc).
    apply pristine_values in Hv as [_ ->].
    unfold default_value.
    destruct (cell_eqb c (Metadata, "date_processed")); apply date_fix_str. }
  assert (Hmoney : apply_updates (map (fun c => (c, money_fix)) monetary_fields)
                                 (mna_schema created) = mna_schema created).
  { apply apply_updates_id.
    intros c g v Hin Hv.
    apply in_map_iff in Hin as (c' & [= -> <-] & Hc).
    apply pristine_values in Hv as [_ ->].
    rewrite default_not_special; [reflexivity|].
    simpl in Hc.
    destruct Hc as [<-|[<-|[<-|[<-|[<-|[]]]]]]; reflexivity. }
  unfold _validate_and_clean_data.
  rewrite (bind_ok _ _ _ _ _ Hmerge).
  rewrite (bind_ok _ _ _ _ _ (validate_dates_run _)).
  rewrite validate_money_run, Hdates, Hmoney. reflexivity.
Qed.

(** C1, amended: on the schema as built, for every parsed result that is
    a JSON object (and for the schema copy that stands for an unparseable
    response), the merge/clean step returns without raising a record with
    exactly the sections and fields of the schema; a field missing from
    the parsed result carries the schema default, which is the empty
    string except for [metadata.date_processed], whose default is the
    timestamp of construction; no field outside the schema appears.  A
    parsed result that is null, a boolean or a number makes the step raise
    a TypeError, whatever the schema holds. *)
Theorem clean_record_shape created data :
  let run := _validate_and_clean_data (Fresh (JObj data)) (mna_schema created) in
  fst run = inr tt
  /\ has_schema_shape (snd run)
  /\ (forall c : cell,
         In (snd c) (schema_fields (fst c)) -> parsed_field data c = None ->
         store_get (snd run) (fst c) (snd c) = Some (default_value created c))
  /\ (forall c : cell,
         ~ In (snd c) (schema_fields (fst c)) ->
         store_get (snd run) (fst c) (snd c) = None)
  /\ _validate_and_clean_data SchemaCopy (mna_schema created)
     = (inr tt, mna_schema created)
  /\ (forall j st,
         is_scalar j = true ->
         _validate_and_clean_data (Fresh j) st = (inl (TypeError NotAContainer), st)).
Proof.
  cbv zeta.
  destruct (clean_object data (mna_schema created)) as (Hok & Hkeys & Hget).
  assert (Hshape : has_schema_shape
                     (snd (_validate_and_clean_data (Fresh (JObj data)) (mna_schema created)))).
  { intros s. rewrite Hkeys. apply pristine_shape. }
  split; [exact Hok|]. split; [exact Hshape|]. split; [|split; [|split]].
  - intros c Hin Hnone.
    rewrite Hget, (pristine_get created c Hin). cbn [option_map].
    now rewrite default_cleaned.
  - intros c Hout.
    destruct (store_get _ (fst c) (snd c)) eqn:E; [|reflexivity].
    exfalso. apply Hout. rewrite <- Hshape. apply store_get_keys. congruence.
  - apply clean_copy_pristine.
  - intros j st Hj. destruct j; try discriminate Hj; reflexivity.
Qed.

(** C6, amended: on the schema as built, merging a parsed object that has
    every schema field with a string value yields a record of the schema's
    shape in which each field holds the object's value after whitespace
    trimming and sentinel collapse, and, in the five monetary fields, with
    every character that is not a digit or a decimal point removed;
    merging an empty object yields the schema as built. *)
Theorem merge_round_trip created data :
  ((forall c : cell,
       In (snd c) (schema_fields (fst c)) ->
       exists v, parsed_field data c = Some (JStr v)) ->
   let run := _validate_and_clean_data (Fresh (JObj data)) (mna_schema created) in
   fst run = inr tt
   /\ has_schema_shape (snd run)
   /\ forall (c : cell) v,
        In (snd c) (schema_fields (fst c)) -> parsed_field data c = Some (JStr v) ->
        store_get (snd run) (fst c) (snd c)
        = Some (JStr (if is_money_field c
                      then keep_chars is_digit_or_dot (trim_collapse v)
                      else trim_collapse v)))
  /\ _validate_and_clean_data (Fresh (JObj [])) (mna_schema created)
     = (inr tt, mna_schema created).
Proof.
  split.
  - intros _. cbv zeta.
    destruct (clean_object data (mna_schema created)) as (Hok & Hkeys & Hget).
    split; [exact Hok|].
    split; [intros s; rewrite Hkeys; apply pristine_shape|].
    intros c v Hin Hv.
    rewrite Hget, (pristine_get created c Hin). cbn [option_map]. f_equal.
    unfold cleaned, merged. rewrite Hv, clean_value_str.
    destruct (is_date_field c); rewrite ?date_fix_str;
      destruct (is_money_field c); rewrite ?money_fix_trim; reflexivity.
  - reflexivity.
Qed.

Lemma monetary_flags (c : cell) :
  In c monetary_fields -> is_date_field c = false /\ is_money_field c = true.
Proof.
  intros Hc. simpl in Hc.
  destruct Hc as [<-|[<-|[<-|[<-|[<-|[]]]]]]; split; reflexivity.
Qed.

(** C7: whatever the store holds, a value of one of the five monetary
    fields that is a string, or is not empty (truthy), leaves the merge/clean
    step as its text with every character that is not a digit or a decimal
    point removed; [_validate_monetary_values] itself does this to every
    non-empty value it finds, except the string ["N/A"], which the merge has
    already collapsed; the result holds digits and decimal points only and
    may be empty; ["$1,234.56M"] becomes ["1234.56"]. *)
Theorem monetary_cleaning st (c : cell) :
  In c monetary_fields ->
  (forall data value,
      store_get st (fst c) (snd c) <> None ->
      parsed_field data c = Some value ->
      (is_str value = true \/ truthy value = true) ->
      store_get (snd (_validate_and_clean_data (Fresh (JObj data)) st)) (fst c) (snd c)
      = Some (JStr (keep_chars is_digit_or_dot (py_str value))))
  /\ (forall value,
         store_get st (fst c) (snd c) = Some value ->
         truthy value = true -> py_eq_str value "N/A" = false ->
         store_get (snd (_validate_monetary_values st)) (fst c) (snd c)
         = Some (JStr (keep_chars is_digit_or_dot (py_str value))))
  /\ (forall value,
         all_chars is_digit_or_dot (keep_chars is_digit_or_dot (py_str value)) = true)
  /\ keep_chars is_digit_or_dot "$1,234.56M" = "1234.56".
Proof.
  intros Hc.
  destruct (monetary_flags c Hc) as [Hdate Hmoney].
  split; [|split; [|split; [intros; apply keep_chars_all|reflexivity]]].
  - intros data value Hkey Hv Hcase.
    destruct (clean_object data st) as (_ & _ & Hget).
    rewrite Hget.
    destruct (store_get st (fst c) (snd c)) as [old|]; [|congruence].
    cbn [option_map]. f_equal.
    unfold cleaned, merged. rewrite Hv, Hdate, Hmoney.
    destruct value as [| | | |v| |];
      try (destruct Hcase as [Hcase|Hcase]; [discriminate Hcase|];
           cbn [clean_value]; unfold money_fix; rewrite Hcase; reflexivity).
    rewrite clean_value_str, money_fix_trim. cbn [py_str].
    now rewrite keep_trim_collapse.
  - intros value Hv Htruthy Hna.
    rewrite validate_money_run. cbn [snd].
    rewrite store_get_apply, Hv. cbn [option_map]. f_equal.
    rewrite (updates_at_const money_fix) by apply money_fix_idem.
    fold (is_money_field c). rewrite Hmoney.
    unfold money_fix. now rewrite Htruthy, Hna.
Qed.

(** The guard of [_validate_monetary_values]: a field that holds ["N/A"]
    when the function runs is left as it is.  The merge never leaves that
    value, since it collapses it to the empty string first. *)
Lemma money_fix_guard : money_fix (JStr "N/A") = JStr "N/A".
Proof. reflexivity. Qed.

(** C10, amended: a value that is not a string, found in the parsed
    result for a field of the store, is written by the merge loop as it is,
    without trim or sentinel collapse.  When the merge/clean step returns,
    the field holds the empty string if the value is truthy and the field
    is a date field, the text [str(value)] without the characters that are
    not a digit or a decimal point if the value is truthy and the field is
    a monetary field, and the value itself otherwise: so it is still there
    if it is falsy (such as null) or if the field is neither a date nor a
    monetary field. *)
Theorem non_string_copied st data (c : cell) v :
  store_get st (fst c) (snd c) <> None ->
  parsed_field data c = Some v ->
  is_str v = false ->
  store_get (snd (merge_extracted (Fresh (JObj data)) st)) (fst c) (snd c) = Some v
  /\ store_get (snd (_validate_and_clean_data (Fresh (JObj data)) st)) (fst c) (snd c)
     = Some (if truthy v && is_date_field c then JStr ""
             else if truthy v && is_money_field c
                  then JStr (keep_chars is_digit_or_dot (py_repr v))
                  else v)
  /\ (truthy v = false \/ (is_date_field c = false /\ is_money_field c = false) ->
      store_get (snd (_validate_and_clean_data (Fresh (JObj data)) st)) (fst c) (snd c)
      = Some v).
Proof.
  intros Hkey Hv Hns.
  assert (Hclean : clean_value v = v) by (destruct v; [..|discriminate Hns| |]; reflexivity).
  assert (Hna : py_eq_str v "N/A" = false) by (destruct v; [..|discriminate Hns| |]; reflexivity).
  assert (Hpy : py_str v = py_repr v) by (destruct v; [..|discriminate Hns| |]; reflexivity).
  destruct (store_get st (fst c) (snd c)) as [old|] eqn:E; [|congruence].
  assert (Hfull :
            store_get (snd (_validate_and_clean_data (Fresh (JObj data)) st)) (fst c) (snd c)
            = Some (if truthy v && is_date_field c then JStr ""
                    else if truthy v && is_money_field c
                         then JStr (keep_chars is_digit_or_dot (py_repr v))
                         else v)).
  { destruct (clean_object data st) as (_ & _ & Hget).
    rewrite Hget, E. cbn [option_map]. f_equal.
    unfold cleaned, merged. rewrite Hv, Hclean.
    destruct (truthy v) eqn:Ht; cbn [andb].
    - destruct (is_date_field c).
      + assert (Hd : date_fix v = JStr "") by (unfold date_fix; now rewrite Ht, Hns).
        rewrite Hd. destruct (is_money_field c); reflexivity.
      + destruct (is_money_field c); [|reflexivity].
        unfold money_fix. now rewrite Ht, Hna, Hpy.
    - assert (Hd : date_fix v = v) by (unfold date_fix; now rewrite Ht).
      assert (Hm : money_fix v = v) by (unfold money_fix; now rewrite Ht).
      destruct (is_date_field c), (is_money_field c); now rewrite ?Hd, ?Hm. }
  split; [|split; [exact Hfull|]].
  - destruct (merge_extracted_object data st) as (_ & _ & Hget).
    rewrite Hget, E. cbn [option_map]. unfold merged. now rewrite Hv, Hclean.
  - intros Hcase. rewrite Hfull.
    destruct Hcase as [Hfalsy|[Hd Hm]].
    + now rewrite Hfalsy.
    + now rewrite Hd, Hm, !andb_false_r.
Qed.

End WithRuntime.

(** *** Concrete runs *)

Lemma clean_record_shape_witness :
  store_get (Sample.clean Sample.revenue_object) Metadata "deal_id" = Some (JStr "").
Proof.
  exact (proj1 (proj2 (proj2 (@clean_record_shape Sample.runtime Sample.created
                                                   Sample.revenue_object)))
               (Metadata, "deal_id") (or_introl eq_refl) eq_refl).
Defined.

(** The empty object has no [date_processed], and the record holds the
    timestamp of construction there, not the empty string; and the parsed
    result [null] gives no record: the step raises. *)
Lemma default_date_processed_not_empty :
  parsed_field [] (Metadata, "date_processed") = None
  /\ store_get (Sample.clean []) Metadata "date_processed"
     = Some (JStr "2024-03-15T10:30:00")
  /\ fst (@_validate_and_clean_data Sample.runtime (Fresh JNull)
                                    (mna_schema Sample.created))
     = inl (TypeError NotAContainer).
Proof. repeat split; vm_compute; reflexivity. Qed.

Lemma full_object_complete (c : cell) :
  In (snd c) (schema_fields (fst c)) ->
  exists v, parsed_field Sample.full_object c = Some (JStr v).
Proof.
  destruct c as [[] f]; cbn [fst snd schema_fields In]; intros Hin;
    repeat (destruct Hin as [<-|Hin]; [eexists; reflexivity|]); destruct Hin.
Qed.

Lemma merge_round_trip_witness :
  store_get (Sample.clean Sample.full_object) DealSummary "buyer" = Some (JStr "x").
Proof.
  refine (proj2 (proj2 (proj1 (@merge_round_trip Sample.runtime Sample.created
                                                 Sample.full_object)
                              full_object_complete))
                (DealSummary, "buyer") " x " _ eq_refl).
  cbn. auto 6.
Defined.

(** An object with every schema field as a string whose [deal_size_usd],
    ["$5M"], is unchanged by trimming and sentinel collapse, and is ["5"] in
    the record. *)
Lemma round_trip_monetary_field :
  forallb (fun s =>
             forallb (fun f => match parsed_field Sample.full_object (s, f) with
                               | Some (JStr _) => true
                               | _ => false
                               end)
                     (schema_fields s))
          sections = true
  /\ parsed_field Sample.full_object (DealSummary, "deal_size_usd") = Some (JStr "$5M")
  /\ trim_collapse "$5M" = "$5M"
  /\ store_get (Sample.clean Sample.full_object) DealSummary "deal_size_usd"
     = Some (JStr "5").
Proof. repeat split; vm_compute; reflexivity. Qed.

Lemma monetary_cleaning_witness :
  store_get (Sample.clean Sample.revenue_object) Financials "revenue"
  = Some (JStr "1234.56").
Proof.
  refine (proj1 (@monetary_cleaning Sample.runtime (mna_schema Sample.created)
                                    (Financials, "revenue") _)
                Sample.revenue_object (JStr "$1,234.56M") _ eq_refl (or_introl eq_refl)).
  - right; left; reflexivity.
  - cbn. discriminate.
Defined.

Lemma non_string_copied_witness :
  store_get (Sample.clean Sample.null_buyer_object) DealSummary "buyer" = Some JNull.
Proof.
  refine (proj2 (proj2 (@non_string_copied Sample.runtime (mna_schema Sample.created)
                                           Sample.null_buyer_object (DealSummary, "buyer")
                                           JNull _ eq_refl eq_refl))
                (or_introl eq_refl)).
  cbn. discriminate.
Defined.

(** A number in a monetary field and a number in a date field: the merge
    loop writes them as they are, and the record that the step returns
    holds the string ["5000000"] and the empty string in their place. *)
Lemma number_not_returned_unchanged :
  parsed_field NumberSample.revenue_number_object (Financials, "revenue")
  = Some (JInt 5000000)
  /\ store_get (snd (merge_extracted (Fresh (JObj NumberSample.revenue_number_object))
                                     (mna_schema Sample.created)))
               Financials "revenue"
     = Some (JInt 5000000)
  /\ store_get (snd (@_validate_and_clean_data
                       NumberSample.runtime
                       (Fresh (JObj NumberSample.revenue_number_object))
                       (mna_schema Sample.created)))
               Financials "revenue"
     = Some (JStr "5000000")
  /\ parsed_field NumberSample.date_number_object (DealSummary, "announcement_date")
     = Some (JInt 20240315)
  /\ store_get (snd (@_validate_and_clean_data
                       NumberSample.runtime
                       (Fresh (JObj NumberSample.date_number_object))
                       (mna_schema Sample.created)))
               DealSummary "announcement_date"
     = Some (JStr "").
Proof. repeat split; vm_compute; reflexivity. Qed.

End MergeClaims.

(* ================================================================== *)
(** ** The deal identifier *)

Module DealIdClaims.
Import Json PyTime Extractor Cells PyStr.

Lemma is_decimal_digit n : is_decimal (digit n) = true.
Proof.
  unfold digit.
  pose proof (Nat.mod_upper_bound n 10 ltac:(lia)) as Hlt.
  destruct (n mod 10) as [|[|[|[|[|[|[|[|[|[|k]]]]]]]]]]; try reflexivity; lia.
Qed.

Lemma years_have_four_digits :
  forallb (fun y => (String.length (decimal y) =? 4) && all_chars is_decimal (decimal y))
          (seq 1000 9000) = true.
Proof. vm_compute. reflexivity. Qed.

Lemma year_digits y :
  1000 <= y <= 9999 ->
  exists a b c d,
    decimal y = String a (String b (String c (String d EmptyString)))
    /\ is_decimal a = true /\ is_decimal b = true
    /\ is_decimal c = true /\ is_decimal d = true.
Proof.
  intros Hy.
  pose proof years_have_four_digits as H.
  rewrite forallb_forall in H.
  assert (Hend : 1000 + 9000 = S 9999) by (vm_compute; reflexivity).
  specialize (H y ltac:(apply in_seq; rewrite Hend; lia)).
  apply andb_true_iff in H as [Hlen Hall].
  apply Nat.eqb_eq in Hlen.
  destruct (decimal y) as [|a [|b [|c [|d [|e s]]]]]; try discriminate Hlen.
  exists a, b, c, d. cbn [all_chars] in Hall.
  repeat (apply andb_true_iff in Hall as [? Hall]).
  repeat split; assumption.
Qed.




End DealIdClaims.

(* ================================================================== *)
(** ** process_document *)

Module ProcessClaims.
Import Json PyTime Extractor Cells CellFacts CleanFacts SchemaFacts MergeClaims.

Section WithRuntime.
Context {rt : PyRuntime}.

Lemma for_each_ok {A} (body : A -> M unit) :
  (forall x st, fst (body x st) = inr tt) ->
  forall l st, fst (for_each l body st) = inr tt.
Proof.
  intros Hbody. induction l as [|x l IH]; intros st; simpl; [reflexivity|].
  unfold bind. specialize (Hbody x st).
  destruct (body x st) as [[e|[]] st']; [discriminate Hbody|apply IH].
Qed.

(** After the merge, the rest of the step does not raise. *)
Lemma validation_ok st :
  fst ((_validate_dates ;;; _validate_monetary_values)%py st) = inr tt.
Proof.
  rewrite (bind_ok _ _ _ _ _ (validate_dates_run st)).
  now rewrite validate_money_run.
Qed.

Lemma clean_copy_ok st : fst (_validate_and_clean_data SchemaCopy st) = inr tt.
Proof.
  unfold _validate_and_clean_data.
  assert (H : fst (merge_extracted SchemaCopy st) = inr tt).
  { apply for_each_ok. intros s st'. now rewrite merge_section_copy. }
  destruct (merge_extracted SchemaCopy st) as [[e|[]] st1] eqn:E; [discriminate H|].
  rewrite (bind_ok _ _ _ _ _ E). apply validation_ok.
Qed.

(** A parsed result that is not an object is not merged: the loop raises or
    skips every section, and writes nothing. *)
Lemma merge_non_object j st :
  match j with JObj _ => False | _ => True end ->
  snd (merge_extracted (Fresh j) st) = st.
Proof.
  intros Hj.
  unfold merge_extracted, sections, for_each, merge_section, section_dict.
  unfold bind, lift, ret, py_in, py_getitem.
  destruct j; try contradiction; try reflexivity;
    repeat match goal with
           | |- context [if ?b then _ else _] => destruct b
           end; reflexivity.
Qed.

(** When the merge/clean step raises, it has written nothing. *)
Lemma clean_raise_unchanged p st e st' :
  _validate_and_clean_data p st = (inl e, st') -> st' = st.
Proof.
  intros H.
  destruct p as [j|].
  - destruct j;
      try (unfold _validate_and_clean_data in H;
           match type of H with
           | bind (merge_extracted (Fresh ?j)) _ _ = _ =>
               pose proof (merge_non_object j st I) as Hm;
               destruct (merge_extracted (Fresh j) st) as [[e1|[]] st1] eqn:Em;
               cbn [snd] in Hm; subst st1;
               [ rewrite (bind_raise _ _ _ _ _ Em) in H; congruence
               | rewrite (bind_ok _ _ _ _ _ Em) in H;
                 pose proof (validation_ok st) as Hv; rewrite H in Hv; discriminate Hv ]
           end).
    destruct (clean_object members st) as (Hok & _).
    rewrite H in Hok. discriminate Hok.
  - pose proof (clean_copy_ok st) as Hok. rewrite H in Hok. discriminate Hok.
Qed.

Lemma process_body_cases w text doc_type st :
  process_body w text doc_type st
  = match response w text doc_type st with
    | inl e => (inl e, st)
    | inr None => (inl (TypeError RegexOperand), st)
    | inr (Some response_text) =>
        match parse_result response_text with
        | inl e => (inl e, st)
        | inr p =>
            match _validate_and_clean_data p st with
            | (inl e, st') => (inl e, st')
            | (inr _, st') => (inr tt, stamped w st')
            end
        end
    end.
Proof.
  assert (Hp : exists prompt,
             _create_extraction_prompt text doc_type st = (inr prompt, st))
    by (eexists; reflexivity).
  destruct Hp as [prompt Hp].
  unfold process_body, response.
  rewrite (bind_ok _ _ _ _ _ Hp), Hp.
  unfold bind at 1. unfold lift.
  destruct (chat_completion w prompt) as [e|[response_text|]]; try reflexivity.
  unfold _parse_ai_response, parse_result, json_candidate.
  destruct (json_loads _) as [[| |msg|]|j]; try reflexivity.
Qed.

Lemma body_raise_unchanged w text doc_type st e st' :
  process_body w text doc_type st = (inl e, st') -> st' = st.
Proof.
  rewrite process_body_cases.
  destruct (response w text doc_type st) as [e0|[response_text|]];
    try (intros [= _ <-]; reflexivity).
  destruct (parse_result response_text) as [e0|p];
    try (intros [= _ <-]; reflexivity).
  destruct (_validate_and_clean_data _ st) as [[e1|[]] st1] eqn:E; [|discriminate].
  intros [= _ <-]. exact (clean_raise_unchanged _ _ _ _ E).
Qed.

(** C2, amended: [process_document] returns a record whatever happens in its
    [try] block: either the block completes and its record is returned, or
    it raises and the returned record has [metadata.extraction_error] set to
    the description of the exception; an exception of the completion call is
    one such; on the schema as built the error record is that schema plus
    the error entry.  A response that cannot be parsed as JSON raises
    nothing, whatever the schema holds: on the schema as built it yields the
    record whose fields are all default except [metadata.date_processed],
    the current time, and [metadata.deal_id], the timestamp identifier; it
    has no [extraction_error]. *)
Theorem process_document_total w text doc_type :
  (forall st,
      (exists st', process_body w text doc_type st = (inr tt, st')
                   /\ process_document w text doc_type st = (st', st'))
      \/ (exists e, process_body w text doc_type st = (inl e, st)
                    /\ store_get (fst (process_document w text doc_type st))
                                 Metadata "extraction_error"
                       = Some (JStr (exn_str e))))
  /\ (forall st e, response w text doc_type st = inl e ->
                   process_body w text doc_type st = (inl e, st))
  /\ (forall created e st',
         process_body w text doc_type (mna_schema created) = (inl e, st') ->
         fst (process_document w text doc_type (mna_schema created))
         = store_set (mna_schema created) Metadata "extraction_error" (JStr (exn_str e)))
  /\ (forall created response_text,
         response w text doc_type (mna_schema created) = inr (Some response_text) ->
         (exists msg, json_loads (json_candidate response_text) = inl (JSONDecodeError msg)) ->
         fst (process_document w text doc_type (mna_schema created))
         = store_set
             (store_set (mna_schema created)
                        Metadata "date_processed" (JStr (isoformat (now_processed w))))
             Metadata "deal_id" (JStr (timestamp_id (now_deal_id w)))
         /\ store_get (fst (process_document w text doc_type (mna_schema created)))
                      Metadata "extraction_error" = None)
  /\ (forall st response_text,
         response w text doc_type st = inr (Some response_text) ->
         (exists msg, json_loads (json_candidate response_text) = inl (JSONDecodeError msg)) ->
         exists st', process_body w text doc_type st = (inr tt, st')).
Proof.
  split; [|split; [|split; [|split]]].
  - intros st. unfold process_document.
    destruct (process_body w text doc_type st) as [[e|[]] st'] eqn:E.
    + right. exists e.
      pose proof (body_raise_unchanged w text doc_type st e st' E) as Hst. subst st'.
      split; [reflexivity|].
      cbn [fst].
      rewrite (store_get_set _ Metadata "extraction_error" _ (Metadata, "extraction_error")).
      now rewrite cell_eqb_refl.
    + left. exists st'. split; reflexivity.
  - intros st e He. rewrite process_body_cases, He. reflexivity.
  - intros created e st' E.
    pose proof (body_raise_unchanged w text doc_type _ e st' E) as Hst. subst st'.
    unfold process_document. now rewrite E.
  - intros created response_text Hresp [msg Hjson].
    assert (E : process_body w text doc_type (mna_schema created)
                = (inr tt, stamped w (mna_schema created))).
    { rewrite process_body_cases, Hresp. unfold parse_result. rewrite Hjson.
      now rewrite clean_copy_pristine. }
    unfold process_document. rewrite E. cbn [fst].
    split; reflexivity.
  - intros st response_text Hresp [msg Hjson].
    rewrite process_body_cases, Hresp. unfold parse_result. rewrite Hjson.
    pose proof (clean_copy_ok st) as Hok.
    destruct (_validate_and_clean_data SchemaCopy st) as [[e|[]] st'];
      [discriminate Hok|eexists; reflexivity].
Qed.

End WithRuntime.

Lemma process_document_total_witness :
  store_get (fst (@process_document Sample.runtime (Sample.failing "timeout")
                                    "text" "other" (mna_schema Sample.created)))
            Metadata "extraction_error"
  = Some (JStr "timeout")
  /\ store_get (fst (@process_document Sample.runtime (Sample.answering "not json")
                                       "text" "other" (mna_schema Sample.created)))
               Metadata "extraction_error"
     = None.
Proof.
  split.
  - rewrite (proj1 (proj2 (proj2 (@process_document_total
                                    Sample.runtime (Sample.failing "timeout") "text" "other")))
                   Sample.created (CollaboratorError "timeout") (mna_schema Sample.created));
      reflexivity.
  - apply (proj1 (proj2 (proj2 (proj2 (@process_document_total
                                         Sample.runtime (Sample.answering "not json")
                                         "text" "other"))))
                 Sample.created "not json"); [reflexivity|eexists; reflexivity].
Defined.

(** A response that is not JSON: the record returned on the schema as built
    carries a deal identifier, so it is not the all-default record. *)
Lemma unparseable_response_is_stamped :
  @json_loads Sample.runtime (json_candidate "not json")
  = inl (JSONDecodeError "Expecting value")
  /\ store_get (fst (@process_document Sample.runtime (Sample.answering "not json")
                                       "text" "other" (mna_schema Sample.created)))
               Metadata "deal_id"
     = Some (JStr "DEAL_20240316_113102")
  /\ store_get (mna_schema Sample.created) Metadata "deal_id" = Some (JStr "").
Proof. repeat split; vm_compute; reflexivity. Qed.

(** C3, as the code runs: a call that succeeds writes what it merged, and its
    stamps, into the inner dicts of [self.mna_schema], and the next call
    returns them for the fields its own response does not mention; a call
    that fails leaves [extraction_error] in the schema, and the record of a
    later successful call still carries it. *)
Theorem schema_written_by_calls :
  let st1 := snd (@process_document Sample.runtime (Sample.answering Sample.buyer_response)
                                    "first" "other" (mna_schema Sample.created)) in
  let r2 := fst (@process_document Sample.runtime (Sample.answering "{}")
                                   "second" "other" st1) in
  let st3 := snd (@process_document Sample.runtime (Sample.failing "timeout")
                                    "third" "other" (mna_schema Sample.created)) in
  let r4 := fst (@process_document Sample.runtime (Sample.answering "{}")
                                   "fourth" "other" st3) in
  store_get (mna_schema Sample.created) DealSummary "buyer" = Some (JStr "")
  /\ store_get st1 DealSummary "buyer" = Some (JStr "Acme")
  /\ store_get st1 Metadata "deal_id" = Some (JStr "DEAL_20240316_113102")
  /\ store_get r2 DealSummary "buyer" = Some (JStr "Acme")
  /\ store_get st3 Metadata "extraction_error" = Some (JStr "timeout")
  /\ store_get r4 Metadata "extraction_error" = Some (JStr "timeout").
Proof. cbv zeta. repeat split; vm_compute; reflexivity. Qed.

End ProcessClaims.

(* ================================================================== *)
(** ** Concatenation of strings *)

Module AppendFacts.

Lemma append_assoc (a b c : string) : ((a ++ b) ++ c = a ++ (b ++ c))%string.
Proof. induction a as [|x a IH]; simpl; [reflexivity|now rewrite IH]. Qed.

Lemma append_nil_r (a : string) : (a ++ "" = a)%string.
Proof. induction a as [|x a IH]; simpl; [reflexivity|now rewrite IH]. Qed.

Lemma length_append (a b : string) :
  String.length (a ++ b) = String.length a + String.length b.
Proof. induction a as [|x a IH]; simpl; [reflexivity|now rewrite IH]. Qed.

End AppendFacts.

(* ================================================================== *)
(** ** More about the classifier: indicators, ties, bounds, growth *)

Module IndicatorFacts.
Import PyStr Classifier Spec Indicators PyStrFacts ClassifierFacts AppendFacts.

Lemma overlap_count_zero q s : overlap_count q s = 0 <-> contains q s = false.
Proof.
  induction s as [|c s IH]; simpl.
  - destruct (starts_with q ""); simpl; split; (lia || discriminate || reflexivity).
  - destruct (starts_with q (String c s)); simpl.
    + split; [lia|discriminate].
    + exact IH.
Qed.

Lemma plain_count_zero text q :
  plain_term q = true ->
  count (lower text) (lower q) = 0 <-> contains (lower q) (lower text) = false.
Proof.
  intros Hq. unfold plain_term in Hq.
  apply andb_true_iff in Hq as [Hne Hu].
  rewrite count_overlap; [apply overlap_count_zero| |exact Hu].
  intros E. rewrite E in Hne. discriminate Hne.
Qed.

Lemma list_sum_zero {A} (f : A -> nat) l :
  list_sum (map f l) = 0 <-> forall x, In x l -> f x = 0.
Proof.
  induction l as [|y l IH]; simpl.
  - split; [intros _ x []|reflexivity].
  - split.
    + intros H x [<-|Hx]; [lia|]. apply IH; [lia|exact Hx].
    + intros H. rewrite (H y) by auto. apply IH. auto.
Qed.

Lemma filter_nil {A} (f : A -> bool) l :
  filter f l = [] <-> forall x, In x l -> f x = false.
Proof.
  induction l as [|y l IH]; simpl.
  - split; [intros _ x []|reflexivity].
  - destruct (f y) eqn:E.
    + split; [discriminate|]. intros H. rewrite (H y) in E by auto. discriminate E.
    + rewrite IH. split.
      * intros H x [<-|Hx]; auto.
      * auto.
Qed.

Lemma score_zero_found text p :
  forallb plain_term (keywords p ++ phrases p) = true ->
  score (lower text) p = 0 <-> found_indicators (lower text) p = [].
Proof.
  intros Hplain. rewrite forallb_forall in Hplain.
  unfold score, found_indicators.
  rewrite !fold_left_add. cbn [Nat.add].
  split.
  - intros H.
    assert (Hk : list_sum (map (fun q => count (lower text) (lower q) * 1) (keywords p)) = 0)
      by lia.
    assert (Hp : list_sum (map (fun q => count (lower text) (lower q) * 2) (phrases p)) = 0)
      by lia.
    rewrite list_sum_zero in Hk, Hp.
    replace (filter _ (keywords p)) with (@nil string).
    + apply filter_nil. intros q Hq.
      apply plain_count_zero; [apply Hplain, in_or_app; auto|].
      specialize (Hp q Hq). lia.
    + symmetry. apply filter_nil. intros q Hq.
      apply plain_count_zero; [apply Hplain, in_or_app; auto|].
      specialize (Hk q Hq). lia.
  - intros H. apply app_eq_nil in H as [Hk Hp].
    rewrite filter_nil in Hk, Hp.
    assert (Hk0 : list_sum (map (fun q => count (lower text) (lower q) * 1) (keywords p)) = 0).
    { apply list_sum_zero. intros q Hq.
      rewrite (proj2 (plain_count_zero text q (Hplain q (in_or_app _ _ _ (or_introl Hq)))));
        auto. }
    assert (Hp0 : list_sum (map (fun q => count (lower text) (lower q) * 2) (phrases p)) = 0).
    { apply list_sum_zero. intros q Hq.
      rewrite (proj2 (plain_count_zero text q (Hplain q (in_or_app _ _ _ (or_intror Hq)))));
        auto. }
    lia.
Qed.

Lemma table_plain dp :
  In dp patterns -> forallb plain_term (keywords (snd dp) ++ phrases (snd dp)) = true.
Proof.
  intros Hin. pose proof terms_plain as H.
  rewrite forallb_forall in H. exact (H dp Hin).
Qed.

Lemma classify_other_total text :
  classify_document text = "other" <-> list_sum (map snd (scores text)) = 0.
Proof.
  unfold classify_document. rewrite scores_labels.
  cbn [map snd py_max py_max_key best_key fold_left list_sum fold_right].
  generalize (label_score text "press_release") (label_score text "quarterly_report")
             (label_score text "annual_report") (label_score text "investor_deck").
  intros a b c d.
  split_comparisons; split; intros Hgoal; first [lia | discriminate Hgoal | reflexivity].
Qed.

Lemma total_zero_scores text :
  list_sum (map snd (scores text)) = 0
  <-> forall dp, In dp patterns -> score (lower text) (snd dp) = 0.
Proof.
  unfold scores. rewrite map_map.
  rewrite (map_ext (fun x : string * pattern => snd (let '(doc_type, p) := x in
                                                      (doc_type, score (lower text) p)))
                   (fun dp => score (lower text) (snd dp)))
    by (intros [l p]; reflexivity).
  apply list_sum_zero.
Qed.

Lemma flat_map_nil {A B} (f : A -> list B) l :
  flat_map f l = [] <-> forall x, In x l -> f x = [].
Proof.
  induction l as [|y l IH]; simpl.
  - split; [intros _ x []|reflexivity].
  - split.
    + intros H. apply app_eq_nil in H as [Hy Hl].
      intros x [<-|Hx]; [exact Hy|]. apply IH; assumption.
    + intros H. rewrite (H y) by auto. simpl. apply IH. auto.
Qed.

(** X1: a document is classified as "other" exactly when
    [extract_key_indicators] finds no indicator of any document type. *)
Theorem other_iff_no_indicator (text : string) :
  classify_document text = "other" <-> extract_key_indicators text = [].
Proof.
  rewrite classify_other_total, total_zero_scores.
  unfold extract_key_indicators. rewrite flat_map_nil.
  split; intros H dp Hin.
  - rewrite (proj1 (score_zero_found text (snd dp) (table_plain dp Hin)) (H dp Hin)).
    reflexivity.
  - apply score_zero_found; [apply table_plain, Hin|].
    specialize (H dp Hin).
    destruct (found_indicators (lower text) (snd dp)); [reflexivity|discriminate H].
Qed.

Lemma indicators_entry text doc_type found :
  In (doc_type, found) (extract_key_indicators text) <->
  found <> [] /\ exists p, In (doc_type, p) patterns
                           /\ found = found_indicators (lower text) p.
Proof.
  unfold extract_key_indicators. rewrite in_flat_map. split.
  - intros ([l p] & Hin & Hentry). cbn [fst snd] in Hentry.
    destruct (found_indicators (lower text) p) as [|t ts] eqn:E; [destruct Hentry|].
    destruct Hentry as [[= <- <-]|[]].
    split; [discriminate|]. exists p. auto.
  - intros (Hne & p & Hin & ->).
    exists (doc_type, p). split; [exact Hin|]. cbn [fst snd].
    destruct (found_indicators (lower text) p); [congruence|left; reflexivity].
Qed.

Lemma found_occurs text p term :
  In term (found_indicators (lower text) p) <->
  In term (keywords p ++ phrases p) /\ ci_occurs term text.
Proof.
  unfold found_indicators.
  rewrite !in_app_iff, !filter_In, !contains_ci_occurs. tauto.
Qed.

(** X2: the indicators are sound and complete: a keyword or phrase of a
    document type is listed under that type exactly when it occurs in the
    text, letter case ignored; no type is listed with an empty list. *)
Theorem indicators_sound_complete (text : string) :
  (forall doc_type p term,
      In (doc_type, p) patterns -> In term (keywords p ++ phrases p) ->
      (ci_occurs term text <->
       exists found, In (doc_type, found) (extract_key_indicators text) /\ In term found))
  /\ (forall doc_type found term,
         In (doc_type, found) (extract_key_indicators text) -> In term found ->
         ci_occurs term text)
  /\ (forall doc_type found,
         In (doc_type, found) (extract_key_indicators text) -> found <> []).
Proof.
  split; [|split].
  - intros doc_type p term Hin Hterm. split.
    + intros Hocc.
      assert (Hf : In term (found_indicators (lower text) p))
        by (apply found_occurs; auto).
      exists (found_indicators (lower text) p). split; [|exact Hf].
      apply indicators_entry. split; [|eauto].
      intros E. rewrite E in Hf. destruct Hf.
    + intros (found & Hentry & Hf).
      apply indicators_entry in Hentry as (_ & p' & Hin' & ->).
      apply found_occurs in Hf. tauto.
  - intros doc_type found term Hentry Hf.
    apply indicators_entry in Hentry as (_ & p & _ & ->).
    apply found_occurs in Hf. tauto.
  - intros doc_type found Hentry.
    apply indicators_entry in Hentry. tauto.
Qed.

Lemma indicators_sound_complete_witness :
  exists found,
    In ("press_release", found) (extract_key_indicators "The MERGER closed")
    /\ In "merger" found.
Proof.
  refine (proj1 (proj1 (indicators_sound_complete "The MERGER closed")
                       "press_release" (snd (hd ("", mkPattern [] []) patterns)) "merger"
                       _ _) _).
  - left; reflexivity.
  - cbn. auto 6.
  - apply contains_ci_occurs. vm_compute. reflexivity.
Defined.

(** *** Ties *)

Lemma best_key_first : forall rest before k v mid,
  (forall e, In e before -> snd e < v) ->
  (forall e, In e mid -> snd e <= v) ->
  exists v', first_maximum (before ++ (k, v) :: mid ++ rest) (best_key rest k v) v'.
Proof.
  induction rest as [|[k1 v1] rest IH]; intros before k v mid Hb Hm.
  - exists v, before, mid. rewrite app_nil_r. auto.
  - cbn [best_key].
    destruct (Nat.ltb_spec v v1) as [Hlt|Hge].
    + destruct (IH (before ++ (k, v) :: mid) k1 v1 []) as [v' Hv'].
      * intros e He. apply in_app_or in He as [He|[<-|He]];
          [specialize (Hb e He); lia|simpl; lia|specialize (Hm e He); lia].
      * intros e [].
      * exists v'. rewrite <- app_assoc in Hv'. exact Hv'.
    + destruct (IH before k v (mid ++ [(k1, v1)])) as [v' Hv'].
      * exact Hb.
      * intros e He. apply in_app_or in He as [He|[<-|[]]]; [auto|simpl; lia].
      * exists v'. rewrite <- app_assoc in Hv'. exact Hv'.
Qed.

Lemma fold_max_bound l : forall a m,
  a <= m -> (forall x, In x l -> x <= m) -> fold_left Nat.max l a <= m.
Proof.
  induction l as [|y l IH]; intros a m Ha Hl; simpl; [exact Ha|].
  apply IH; [|auto with datatypes].
  specialize (Hl y (or_introl eq_refl)). lia.
Qed.

Lemma classify_first_maximum text :
  classify_document text <> "other" ->
  exists v, first_maximum (scores text) (classify_document text) v /\ 0 < v.
Proof.
  unfold classify_document.
  destruct (scores text) as [|[k v] rest] eqn:E; cbn [map snd py_max py_max_key];
    [congruence|].
  destruct (Nat.ltb_spec 0 (fold_left Nat.max (map snd rest) v)) as [Hpos|]; [|congruence].
  intros _.
  destruct (best_key_first rest [] k v []) as [v' Hv']; [intros e []..|].
  cbn [app] in Hv'. exists v'. split; [exact Hv'|].
  destruct Hv' as (before & behind & Hsplit & Hb & Ha).
  assert (Hall : forall e, In e ((k, v) :: rest) -> snd e <= v').
  { intros e He. rewrite Hsplit in He.
    apply in_app_or in He as [He|[<-|He]];
      [specialize (Hb e He); lia|simpl; lia|auto]. }
  assert (fold_left Nat.max (map snd rest) v <= v').
  { apply fold_max_bound.
    - apply (Hall (k, v)). left; reflexivity.
    - intros x Hx. apply in_map_iff in Hx as (e & <- & He). apply Hall. now right. }
  lia.
Qed.

(** X3: when the classification is not "other", the returned document type
    is the first entry of the score table with the largest score: every type
    before it in the table has a strictly smaller score, none behind it has
    a larger one, and its score is positive.  A tie goes to the earlier
    type. *)
Theorem classify_ties_to_first (text : string) :
  classify_document text <> "other" ->
  exists v, first_maximum (scores text) (classify_document text) v /\ 0 < v.
Proof. apply classify_first_maximum. Qed.

Lemma classify_ties_to_first_witness :
  exists v,
    first_maximum (scores "merger and earnings") (classify_document "merger and earnings") v
    /\ 0 < v.
Proof.
  apply (classify_ties_to_first "merger and earnings").
  vm_compute. discriminate.
Defined.

(** *** Bounds of the confidences *)

Lemma percentage_mono total v1 v2 :
  v1 <= v2 -> (percentage total v1 <= percentage total v2)%Q.
Proof.
  intros Hle. unfold percentage, Qdiv.
  apply Qmult_le_compat_r; [|discriminate].
  apply Qmult_le_compat_r.
  - rewrite <- Zle_Qle. lia.
  - apply Qinv_le_0_compat. rewrite <- (Zle_Qle 0). lia.
Qed.

Lemma percentage_nonneg total v : (0 <= percentage total v)%Q.
Proof.
  unfold percentage, Qdiv.
  apply Qmult_le_0_compat; [|discriminate].
  apply Qmult_le_0_compat.
  - rewrite <- (Zle_Qle 0). lia.
  - apply Qinv_le_0_compat. rewrite <- (Zle_Qle 0). lia.
Qed.

Lemma score_le_total (l : list (string * nat)) e :
  In e l -> snd e <= list_sum (map snd l).
Proof.
  induction l as [|y l IH]; simpl; [intros []|intros [<-|He]; [lia|]].
  specialize (IH He). lia.
Qed.

Lemma confidence_entries text :
  get_classification_confidence text
  = map (fun e => (fst e,
                   if 0 <? list_sum (map snd (scores text))
                   then percentage (list_sum (map snd (scores text))) (snd e)
                   else inject_Z (Z.of_nat (snd e))))
        (scores text).
Proof.
  unfold get_classification_confidence.
  destruct (0 <? list_sum (map snd (scores text)));
    apply map_ext; intros [l v]; reflexivity.
Qed.

(** X4: every confidence lies between 0 and 100, and when the
    classification is not "other" no document type has a larger confidence
    than the one [classify_document] returns. *)
Theorem confidence_bounds (text : string) :
  (forall label q,
      In (label, q) (get_classification_confidence text) -> (0 <= q /\ q <= 100)%Q)
  /\ (classify_document text <> "other" ->
      exists q,
        In (classify_document text, q) (get_classification_confidence text)
        /\ forall label q',
             In (label, q') (get_classification_confidence text) -> (q' <= q)%Q).
Proof.
  rewrite confidence_entries.
  pose proof (score_le_total (scores text)) as Hle.
  split.
  - intros label q Hin.
    remember (list_sum (map snd (scores text))) as total eqn:Et.
    apply in_map_iff in Hin as (e & Heq & He).
    specialize (Hle e He).
    assert (Hq : q = if 0 <? total then percentage total (snd e)
                     else inject_Z (Z.of_nat (snd e))) by congruence.
    rewrite Hq. clear Hq Heq.
    destruct (Nat.ltb_spec 0 total) as [Hpos|Hz].
    + split; [apply percentage_nonneg|].
      rewrite <- (percentage_total _ Hpos).
      apply percentage_mono, Hle.
    + replace (snd e) with 0 by lia. split; discriminate.
  - intros Hno.
    destruct (classify_first_maximum text Hno)
      as (v & (before & behind & Hsplit & Hb & Ha) & Hv).
    assert (Hin : In (classify_document text, v) (scores text))
      by (rewrite Hsplit; apply in_or_app; right; left; reflexivity).
    pose proof (Hle _ Hin) as Hpos. cbn [snd] in Hpos.
    remember (list_sum (map snd (scores text))) as total eqn:Et.
    remember (classify_document text) as best eqn:Eb.
    assert (Hif : (0 <? total) = true) by (apply Nat.ltb_lt; lia).
    rewrite Hif.
    exists (percentage total v). split.
    + apply in_map_iff. exists (best, v). split; [reflexivity|exact Hin].
    + intros label q' Hq'.
      apply in_map_iff in Hq' as (e & Heq & He).
      assert (Hq : q' = percentage total (snd e)) by congruence.
      rewrite Hq. apply percentage_mono.
      rewrite Hsplit in He.
      apply in_app_or in He as [He|[<-|He]];
        [specialize (Hb e He); lia|simpl; lia|auto].
Qed.

Lemma confidence_bounds_witness :
  exists q,
    In (classify_document "merger and earnings", q)
       (get_classification_confidence "merger and earnings")
    /\ forall label q',
         In (label, q') (get_classification_confidence "merger and earnings") ->
         (q' <= q)%Q.
Proof.
  apply (proj2 (confidence_bounds "merger and earnings")).
  vm_compute. discriminate.
Defined.

(** *** More text *)

Lemma contains_grows k pre t post :
  contains k t = true -> contains k (pre ++ t ++ post) = true.
Proof.
  rewrite !contains_occurs.
  intros (a & b & ->).
  exists (pre ++ a)%string, (b ++ post)%string.
  now rewrite !append_assoc.
Qed.

Lemma filter_length_le {A} (f g : A -> bool) l :
  (forall x, f x = true -> g x = true) ->
  List.length (filter f l) <= List.length (filter g l).
Proof.
  intros H. induction l as [|y l IH]; simpl; [lia|].
  destruct (f y) eqn:E.
  - rewrite (H y E). simpl. lia.
  - destruct (g y); simpl; lia.
Qed.

Lemma keyword_count_grows kws pre t post :
  keyword_count kws (lower t) <= keyword_count kws (lower (pre ++ t ++ post)).
Proof.
  rewrite !keyword_count_length, !lower_app.
  apply filter_length_le. intros k. apply contains_grows.
Qed.

Lemma other_no_term text :
  classify_document text = "other" <->
  forall dp q, In dp patterns -> In q (keywords (snd dp) ++ phrases (snd dp)) ->
               contains (lower q) (lower text) = false.
Proof.
  rewrite classify_other_total, total_zero_scores.
  split.
  - intros H dp q Hdp Hq.
    pose proof (proj1 (score_zero_found text (snd dp) (table_plain dp Hdp)) (H dp Hdp)) as Hf.
    unfold found_indicators in Hf. apply app_eq_nil in Hf as [Hk Hp].
    rewrite filter_nil in Hk, Hp.
    apply in_app_or in Hq as [Hq|Hq]; auto.
  - intros H dp Hdp.
    apply score_zero_found; [apply table_plain, Hdp|].
    unfold found_indicators.
    replace (filter _ (keywords (snd dp))) with (@nil string).
    + apply filter_nil. intros q Hq. apply (H dp q Hdp), in_or_app. auto.
    + symmetry. apply filter_nil. intros q Hq. apply (H dp q Hdp), in_or_app. auto.
Qed.

(** X5: text added before or behind a document never takes a signal away: a
    text that is a financial document (or an M&A document) stays one inside
    any longer text, and a text that is classified as one of the four
    document types is not classified as "other" inside a longer text. *)
Theorem flags_survive_more_text (pre t post : string) :
  (is_financial_document t = true ->
   is_financial_document (pre ++ t ++ post) = true)
  /\ (is_mna_document t = true -> is_mna_document (pre ++ t ++ post) = true)
  /\ (classify_document (pre ++ t ++ post) = "other" -> classify_document t = "other").
Proof.
  unfold is_financial_document, is_mna_document.
  split; [|split].
  - intros H. apply Nat.leb_le. apply Nat.leb_le in H.
    pose proof (keyword_count_grows financial_keywords pre t post). lia.
  - intros H. apply Nat.leb_le. apply Nat.leb_le in H.
    pose proof (keyword_count_grows mna_keywords pre t post). lia.
  - rewrite !other_no_term. intros H dp q Hdp Hq.
    specialize (H dp q Hdp Hq). rewrite !lower_app in H.
    destruct (contains (lower q) (lower t)) eqn:E; [|reflexivity].
    rewrite (contains_grows _ _ _ _ E) in H. discriminate H.
Qed.

Lemma flags_survive_more_text_witness :
  is_mna_document ("Notice: " ++ "the buyer will acquire it" ++ ". End.") = true.
Proof.
  apply (proj1 (proj2 (flags_survive_more_text "Notice: " "the buyer will acquire it"
                                              ". End."))).
  vm_compute. reflexivity.
Defined.


(** *** Letter case *)

Lemma lower_char_idem c : lower_char (lower_char c) = lower_char c.
Proof.
  destruct c as [b0 b1 b2 b3 b4 b5 b6 b7];
    destruct b0, b1, b2, b3, b4, b5, b6, b7; vm_compute; reflexivity.
Qed.

Lemma lower_idem s : lower (lower s) = lower s.
Proof. induction s as [|c s IH]; simpl; [reflexivity|now rewrite lower_char_idem, IH]. Qed.

(** X6: the five functions of the classifier read the lowercased text
    only: two texts that differ in letter case only get the same answers, and
    a text gets the answers of its own lowercase form. *)
Theorem letter_case_ignored (a b : string) :
  lower a = lower b ->
  classify_document a = classify_document b
  /\ get_classification_confidence a = get_classification_confidence b
  /\ extract_key_indicators a = extract_key_indicators b
  /\ is_financial_document a = is_financial_document b
  /\ is_mna_document a = is_mna_document b
  /\ classify_document (lower a) = classify_document a.
Proof.
  intros E.
  assert (Hs : scores a = scores b) by (unfold scores; now rewrite E).
  assert (Hl : scores (lower a) = scores a) by (unfold scores; now rewrite lower_idem).
  unfold classify_document, get_classification_confidence, extract_key_indicators,
    is_financial_document, is_mna_document.
  rewrite Hl, Hs, E. repeat split; reflexivity.
Qed.

Lemma letter_case_ignored_witness :
  classify_document "MERGER Agreement" = classify_document "merger agreement".
Proof.
  apply (letter_case_ignored "MERGER Agreement" "merger agreement").
  vm_compute. reflexivity.
Defined.

(** *** The document types *)

(** X7: [classify_document] returns each of the five document types that
    [/supported-formats] lists for some text, and nothing else. *)
Theorem classification_range (doc_type : string) :
  In doc_type document_types <-> exists text, classify_document text = doc_type.
Proof.
  split.
  - intros Hin. simpl in Hin.
    destruct Hin as [<-|[<-|[<-|[<-|[<-|[]]]]]].
    + exists "merger"%string. vm_compute. reflexivity.
    + exists "earnings"%string. vm_compute. reflexivity.
    + exists "fiscal year"%string. vm_compute. reflexivity.
    + exists "slide"%string. vm_compute. reflexivity.
    + exists ""%string. vm_compute. reflexivity.
  - intros [text <-]. apply classify_closed.
Qed.

End IndicatorFacts.

(* ================================================================== *)
(** ** More about ai_orchestrator.py *)

Module ExtractorFacts.
Import Json PyTime Extractor Cells Frames TextCleaner.
Import PyStrFacts CellFacts CleanFacts SchemaFacts MergeClaims ProcessClaims PyStr AppendFacts.

(** *** _validate_dates *)

(** X8: [_validate_dates] never raises and adds or removes no field; the
    only value it changes is a non-empty (truthy) value of a date field that
    is not a string, which becomes the empty string.  A string in a date
    field stays as it is, whatever its format. *)
Theorem validate_dates_effect (st : schema_store) :
  fst (_validate_dates st) = inr tt
  /\ (forall s, dict_keys (fields_of (snd (_validate_dates st)) s)
                = dict_keys (fields_of st s))
  /\ (forall c : cell,
         store_get (snd (_validate_dates st)) (fst c) (snd c)
         = option_map (fun v => if is_date_field c && truthy v && negb (is_str v)
                                then JStr "" else v)
                      (store_get st (fst c) (snd c)))
  /\ (forall (c : cell) d,
         store_get st (fst c) (snd c) = Some (JStr d) ->
         store_get (snd (_validate_dates st)) (fst c) (snd c) = Some (JStr d)).
Proof.
  rewrite validate_dates_run. cbn [fst snd].
  assert (Hget : forall c : cell,
             store_get (apply_updates (map (fun c' => (c', date_fix)) date_fields) st)
                       (fst c) (snd c)
             = option_map (fun v => if is_date_field c && truthy v && negb (is_str v)
                                    then JStr "" else v)
                          (store_get st (fst c) (snd c))).
  { intros c. rewrite store_get_apply.
    destruct (store_get st (fst c) (snd c)) as [v|]; [|reflexivity].
    cbn [option_map]. f_equal.
    rewrite (updates_at_const date_fix) by apply date_fix_idem.
    fold (is_date_field c). unfold date_fix.
    destruct (is_date_field c); [|reflexivity].
    rewrite <- andb_assoc. reflexivity. }
  split; [reflexivity|]. split; [intros s; apply keys_apply|]. split; [exact Hget|].
  intros c d Hd. rewrite Hget, Hd. cbn [option_map truthy is_str negb].
  now rewrite andb_false_r.
Qed.

(** *** The regular expression of _parse_ai_response *)

Lemma has_char_app c a b : has_char c (a ++ b) = has_char c a || has_char c b.
Proof.
  induction a as [|x a IH]; simpl; [reflexivity|].
  now rewrite IH, orb_assoc.
Qed.

Lemma from_first_split c s t :
  from_first c s = Some t ->
  exists pre t', s = (pre ++ t)%string /\ t = String c t' /\ has_char c pre = false.
Proof.
  revert t. induction s as [|a s IH]; simpl; intros t; [discriminate|].
  destruct (Ascii.eqb_spec a c) as [->|Hne].
  - intros [= <-]. exists ""%string, s. repeat split.
  - intros H. destruct (IH t H) as (pre & t' & -> & -> & Hpre).
    exists (String a pre), t'. repeat split. simpl.
    destruct (Ascii.eqb_spec a c); [contradiction|exact Hpre].
Qed.

Lemma from_first_found c pre t :
  has_char c pre = false -> from_first c (pre ++ String c t) = Some (String c t).
Proof.
  induction pre as [|a pre IH]; simpl.
  - now rewrite Ascii.eqb_refl.
  - destruct (Ascii.eqb a c); [discriminate|]. exact IH.
Qed.

Lemma from_first_suffix c pre rest t :
  from_first c (pre ++ String c rest) = Some t ->
  exists x, t = (x ++ String c rest)%string.
Proof.
  induction pre as [|a pre IH]; simpl.
  - rewrite Ascii.eqb_refl. intros [= <-]. now exists ""%string.
  - destruct (Ascii.eqb a c).
    + intros [= <-]. now exists (String a pre).
    + exact IH.
Qed.

Lemma from_first_some c pre rest : from_first c (pre ++ String c rest) <> None.
Proof.
  induction pre as [|a pre IH]; simpl.
  - rewrite Ascii.eqb_refl. discriminate.
  - destruct (Ascii.eqb a c); [discriminate|exact IH].
Qed.

Lemma upto_last_none c s : upto_last c s = None <-> has_char c s = false.
Proof.
  induction s as [|a s IH]; simpl; [tauto|].
  destruct (upto_last c s) as [r|].
  - destruct (has_char c s); [|destruct IH as [_ IH]; discriminate IH; reflexivity].
    rewrite orb_true_r. split; discriminate.
  - rewrite (proj1 IH eq_refl), orb_false_r.
    destruct (Ascii.eqb a c); split; congruence.
Qed.

Lemma upto_last_split c s m :
  upto_last c s = Some m ->
  exists m' post,
    m = (m' ++ String c "")%string /\ s = (m ++ post)%string /\ has_char c post = false.
Proof.
  revert m. induction s as [|a s IH]; simpl; intros m; [discriminate|].
  destruct (upto_last c s) as [r|] eqn:E.
  - intros [= <-]. destruct (IH r eq_refl) as (m' & post & -> & Hs & Hpost).
    exists (String a m'), post. repeat split; [|exact Hpost].
    simpl. now rewrite <- Hs.
  - destruct (Ascii.eqb_spec a c) as [->|]; [|discriminate].
    intros [= <-]. exists ""%string, s. repeat split.
    now apply upto_last_none.
Qed.

Lemma upto_last_found c m' post :
  has_char c post = false ->
  upto_last c (m' ++ String c post) = Some (m' ++ String c "")%string.
Proof.
  intros Hpost. induction m' as [|a m' IH]; simpl.
  - rewrite (proj2 (upto_last_none c post) Hpost). now rewrite Ascii.eqb_refl.
  - now rewrite IH.
Qed.

(** X9: the match of [\{.*\}] with DOTALL, when there is one, runs from the
    first opening brace of the response to its last closing brace; there is
    a match exactly when some opening brace has a closing brace behind it. *)
Theorem braces_match (s : string) :
  (forall m,
      re_search_braces s = Some m ->
      exists pre body post,
        s = (pre ++ m ++ post)%string /\ m = ("{" ++ body ++ "}")%string
        /\ has_char open_brace pre = false /\ has_char close_brace post = false)
  /\ (forall pre body post,
         s = (pre ++ "{" ++ body ++ "}" ++ post)%string ->
         has_char open_brace pre = false -> has_char close_brace post = false ->
         re_search_braces s = Some ("{" ++ body ++ "}")%string)
  /\ (re_search_braces s = None <->
      forall pre body post, s <> (pre ++ "{" ++ body ++ "}" ++ post)%string).
Proof.
  split; [|split].
  - intros m Hm. unfold re_search_braces in Hm.
    destruct (from_first open_brace s) as [t|] eqn:Et; [|discriminate Hm].
    destruct (from_first_split _ _ _ Et) as (pre & t' & Hs & Ht & Hpre).
    destruct (upto_last_split _ _ _ Hm) as (m' & post & Hm' & Htm & Hpost).
    assert (Hbody : exists body, m = ("{" ++ body ++ "}")%string).
    { rewrite Ht in Hm. cbn [upto_last] in Hm.
      destruct (upto_last close_brace t') as [r|] eqn:Er; [|discriminate Hm].
      injection Hm as <-.
      destruct (upto_last_split _ _ _ Er) as (b & _ & -> & _ & _).
      now exists b. }
    destruct Hbody as [body Hbody].
    exists pre, body, post. repeat split; try assumption.
    now rewrite Hs, Htm.
  - intros pre body post -> Hpre Hpost.
    unfold re_search_braces.
    change ("{" ++ body ++ "}" ++ post)%string
      with (String open_brace (body ++ String close_brace post)).
    rewrite (from_first_found _ _ _ Hpre).
    exact (upto_last_found close_brace (String open_brace body) post Hpost).
  - split.
    + intros Hnone pre body post ->.
      unfold re_search_braces in Hnone.
      change ("{" ++ body ++ "}" ++ post)%string
        with (String open_brace (body ++ String close_brace post)) in Hnone.
      destruct (from_first open_brace _) as [t|] eqn:Et.
      * destruct (from_first_suffix _ _ _ _ Et) as [x ->].
        apply upto_last_none in Hnone.
        change (String open_brace (body ++ String close_brace post))
          with (String open_brace body ++ String close_brace post)%string in Hnone.
        rewrite !has_char_app in Hnone. cbn [has_char] in Hnone.
        rewrite Ascii.eqb_refl in Hnone.
        rewrite orb_true_l, !orb_true_r in Hnone. discriminate Hnone.
      * exact (from_first_some _ _ _ Et).
    + intros Hno.
      destruct (re_search_braces s) as [m|] eqn:Em; [|reflexivity].
      exfalso.
      unfold re_search_braces in Em.
      destruct (from_first open_brace s) as [t|] eqn:Et; [|discriminate Em].
      destruct (from_first_split _ _ _ Et) as (pre & t' & Hs & Ht & _).
      destruct (upto_last_split _ _ _ Em) as (m' & post & Hm' & Htm & _).
      rewrite Ht in Em. cbn [upto_last] in Em.
      destruct (upto_last close_brace t') as [r|] eqn:Er; [|discriminate Em].
      injection Em as <-.
      destruct (upto_last_split _ _ _ Er) as (b & _ & -> & _ & _).
      apply (Hno pre b post).
      rewrite Hs, Htm. cbn [String.append]. now rewrite append_assoc.
Qed.

Section WithRuntime.
Context {rt : PyRuntime}.

(** *** The merge/clean step, run again *)

Lemma date_fix_money_fix v : date_fix (money_fix v) = money_fix v.
Proof.
  unfold money_fix.
  destruct (truthy v && negb (py_eq_str v "N/A")) eqn:E; [apply date_fix_str|].
  unfold date_fix.
  destruct v; cbn [truthy is_str py_eq_str negb] in *;
    rewrite ?andb_false_r; try reflexivity;
    rewrite andb_true_r in E; now rewrite E.
Qed.

Lemma cleaned_idem data c v : cleaned data c (cleaned data c v) = cleaned data c v.
Proof.
  unfold cleaned, merged.
  destruct (parsed_field data c); [reflexivity|].
  destruct (is_date_field c), (is_money_field c);
    rewrite ?date_fix_money_fix, ?money_fix_idem, ?date_fix_idem; reflexivity.
Qed.

(** X10: the merge/clean step is idempotent on a parsed object: run a second
    time with the same object, it does not raise and every field reads as it
    did after the first run. *)
Theorem clean_twice (data : pydict) (st : schema_store) :
  let once := snd (_validate_and_clean_data (Fresh (JObj data)) st) in
  let twice := _validate_and_clean_data (Fresh (JObj data)) once in
  fst twice = inr tt
  /\ (forall s, dict_keys (fields_of (snd twice) s) = dict_keys (fields_of once s))
  /\ (forall c : cell,
         store_get (snd twice) (fst c) (snd c) = store_get once (fst c) (snd c)).
Proof.
  cbv zeta.
  destruct (clean_object data st) as (_ & _ & Hget1).
  destruct (clean_object data (snd (_validate_and_clean_data (Fresh (JObj data)) st)))
    as (Hok & Hkeys & Hget2).
  split; [exact Hok|]. split; [exact Hkeys|].
  intros c. rewrite Hget2, Hget1.
  destruct (store_get st (fst c) (snd c)); [|reflexivity].
  cbn [option_map]. now rewrite cleaned_idem.
Qed.

(** *** Fields the response does not mention *)

Lemma stamped_get w st (c : cell) :
  c <> (Metadata, "date_processed") -> c <> (Metadata, "deal_id") ->
  store_get (stamped w st) (fst c) (snd c) = store_get st (fst c) (snd c).
Proof.
  intros H1 H2. unfold stamped. rewrite !store_get_set.
  destruct (cell_eqb (Metadata, "deal_id") c) eqn:E2;
    [apply cell_eqb_eq in E2; congruence|].
  destruct (cell_eqb (Metadata, "date_processed") c) eqn:E1;
    [apply cell_eqb_eq in E1; congruence|].
  reflexivity.
Qed.

Lemma process_object w text doc_type st response_text data :
  response w text doc_type st = inr (Some response_text) ->
  json_loads (json_candidate response_text) = inr (JObj data) ->
  process_document w text doc_type st
  = (stamped w (snd (_validate_and_clean_data (Fresh (JObj data)) st)),
     stamped w (snd (_validate_and_clean_data (Fresh (JObj data)) st))).
Proof.
  intros Hresp Hjson.
  unfold process_document.
  rewrite process_body_cases, Hresp. unfold parse_result. rewrite Hjson.
  destruct (clean_object data st) as (Hok & _).
  destruct (_validate_and_clean_data (Fresh (JObj data)) st) as [[e|[]] st'];
    [discriminate Hok|reflexivity].
Qed.

(** X11: when the response parses to an object, a field that the object
    does not mention and that is neither a date nor a monetary field is
    returned with the value the schema held before the call, whatever an
    earlier call left there; only the two stamps of the metadata are
    excepted. *)
Theorem omitted_field_carries_over w text doc_type st response_text data (c : cell) :
  response w text doc_type st = inr (Some response_text) ->
  json_loads (json_candidate response_text) = inr (JObj data) ->
  parsed_field data c = None ->
  is_date_field c = false -> is_money_field c = false ->
  c <> (Metadata, "date_processed") -> c <> (Metadata, "deal_id") ->
  store_get (fst (process_document w text doc_type st)) (fst c) (snd c)
  = store_get st (fst c) (snd c).
Proof.
  intros Hresp Hjson Hnone Hd Hm H1 H2.
  rewrite (process_object _ _ _ _ _ _ Hresp Hjson). cbn [fst].
  rewrite stamped_get by assumption.
  destruct (clean_object data st) as (_ & _ & Hget).
  rewrite Hget.
  destruct (store_get st (fst c) (snd c)); [|reflexivity].
  cbn [option_map]. unfold cleaned, merged. now rewrite Hnone, Hd, Hm.
Qed.

End WithRuntime.

Lemma omitted_field_carries_over_witness :
  store_get (fst (@process_document Sample.runtime (Sample.answering "{}") "text" "other"
                                    Sample.acme_record))
            DealSummary "target_company"
  = Some (JStr "Acme Power Co.").
Proof.
  refine (@omitted_field_carries_over Sample.runtime (Sample.answering "{}") "text" "other"
            Sample.acme_record "{}" [] (DealSummary, "target_company")
            _ _ _ _ _ _ _);
    first [reflexivity | discriminate].
Defined.


(** *** The shape of a deal identifier *)

Lemma all_chars_app p a b : all_chars p (a ++ b) = all_chars p a && all_chars p b.
Proof.
  induction a as [|x a IH]; simpl; [reflexivity|].
  now rewrite IH, andb_assoc.
Qed.

Lemma all_chars_weaken (p q : ascii -> bool) s :
  (forall c, p c = true -> q c = true) -> all_chars p s = true -> all_chars q s = true.
Proof.
  intros Hpq. induction s as [|x s IH]; simpl; [reflexivity|].
  intros H. apply andb_true_iff in H as [Hx Hs].
  now rewrite (Hpq x Hx), IH.
Qed.

Lemma all_chars_take p n : forall s, all_chars p s = true -> all_chars p (take n s) = true.
Proof.
  induction n as [|n IH]; intros [|x s]; simpl; try reflexivity.
  intros H. apply andb_true_iff in H as [Hx Hs].
  now rewrite Hx, IH.
Qed.

Lemma length_take n : forall s, String.length (take n s) <= n.
Proof.
  induction n as [|n IH]; intros [|x s]; simpl; try lia.
  specialize (IH s). lia.
Qed.

Lemma decimal_is_word c : is_decimal c = true -> is_word c = true.
Proof. each_char c; vm_compute; intros H; first [reflexivity|discriminate H]. Qed.

Lemma uint_digits u : all_chars is_decimal (NilEmpty.string_of_uint u) = true.
Proof. induction u; simpl; [reflexivity|exact IHu..]. Qed.

Lemma pad2_digits n : all_chars is_decimal (pad2 n) = true.
Proof.
  unfold pad2. cbn [all_chars].
  now rewrite !DealIdClaims.is_decimal_digit.
Qed.

Lemma stamp_digits now :
  exists a b,
    strftime_stamp now = (a ++ "_" ++ b)%string
    /\ all_chars is_decimal a = true /\ all_chars is_decimal b = true
    /\ 4 <= String.length a /\ String.length b = 6
    /\ (clock_reading now = true -> String.length a = 8).
Proof.
  exists (decimal (year now) ++ pad2 (month now) ++ pad2 (day now))%string,
         (pad2 (hour now) ++ pad2 (minute now) ++ pad2 (second now))%string.
  split; [unfold strftime_stamp; now rewrite !append_assoc|].
  rewrite !all_chars_app, !pad2_digits, !length_append.
  unfold decimal at 1. rewrite uint_digits.
  repeat split; try (cbn [pad2 String.length]; lia).
  intros Hclock. unfold clock_reading in Hclock.
  repeat (apply andb_true_iff in Hclock as [Hclock ?]).
  assert (Hy : 1000 <= year now <= 9999) by (split; apply Nat.leb_le; assumption).
  destruct (DealIdClaims.year_digits _ Hy) as (a & b & c & d & E & _).
  rewrite E. reflexivity.
Qed.

Lemma timestamp_shape now :
  starts_with "DEAL_" (timestamp_id now) = true
  /\ all_chars is_word (timestamp_id now) = true
  /\ 6 <= String.length (timestamp_id now)
  /\ (clock_reading now = true -> String.length (timestamp_id now) <= 24).
Proof.
  destruct (stamp_digits now) as (a & b & E & Ha & Hb & Hla & Hlb & Hclock).
  unfold timestamp_id. rewrite E.
  split; [apply starts_with_app|]. split; [|split].
  - rewrite !all_chars_app.
    rewrite (all_chars_weaken _ _ a decimal_is_word Ha).
    rewrite (all_chars_weaken _ _ b decimal_is_word Hb).
    reflexivity.
  - rewrite !length_append. cbn [String.length]. lia.
  - intros H. rewrite !length_append, (Hclock H), Hlb. cbn [String.length]. lia.
Qed.

Lemma generated_id_shape (now : datetime) (data : schema_store) :
  starts_with "DEAL_" (_generate_deal_id now data) = true
  /\ all_chars is_word (_generate_deal_id now data) = true
  /\ 6 <= String.length (_generate_deal_id now data)
  /\ (clock_reading now = true -> String.length (_generate_deal_id now data) <= 24).
Proof.
  unfold _generate_deal_id.
  destruct (truthy _); [|apply timestamp_shape].
  destruct (re_sub_keep is_word _) as [e|t] eqn:Et; [apply timestamp_shape|].
  destruct (re_sub_keep is_decimal _) as [e|d] eqn:Ed; [apply timestamp_shape|].
  assert (Ht : all_chars is_word t = true).
  { unfold re_sub_keep in Et. destruct (dict_get_default _ "target_company" _);
      try discriminate Et. injection Et as <-. apply keep_chars_all. }
  assert (Hd : all_chars is_decimal d = true).
  { unfold re_sub_keep in Ed. destruct (dict_get_default _ "announcement_date" _);
      try discriminate Ed. injection Ed as <-. apply keep_chars_all. }
  split; [apply starts_with_app|]. split; [|split].
  - rewrite !all_chars_app.
    rewrite (all_chars_take _ 10 _ Ht).
    rewrite (all_chars_weaken _ _ _ decimal_is_word (all_chars_take _ 8 _ Hd)).
    reflexivity.
  - rewrite !length_append. cbn [String.length]. lia.
  - intros _. rewrite !length_append. cbn [String.length].
    pose proof (length_take 10 t). pose proof (length_take 8 d). lia.
Qed.

(** X12: every deal identifier begins with [DEAL_] and holds word characters
    only, so neither spaces nor punctuation of the target name reach it; it
    has at least 6 characters, and at most 24 while the year has four
    digits. *)
Theorem deal_id_shape (now : datetime) (data : schema_store) :
  starts_with "DEAL_" (_generate_deal_id now data) = true
  /\ all_chars is_word (_generate_deal_id now data) = true
  /\ 6 <= String.length (_generate_deal_id now data)
  /\ (clock_reading now = true -> String.length (_generate_deal_id now data) <= 24).
Proof. apply generated_id_shape. Qed.

Lemma stamped_reads w st :
  store_get (stamped w st) Metadata "date_processed"
  = Some (JStr (isoformat (now_processed w)))
  /\ exists id,
       store_get (stamped w st) Metadata "deal_id" = Some (JStr id)
       /\ starts_with "DEAL_" id = true /\ all_chars is_word id = true.
Proof.
  unfold stamped. split.
  - rewrite (store_get_set _ Metadata "deal_id" _ (Metadata, "date_processed")).
    cbn [cell_eqb section_eqb fst snd andb].
    replace (String.eqb "deal_id" "date_processed") with false by reflexivity.
    rewrite (store_get_set _ Metadata "date_processed" _ (Metadata, "date_processed")).
    now rewrite cell_eqb_refl.
  - eexists. split.
    + rewrite (store_get_set _ Metadata "deal_id" _ (Metadata, "deal_id")).
      rewrite cell_eqb_refl. reflexivity.
    + split; apply generated_id_shape.
Qed.

Section Stamps.
Context {rt : PyRuntime}.

Lemma body_ok_stamped w text doc_type st st' :
  process_body w text doc_type st = (inr tt, st') -> exists st1, st' = stamped w st1.
Proof.
  rewrite process_body_cases.
  destruct (response w text doc_type st) as [e|[response_text|]]; try discriminate.
  destruct (parse_result response_text) as [e|p]; try discriminate.
  destruct (_validate_and_clean_data p st) as [[e|[]] st1]; [discriminate|].
  intros [= <-]. now exists st1.
Qed.

(** X13: whenever the [try] block of [process_document] completes, the
    record carries the current time in [metadata.date_processed] and, in
    [metadata.deal_id], a string that begins with [DEAL_] and holds word
    characters only, whatever the response was. *)
Theorem completed_call_is_stamped w text doc_type st st' :
  process_body w text doc_type st = (inr tt, st') ->
  fst (process_document w text doc_type st) = st'
  /\ store_get st' Metadata "date_processed" = Some (JStr (isoformat (now_processed w)))
  /\ exists id,
       store_get st' Metadata "deal_id" = Some (JStr id)
       /\ starts_with "DEAL_" id = true /\ all_chars is_word id = true.
Proof.
  intros Hok.
  split; [unfold process_document; now rewrite Hok|].
  destruct (body_ok_stamped _ _ _ _ _ Hok) as [st1 ->].
  apply stamped_reads.
Qed.

(** *** The fields of the schema across calls *)

Lemma bind_keys {A B} (m : M A) (k : A -> M B) :
  keeps_keys m -> (forall a, keeps_keys (k a)) -> keeps_keys (bind m k).
Proof.
  intros Hm Hk st s. unfold bind.
  specialize (Hm st s).
  destruct (m st) as [[e|a] st1]; cbn [snd] in *; [exact Hm|].
  now rewrite Hk.
Qed.

Lemma for_each_keys {A} (body : A -> M unit) :
  (forall x, keeps_keys (body x)) -> forall l, keeps_keys (for_each l body).
Proof.
  intros Hbody. induction l as [|x l IH]; cbn [for_each].
  - intros st s. reflexivity.
  - apply bind_keys; [apply Hbody|intros _; exact IH].
Qed.

Lemma merge_section_keys p s : keeps_keys (merge_section p s).
Proof.
  intros st s'.
  destruct p as [j|]; [|rewrite merge_section_copy; apply keys_apply].
  destruct j; try (rewrite merge_section_object; apply keys_apply);
    unfold merge_section, section_dict, bind, lift, ret, py_in, py_getitem;
    repeat match goal with
           | |- context [if ?b then _ else _] => destruct b
           end; reflexivity.
Qed.

Lemma clean_keys p : keeps_keys (_validate_and_clean_data p).
Proof.
  unfold _validate_and_clean_data.
  apply bind_keys; [apply for_each_keys, merge_section_keys|intros _].
  apply bind_keys; [|intros _].
  - intros st s. rewrite validate_dates_run. apply keys_apply.
  - intros st s. rewrite validate_money_run. apply keys_apply.
Qed.

Lemma process_document_store w text doc_type st :
  exists st1,
    (forall s, dict_keys (fields_of st1 s) = dict_keys (fields_of st s))
    /\ (process_document w text doc_type st = (stamped w st1, stamped w st1)
        \/ exists e,
             process_document w text doc_type st
             = (store_set st1 Metadata "extraction_error" (JStr (exn_str e)),
                store_set st1 Metadata "extraction_error" (JStr (exn_str e)))).
Proof.
  unfold process_document. rewrite process_body_cases.
  destruct (response w text doc_type st) as [e|[response_text|]];
    try (exists st; split; [reflexivity|right; eexists; reflexivity]).
  destruct (parse_result response_text) as [e|p];
    try (exists st; split; [reflexivity|right; eexists; reflexivity]).
  pose proof (clean_keys p st) as Hkeys.
  destruct (_validate_and_clean_data p st) as [[e|[]] st1]; cbn [snd] in Hkeys;
    exists st1; (split; [exact Hkeys|]);
    [right; eexists; reflexivity|left; reflexivity].
Qed.

Lemma dict_set_keys_in d k v k' :
  In k' (dict_keys (dict_set d k v)) <-> In k' (dict_keys d) \/ k' = k.
Proof.
  induction d as [|[k0 v0] d IH]; simpl.
  - split; [intros [<-|[]]; auto|intros [[]| ->]; auto].
  - destruct (String.eqb_spec k0 k) as [->|Hne]; simpl.
    + split; [tauto|intros [H| ->]; auto].
    + rewrite IH. tauto.
Qed.

Lemma store_set_other st f v s :
  s <> Metadata -> fields_of (store_set st Metadata f v) s = fields_of st s.
Proof.
  intros Hs. unfold store_set. rewrite fields_of_set_fields.
  destruct (section_eqb Metadata s) eqn:E; [|reflexivity].
  apply section_eqb_eq in E. congruence.
Qed.

Lemma store_set_metadata st f v :
  metadata (store_set st Metadata f v) = dict_set (metadata st) f v.
Proof. reflexivity. Qed.

Lemma data_sections_kept w text doc_type st s :
  s <> Metadata ->
  dict_keys (fields_of (snd (process_document w text doc_type st)) s)
  = dict_keys (fields_of st s).
Proof.
  intros Hs.
  destruct (process_document_store w text doc_type st) as (st1 & Hkeys & [E|[e E]]);
    rewrite E; cbn [snd]; unfold stamped;
    rewrite ?store_set_other by exact Hs; apply Hkeys.
Qed.

(** X14: whatever the response, a call of [process_document] adds no field
    to the four data sections of the schema and removes none; in the
    metadata it removes no field, and adds at most [date_processed],
    [deal_id] and [extraction_error]. *)
Theorem schema_fields_across_calls w text doc_type st :
  (forall s, s <> Metadata ->
             dict_keys (fields_of (snd (process_document w text doc_type st)) s)
             = dict_keys (fields_of st s))
  /\ incl (dict_keys (metadata st))
          (dict_keys (metadata (snd (process_document w text doc_type st))))
  /\ (forall k, In k (dict_keys (metadata (snd (process_document w text doc_type st)))) ->
                In k (dict_keys (metadata st)) \/ In k stamp_keys).
Proof.
  split; [intros s; apply data_sections_kept|].
  destruct (process_document_store w text doc_type st) as (st1 & Hkeys & [E|[e E]]);
    rewrite E; cbn [fst snd]; unfold stamped;
    rewrite !store_set_metadata; pose proof (Hkeys Metadata) as Hm; cbn [fields_of] in Hm.
  - split.
    + intros k Hk. rewrite !dict_set_keys_in, Hm. auto.
    + intros k Hk. rewrite !dict_set_keys_in, Hm in Hk.
      destruct Hk as [[Hk| ->]| ->]; [auto|right..]; cbn; auto.
  - split.
    + intros k Hk. rewrite dict_set_keys_in, Hm. auto.
    + intros k Hk. rewrite dict_set_keys_in, Hm in Hk.
      destruct Hk as [Hk| ->]; [auto|right]; cbn; auto.
Qed.

(** *** The text behind the first 4000 characters *)

Lemma take_prefix n : forall t u, n <= String.length t -> take n (t ++ u) = take n t.
Proof.
  induction n as [|n IH]; intros [|x t] u; simpl; try reflexivity; try lia.
  intros H. rewrite IH by lia. reflexivity.
Qed.

(** X15: [process_document] reads the first 4000 characters of the text
    only: whatever follows them changes neither the record nor the
    schema. *)
Theorem text_is_truncated w (t u : string) doc_type st :
  4000 <= String.length t ->
  process_document w (t ++ u) doc_type st = process_document w t doc_type st.
Proof.
  intros Hlen.
  unfold process_document, process_body, _create_extraction_prompt.
  now rewrite (take_prefix _ t u Hlen).
Qed.

End Stamps.

Lemma completed_call_is_stamped_witness :
  store_get (snd (@process_body Sample.runtime (Sample.answering "{}") "text" "other"
                                (mna_schema Sample.created)))
            Metadata "date_processed"
  = Some (JStr (isoformat Sample.later)).
Proof.
  refine (proj1 (proj2 (@completed_call_is_stamped
                          Sample.runtime (Sample.answering "{}") "text" "other"
                          (mna_schema Sample.created) _ _))).
  vm_compute. reflexivity.
Defined.

Lemma text_is_truncated_witness :
  @process_document Sample.runtime (Sample.answering "{}")
                    (repeat_char "a" 4000 ++ "tail") "other" (mna_schema Sample.created)
  = @process_document Sample.runtime (Sample.answering "{}")
                      (repeat_char "a" 4000) "other" (mna_schema Sample.created).
Proof.
  apply (@text_is_truncated Sample.runtime).
  apply Nat.leb_le. vm_compute. reflexivity.
Defined.

End ExtractorFacts.

(* ================================================================== *)
(** ** document_processor.py: what _clean_text returns *)

Module TextCleanerFacts.
Import PyStr TextCleaner Frames PyStrFacts SchemaFacts AppendFacts.

(** *** strip *)

Lemma lstrip_head s :
  lstrip s = "" \/ exists c t, lstrip s = String c t /\ is_space c = false.
Proof.
  induction s as [|a s IH]; simpl; [now left|].
  destruct (is_space a) eqn:E; [exact IH|].
  right. now exists a, s.
Qed.

Lemma rstrip_cons c t : is_space c = false -> rstrip (String c t) = String c (rstrip t).
Proof.
  intros Hc. cbn [rstrip]. destruct (rstrip t); [now rewrite Hc|reflexivity].
Qed.

Lemma rstrip_idem s : rstrip (rstrip s) = rstrip s.
Proof.
  induction s as [|c s IH]; [reflexivity|].
  cbn [rstrip].
  destruct (rstrip s) as [|b r] eqn:E.
  - destruct (is_space c) eqn:Ec; [reflexivity|].
    cbn [rstrip]. now rewrite Ec.
  - change (rstrip (String c (String b r)))
      with (match rstrip (String b r) with
            | EmptyString => if is_space c then EmptyString else String c EmptyString
            | r' => String c r'
            end).
    now rewrite IH.
Qed.

Lemma strip_idem s : strip (strip s) = strip s.
Proof.
  unfold strip.
  destruct (lstrip_head s) as [->|(c & t & -> & Hc)]; [reflexivity|].
  rewrite (rstrip_cons c t Hc). cbn [lstrip]. rewrite Hc.
  now rewrite (rstrip_cons c _ Hc), rstrip_idem.
Qed.

Lemma lstrip_spaces s : all_chars is_space s = true -> lstrip s = "".
Proof.
  induction s as [|c s IH]; simpl; [reflexivity|].
  intros H. apply andb_true_iff in H as [-> Hs]. now apply IH.
Qed.

Lemma rstrip_empty s : rstrip s = "" -> all_chars is_space s = true.
Proof.
  induction s as [|c s IH]; [reflexivity|].
  cbn [rstrip all_chars].
  destruct (rstrip s) as [|b r]; [|discriminate].
  destruct (is_space c); [intros _; now apply IH|discriminate].
Qed.

Lemma lstrip_spaces_inv s : all_chars is_space (lstrip s) = true -> all_chars is_space s = true.
Proof.
  induction s as [|c s IH]; simpl; [reflexivity|].
  destruct (is_space c) eqn:E; simpl; [exact IH|].
  rewrite E. discriminate.
Qed.

Lemma strip_empty s : strip s = "" <-> all_chars is_space s = true.
Proof.
  unfold strip. split.
  - intros H. now apply lstrip_spaces_inv, rstrip_empty.
  - intros H. now rewrite lstrip_spaces.
Qed.

Lemma has_char_lstrip c s : has_char c s = false -> has_char c (lstrip s) = false.
Proof.
  induction s as [|a s IH]; simpl; [reflexivity|].
  intros H. apply orb_false_iff in H as [Ha Hs].
  destruct (is_space a); [now apply IH|]. simpl. now rewrite Ha, Hs.
Qed.

Lemma has_char_rstrip c s : has_char c s = false -> has_char c (rstrip s) = false.
Proof.
  induction s as [|a s IH]; [reflexivity|].
  cbn [rstrip has_char].
  intros H. apply orb_false_iff in H as [Ha Hs].
  specialize (IH Hs).
  destruct (rstrip s) as [|b r].
  - destruct (is_space a); [reflexivity|]. simpl. now rewrite Ha.
  - cbn [has_char] in *. now rewrite Ha, IH.
Qed.

Lemma has_char_strip c s : has_char c s = false -> has_char c (strip s) = false.
Proof. intros H. now apply has_char_rstrip, has_char_lstrip. Qed.

(** *** split and join *)

Lemma split_lines_cons s : exists l ls, split_lines s = l :: ls.
Proof.
  induction s as [|c s (l & ls & IH)]; simpl; [now exists ""%string, []|].
  destruct (Ascii.eqb c nl); [now eexists; eexists|].
  rewrite IH. now eexists; eexists.
Qed.

Lemma join_cons c l ls :
  join_lines (String c l :: ls) = String c (join_lines (l :: ls)).
Proof. destruct ls; reflexivity. Qed.

Lemma join_split s : join_lines (split_lines s) = s.
Proof.
  induction s as [|c s IH]; [reflexivity|].
  cbn [split_lines].
  destruct (split_lines_cons s) as (l & ls & E). rewrite E in *.
  destruct (Ascii.eqb_spec c nl) as [->|_].
  - change (join_lines (""%string :: l :: ls)) with (String nl (join_lines (l :: ls))).
    now rewrite IH.
  - now rewrite join_cons, IH.
Qed.

Lemma split_lines_clean s : Forall (fun l => has_char nl l = false) (split_lines s).
Proof.
  induction s as [|c s IH]; cbn [split_lines]; [repeat constructor|].
  destruct (Ascii.eqb c nl) eqn:Ec; [constructor; [reflexivity|exact IH]|].
  destruct (split_lines s) as [|l ls]; [repeat constructor; simpl; now rewrite Ec|].
  inversion IH as [|? ? Hl Hls]; subst.
  constructor; [|exact Hls]. simpl. now rewrite Ec, Hl.
Qed.

Lemma split_single l : has_char nl l = false -> split_lines l = [l].
Proof.
  induction l as [|c l IH]; [reflexivity|].
  cbn [has_char split_lines]. intros H.
  apply orb_false_iff in H as [-> Hl]. now rewrite (IH Hl).
Qed.

Lemma split_app l r :
  has_char nl l = false -> split_lines (l ++ String nl r) = l :: split_lines r.
Proof.
  induction l as [|c l IH]; cbn [String.append has_char split_lines].
  - intros _. now rewrite Ascii.eqb_refl.
  - intros H. apply orb_false_iff in H as [-> Hl]. now rewrite (IH Hl).
Qed.

Lemma split_join ls :
  ls <> [] -> Forall (fun l => has_char nl l = false) ls ->
  split_lines (join_lines ls) = ls.
Proof.
  induction ls as [|l ls IH]; [congruence|].
  intros _ Hall. inversion Hall as [|? ? Hl Hls]; subst.
  destruct ls as [|l' ls]; [now apply split_single|].
  change (join_lines (l :: l' :: ls)) with (l ++ String nl (join_lines (l' :: ls)))%string.
  rewrite (split_app _ _ Hl), IH; [reflexivity|discriminate|exact Hls].
Qed.

(** *** The lines that are kept *)

Lemma cleaned_lines_spec text :
  Forall (fun l => l <> ""%string /\ trimmed l = true /\ has_char nl l = false)
         (cleaned_lines text).
Proof.
  unfold cleaned_lines.
  pose proof (split_lines_clean text) as Hclean.
  induction (split_lines text) as [|l ls IH]; cbn [map filter]; [constructor|].
  inversion Hclean as [|? ? Hl Hls]; subst.
  destruct (String.eqb_spec (strip l) "") as [E|Hne]; cbn [negb]; [now apply IH|].
  constructor; [|now apply IH].
  split; [exact Hne|]. split; [|now apply has_char_strip].
  unfold trimmed. rewrite strip_idem. apply String.eqb_refl.
Qed.

Lemma starts_nl2 s : starts_with nl2 s = true -> exists r, s = String nl (String nl r).
Proof.
  destruct s as [|a [|b r]]; cbn [nl2 starts_with].
  - discriminate.
  - rewrite andb_false_r. discriminate.
  - rewrite andb_true_r. intros H. apply andb_true_iff in H as [Ha Hb].
    apply Ascii.eqb_eq in Ha, Hb. subst. now exists r.
Qed.

Lemma no_blank_prefix l r :
  has_char nl l = false ->
  (forall t, r <> String nl t) -> contains nl2 r = false ->
  l <> ""%string ->
  contains nl2 (l ++ String nl r) = false.
Proof.
  intros Hl Hr Hc _.
  induction l as [|c l IH].
  - cbn [String.append contains].
    rewrite Hc, orb_false_r.
    destruct (starts_with nl2 (String nl r)) eqn:E; [|reflexivity].
    apply starts_nl2 in E as [t E]. injection E as E. now apply Hr in E.
  - cbn [has_char] in Hl. apply orb_false_iff in Hl as [Hc0 Hl].
    cbn [String.append contains]. rewrite (IH Hl), orb_false_r.
    destruct (starts_with nl2 (String c (l ++ String nl r))) eqn:E; [|reflexivity].
    apply starts_nl2 in E as [t E]. injection E as -> _.
    now rewrite Ascii.eqb_refl in Hc0.
Qed.

Lemma no_nl_contains l : has_char nl l = false -> contains nl2 l = false.
Proof.
  induction l as [|c l IH]; [reflexivity|].
  cbn [has_char contains]. intros H. apply orb_false_iff in H as [Hc Hl].
  rewrite (IH Hl), orb_false_r.
  destruct (starts_with nl2 (String c l)) eqn:E; [|reflexivity].
  apply starts_nl2 in E as [t E]. injection E as -> _.
  now rewrite Ascii.eqb_refl in Hc.
Qed.

Lemma join_head l ls t :
  l <> ""%string -> has_char nl l = false -> join_lines (l :: ls) <> String nl t.
Proof.
  intros Hne Hl E.
  destruct l as [|c l]; [congruence|].
  rewrite join_cons in E. injection E as -> _.
  cbn [has_char] in Hl. now rewrite Ascii.eqb_refl in Hl.
Qed.

Lemma join_no_blank ls :
  Forall (fun l => l <> ""%string /\ trimmed l = true /\ has_char nl l = false) ls ->
  contains nl2 (join_lines ls) = false.
Proof.
  induction ls as [|l ls IH]; [reflexivity|].
  intros Hall. inversion Hall as [|? ? (Hne & _ & Hl) Hls]; subst.
  destruct ls as [|l' ls]; [now apply no_nl_contains|].
  change (join_lines (l :: l' :: ls)) with (l ++ String nl (join_lines (l' :: ls)))%string.
  inversion Hls as [|? ? (Hne' & _ & Hl') _]; subst.
  apply no_blank_prefix; auto.
  intros t. now apply join_head.
Qed.

Lemma nl3_nl2 s : contains nl2 s = false -> contains nl3 s = false.
Proof.
  intros H. destruct (contains nl3 s) eqn:E; [|reflexivity].
  apply contains_occurs in E as (a & b & ->).
  assert (Hc : contains nl2 (a ++ nl3 ++ b) = true).
  { apply contains_occurs. exists a, (String nl b). reflexivity. }
  congruence.
Qed.

Lemma squeeze_done fuel s : contains nl3 s = false -> squeeze fuel s = s.
Proof. intros H. destruct fuel; simpl; [reflexivity|now rewrite H]. Qed.

Lemma clean_text_join text : _clean_text text = join_lines (cleaned_lines text).
Proof.
  unfold _clean_text.
  destruct (String.eqb_spec text "") as [->|_]; [reflexivity|].
  apply squeeze_done, nl3_nl2, join_no_blank, cleaned_lines_spec.
Qed.

(** X16: [_clean_text] returns the non-blank lines of the text, each
    stripped, joined by single newlines: the result has no blank line and no
    two consecutive newlines, so the loop that squeezes triple newlines
    never runs; split again, the result gives back exactly those lines. *)
Theorem clean_text_lines (text : string) :
  _clean_text text = join_lines (cleaned_lines text)
  /\ contains nl2 (_clean_text text) = false
  /\ Forall (fun l => l <> ""%string /\ trimmed l = true /\ has_char nl l = false)
            (cleaned_lines text)
  /\ (_clean_text text <> ""%string -> split_lines (_clean_text text) = cleaned_lines text).
Proof.
  pose proof (cleaned_lines_spec text) as Hspec.
  rewrite clean_text_join.
  split; [reflexivity|]. split; [now apply join_no_blank|]. split; [exact Hspec|].
  intros Hne. apply split_join.
  - intros E. rewrite E in Hne. now apply Hne.
  - eapply Forall_impl; [|exact Hspec]. cbv beta. tauto.
Qed.

Lemma filter_trimmed ls :
  Forall (fun l => l <> ""%string /\ trimmed l = true /\ has_char nl l = false) ls ->
  filter (fun line => negb (String.eqb line "")) (map strip ls) = ls.
Proof.
  induction ls as [|l ls IH]; [reflexivity|].
  intros Hall. inversion Hall as [|? ? (Hne & Ht & _) Hls]; subst.
  cbn [map filter]. unfold trimmed in Ht. apply String.eqb_eq in Ht. rewrite Ht.
  destruct (String.eqb_spec l ""); [contradiction|].
  cbn [negb]. now rewrite IH.
Qed.

Lemma clean_text_fixed (text : string) :
  _clean_text (_clean_text text) = _clean_text text.
Proof.
  pose proof (cleaned_lines_spec text) as Hspec.
  rewrite (clean_text_join text).
  destruct (cleaned_lines text) as [|l ls] eqn:E; [reflexivity|].
  rewrite clean_text_join. f_equal.
  unfold cleaned_lines at 1.
  rewrite split_join.
  - now apply filter_trimmed.
  - discriminate.
  - eapply Forall_impl; [|exact Hspec]. cbv beta. tauto.
Qed.

(** X17: [_clean_text] is idempotent. *)
Theorem clean_text_idempotent (text : string) :
  _clean_text (_clean_text text) = _clean_text text.
Proof. apply clean_text_fixed. Qed.

(** *** Blank texts *)

Lemma nl_is_space : is_space nl = true.
Proof. reflexivity. Qed.

Lemma join_spaces ls :
  Forall (fun l => all_chars is_space l = true) ls -> all_chars is_space (join_lines ls) = true.
Proof.
  induction ls as [|l ls IH]; [reflexivity|].
  intros Hall. inversion Hall as [|? ? Hl Hls]; subst.
  destruct ls as [|l' ls]; [exact Hl|].
  change (join_lines (l :: l' :: ls)) with (l ++ String nl (join_lines (l' :: ls)))%string.
  rewrite ExtractorFacts.all_chars_app, Hl. cbn [all_chars].
  now rewrite nl_is_space, IH.
Qed.

Lemma split_spaces s :
  all_chars is_space s = true -> Forall (fun l => all_chars is_space l = true) (split_lines s).
Proof.
  induction s as [|c s IH]; cbn [split_lines all_chars]; [repeat constructor|].
  intros H. apply andb_true_iff in H as [Hc Hs]. specialize (IH Hs).
  destruct (Ascii.eqb c nl); [constructor; [reflexivity|exact IH]|].
  destruct (split_lines s) as [|l ls]; [repeat constructor; simpl; now rewrite Hc|].
  inversion IH as [|? ? Hl Hls]; subst.
  constructor; [|exact Hls]. simpl. now rewrite Hc, Hl.
Qed.

Lemma join_empty ls :
  Forall (fun l => l <> ""%string /\ trimmed l = true /\ has_char nl l = false) ls ->
  join_lines ls = ""%string -> ls = [].
Proof.
  destruct ls as [|l ls]; [reflexivity|].
  intros Hall E. inversion Hall as [|? ? (Hne & _) _]; subst.
  destruct l as [|c l]; [congruence|].
  rewrite join_cons in E. discriminate E.
Qed.

(** X18: [_clean_text] returns the empty string exactly for the texts that
    hold whitespace only, the empty text among them. *)
Theorem clean_text_blank (text : string) :
  _clean_text text = ""%string <-> all_chars is_space text = true.
Proof.
  rewrite clean_text_join. split.
  - intros E. apply join_empty in E; [|apply cleaned_lines_spec].
    rewrite <- (join_split text). apply join_spaces.
    unfold cleaned_lines in E.
    induction (split_lines text) as [|l ls IH]; [constructor|].
    cbn [map filter] in E.
    destruct (String.eqb_spec (strip l) "") as [El|_]; [|discriminate E].
    constructor; [now apply strip_empty|now apply IH].
  - intros H. apply split_spaces in H.
    unfold cleaned_lines.
    induction (split_lines text) as [|l ls IH]; [reflexivity|].
    inversion H as [|? ? Hl Hls]; subst.
    cbn [map filter]. rewrite (proj2 (strip_empty l) Hl). cbn [String.eqb negb].
    now apply IH.
Qed.

(** *** What is kept *)

Lemma keep_app p a b : keep_chars p (a ++ b) = (keep_chars p a ++ keep_chars p b)%string.
Proof.
  induction a as [|c a IH]; simpl; [reflexivity|].
  destruct (p c); simpl; now rewrite IH.
Qed.

Lemma keep_join p ls :
  p nl = false ->
  keep_chars p (join_lines ls)
  = fold_right (fun l acc => (keep_chars p l ++ acc)%string) ""%string ls.
Proof.
  intros Hnl. induction ls as [|l ls IH]; [reflexivity|].
  destruct ls as [|l' ls]; [cbn [join_lines fold_right]; now rewrite append_nil_r|].
  change (join_lines (l :: l' :: ls)) with (l ++ String nl (join_lines (l' :: ls)))%string.
  rewrite keep_app. cbn [keep_chars]. rewrite Hnl, IH. reflexivity.
Qed.

(** X19: [_clean_text] removes whitespace only: the characters of any class
    that holds no whitespace come out as they went in, and in the same
    order. *)
Theorem clean_text_keeps (p : ascii -> bool) (text : string) :
  (forall c, is_space c = true -> p c = false) ->
  keep_chars p (_clean_text text) = keep_chars p text.
Proof.
  intros Hp.
  assert (Hnl : p nl = false) by (apply Hp, nl_is_space).
  rewrite clean_text_join.
  rewrite <- (join_split text) at 2.
  rewrite !keep_join by exact Hnl.
  unfold cleaned_lines.
  induction (split_lines text) as [|l ls IH]; [reflexivity|].
  cbn [map filter fold_right].
  assert (Hl : keep_chars p (strip l) = keep_chars p l)
    by (unfold strip; now rewrite keep_rstrip, keep_lstrip).
  destruct (String.eqb_spec (strip l) "") as [E|_]; cbn [negb fold_right].
  - rewrite <- Hl, E, IH. reflexivity.
  - now rewrite Hl, IH.
Qed.

(** *** extract_text *)

(** X20: whatever the extractors return, [extract_text] returns the cleaned
    text of one of them, and cleaning it again changes nothing; it is the
    text of pdfplumber when that has at least 100 characters after
    stripping; otherwise that text is dropped for the one of PyMuPDF,
    whatever its length, when no vision client exists or the text of
    PyMuPDF has at least 100 characters after stripping; and it is the OCR
    text when both texts are shorter and a vision client exists. *)
Theorem extract_text_cleaned (vision_client : bool) (pdfplumber pymupdf ocr : string) :
  _clean_text (extract_text vision_client pdfplumber pymupdf ocr)
  = extract_text vision_client pdfplumber pymupdf ocr
  /\ contains nl2 (extract_text vision_client pdfplumber pymupdf ocr) = false
  /\ (100 <= String.length (strip pdfplumber) ->
      extract_text vision_client pdfplumber pymupdf ocr = _clean_text pdfplumber)
  /\ (String.length (strip pdfplumber) < 100 ->
      vision_client = false \/ 100 <= String.length (strip pymupdf) ->
      extract_text vision_client pdfplumber pymupdf ocr = _clean_text pymupdf)
  /\ (String.length (strip pdfplumber) < 100 -> String.length (strip pymupdf) < 100 ->
      vision_client = true ->
      extract_text vision_client pdfplumber pymupdf ocr = _clean_text ocr).
Proof.
  unfold extract_text. cbv zeta.
  split; [apply clean_text_fixed|].
  split; [rewrite clean_text_join; apply join_no_blank, cleaned_lines_spec|].
  split; [|split].
  - intros Hlong.
    destruct (Nat.ltb_spec (String.length (strip pdfplumber)) 100) as [|_]; [lia|].
    destruct (Nat.ltb_spec (String.length (strip pdfplumber)) 100) as [|_]; [lia|].
    reflexivity.
  - intros Hshort Hcase.
    destruct (Nat.ltb_spec (String.length (strip pdfplumber)) 100) as [_|]; [|lia].
    destruct Hcase as [->|Hlong]; [now rewrite andb_false_r|].
    destruct (Nat.ltb_spec (String.length (strip pymupdf)) 100) as [|_]; [lia|].
    reflexivity.
  - intros Hshort Hshort' ->.
    destruct (Nat.ltb_spec (String.length (strip pdfplumber)) 100) as [_|]; [|lia].
    destruct (Nat.ltb_spec (String.length (strip pymupdf)) 100) as [_|]; [|lia].
    reflexivity.
Qed.

Lemma clean_text_keeps_witness :
  keep_chars (fun c => negb (is_space c)) (_clean_text sample_page)
  = keep_chars (fun c => negb (is_space c)) sample_page.
Proof.
  apply (clean_text_keeps (fun c => negb (is_space c))).
  intros c H. now rewrite H.
Defined.

End TextCleanerFacts.

(* ================================================================== *)
(** ** sheet_generator.py: the rows of a returned record *)

Module SheetFacts.
Import Json PyTime Extractor Cells Frames SheetRows.
Import PyStr PyStrFacts CellFacts SchemaFacts ExtractorFacts.

Lemma deal_summary_row_shaped d :
  dict_keys d = schema_fields DealSummary ->
  deal_summary_row d = JStr "" :: map snd d.
Proof.
  unfold dict_keys. intros H.
  do 12 (destruct d as [|[? ?] d]; [discriminate H|]).
  destruct d; [|discriminate H].
  cbn [map fst schema_fields] in H.
  injection H as -> -> -> -> -> -> -> -> -> -> -> ->.
  reflexivity.
Qed.

Lemma financials_row_shaped d :
  dict_keys d = schema_fields Financials ->
  financials_row d = JStr "" :: map snd d.
Proof.
  unfold dict_keys. intros H.
  do 6 (destruct d as [|[? ?] d]; [discriminate H|]).
  destruct d; [|discriminate H].
  cbn [map fst schema_fields] in H.
  injection H as -> -> -> -> -> ->.
  reflexivity.
Qed.

Lemma advisors_row_shaped d :
  dict_keys d = schema_fields Advisors ->
  advisors_row d = JStr "" :: map snd d.
Proof.
  unfold dict_keys. intros H.
  do 5 (destruct d as [|[? ?] d]; [discriminate H|]).
  destruct d; [|discriminate H].
  cbn [map fst schema_fields] in H.
  injection H as -> -> -> -> ->.
  reflexivity.
Qed.

Section WithRuntime.
Context {rt : PyRuntime}.

(** X21: for a record that [process_document] returns on a schema whose data
    sections have their fields, the rows written to the sheets "Deal
    Summary", "Financials" and "Advisors" are an empty Deal ID cell followed
    by the values of the section in the order of the schema, one cell per
    header: the rows read [deal_id] from their own section, which never has
    it, although [metadata.deal_id] holds an identifier whenever the [try]
    block completed. *)
Theorem rows_of_a_record w text doc_type st :
  data_sections_shaped st ->
  let r := fst (process_document w text doc_type st) in
  deal_summary_row (deal_summary r) = JStr "" :: map snd (deal_summary r)
  /\ financials_row (financials r) = JStr "" :: map snd (financials r)
  /\ advisors_row (advisors r) = JStr "" :: map snd (advisors r)
  /\ List.length (deal_summary_row (deal_summary r))
     = List.length (headers_of "Deal Summary" worksheets_config)
  /\ List.length (financials_row (financials r))
     = List.length (headers_of "Financials" worksheets_config)
  /\ List.length (advisors_row (advisors r))
     = List.length (headers_of "Advisors" worksheets_config)
  /\ (forall st', process_body w text doc_type st = (inr tt, st') ->
                  exists id, store_get r Metadata "deal_id" = Some (JStr id)
                             /\ starts_with "DEAL_" id = true).
Proof.
  intros Hshape. cbv zeta.
  assert (Hkeys : forall s, s <> Metadata ->
            dict_keys (fields_of (fst (process_document w text doc_type st)) s)
            = schema_fields s).
  { intros s Hs.
    destruct (process_document_store w text doc_type st) as (st1 & _ & [E|[e E]]);
      pose proof (data_sections_kept w text doc_type st s Hs) as Hk;
      rewrite E in *; cbn [fst snd] in *; rewrite Hk; now apply Hshape. }
  split; [apply deal_summary_row_shaped, (Hkeys DealSummary); discriminate|].
  split; [apply financials_row_shaped, (Hkeys Financials); discriminate|].
  split; [apply advisors_row_shaped, (Hkeys Advisors); discriminate|].
  repeat (split; [reflexivity|]).
  intros st' Hok.
  unfold process_document. rewrite Hok. cbn [fst].
  destruct (body_ok_stamped _ _ _ _ _ Hok) as [st1 ->].
  destruct (stamped_reads w st1) as (_ & id & Hid & Hs & _).
  now exists id.
Qed.

End WithRuntime.

Lemma rows_of_a_record_witness :
  financials_row
    (financials (fst (@process_document Sample.runtime (Sample.answering "{}") "text" "other"
                                        (mna_schema Sample.created))))
  = JStr "" :: map snd
      (financials (fst (@process_document Sample.runtime (Sample.answering "{}") "text"
                                          "other" (mna_schema Sample.created)))).
Proof.
  refine (proj1 (proj2 (@rows_of_a_record Sample.runtime (Sample.answering "{}") "text"
                                          "other" (mna_schema Sample.created) _))).
  intros [] _; reflexivity.
Defined.

End SheetFacts.

(* ================================================================== *)
(** ** main.py: what the two POST handlers answer *)

Module EndpointFacts.
Import Json PyTime Extractor Cells Frames Endpoints Classifier.
Import CellFacts ClassifierFacts ProcessClaims ExtractorFacts.

Section WithRuntime.
Context {rt : PyRuntime} {ht : HttpRuntime}.

(** X22: the two validation errors are raised inside the [try] block, so the
    handler of [except Exception] answers them: an upload whose name does
    not end in [.pdf], and an export without [extracted_data], get status
    500, with the text of the 400 error in the detail; no request to the two
    handlers is ever answered with another error status than 500.  A
    rejected upload leaves the schema untouched. *)
Theorem validation_errors_answered_500 :
  (forall u w st,
      ends_with ".pdf" (filename u) = false ->
      upload_document u w st
      = (HTTPException 500 ("Error processing document: "
                            ++ http_exception_str 400 "Only PDF files are supported")%string,
         st))
  /\ (forall write_to_sheet data,
         dict_mem data "extracted_data" = false ->
         export_to_sheets write_to_sheet data
         = HTTPException 500 ("Error exporting to sheets: "
                              ++ http_exception_str 400 "Missing extracted_data")%string)
  /\ (forall u w st status_code detail,
         fst (upload_document u w st) = HTTPException status_code detail ->
         status_code = 500)
  /\ (forall write_to_sheet data status_code detail,
         export_to_sheets write_to_sheet data = HTTPException status_code detail ->
         status_code = 500).
Proof.
  split; [|split; [|split]].
  - intros u w st H. unfold upload_document, upload_try. now rewrite H.
  - intros wts data H. unfold export_to_sheets, export_try. now rewrite H.
  - intros u w st code detail. unfold upload_document.
    destruct (upload_try u w st) as [[x|r] st']; cbn [fst]; congruence.
  - intros wts data code detail. unfold export_to_sheets.
    destruct (export_try wts data); congruence.
Qed.

(** X23: an upload named [*.pdf] whose text is extracted and whose temporary
    file is removed is always answered with status "success", also when the
    completion call fails: the answer names the document type that
    [classify_document] gives for the whole text, which is one of the
    supported types, and carries the record of [process_document], with the
    description of the failure in [metadata.extraction_error]. *)
Theorem upload_answers_success u w st text :
  ends_with ".pdf" (filename u) = true ->
  extracted u = inr text ->
  unlink_error u = None ->
  exists r,
    upload_document u w st
    = (Returned r, snd (process_document w text (classify_document text) st))
    /\ status r = "success"%string
    /\ result_filename r = filename u
    /\ doc_type r = classify_document text
    /\ In (doc_type r) document_types
    /\ extracted_data r = fst (process_document w text (classify_document text) st)
    /\ (forall e,
           response w text (classify_document text) st = inl e ->
           store_get (extracted_data r) Metadata "extraction_error"
           = Some (JStr (exn_str e))).
Proof.
  intros Hpdf Htext Hunlink.
  unfold upload_document, upload_try. rewrite Hpdf, Htext, Hunlink. cbn [negb].
  destruct (process_document w text (classify_document text) st) as [r st'] eqn:E.
  eexists. split; [reflexivity|]. cbn [status result_filename doc_type extracted_data snd fst].
  repeat split; [apply classify_closed|].
  intros e He.
  assert (Hr : r = store_set st Metadata "extraction_error" (JStr (exn_str e))).
  { unfold process_document in E. rewrite process_body_cases, He in E. congruence. }
  rewrite Hr.
  rewrite (store_get_set _ Metadata "extraction_error" _ (Metadata, "extraction_error")).
  now rewrite cell_eqb_refl.
Qed.

End WithRuntime.

Lemma upload_answers_success_witness :
  exists r,
    @upload_document Sample.runtime sample_http sample_upload (Sample.failing "timeout")
                     (mna_schema Sample.created)
    = (Returned r,
       snd (@process_document Sample.runtime (Sample.failing "timeout")
                              "Acme announces the merger"
                              (classify_document "Acme announces the merger")
                              (mna_schema Sample.created)))
    /\ status r = "success"%string
    /\ result_filename r = "deal.pdf"%string
    /\ doc_type r = classify_document "Acme announces the merger"
    /\ In (doc_type r) document_types
    /\ extracted_data r
       = fst (@process_document Sample.runtime (Sample.failing "timeout")
                                "Acme announces the merger"
                                (classify_document "Acme announces the merger")
                                (mna_schema Sample.created))
    /\ (forall e,
           @response Sample.runtime (Sample.failing "timeout") "Acme announces the merger"
                     (classify_document "Acme announces the merger")
                     (mna_schema Sample.created) = inl e ->
           store_get (extracted_data r) Metadata "extraction_error"
           = Some (JStr (@exn_str Sample.runtime e))).
Proof.
  apply (@upload_answers_success Sample.runtime sample_http sample_upload
           (Sample.failing "timeout") (mna_schema Sample.created)
           "Acme announces the merger");
    reflexivity.
Defined.

End EndpointFacts.
